(** * ORM-Agent backend: sentiment classification, priority scoring and
      time-windowed alerting

    A shallow embedding of [backend/server.py]:
    - Python [float] is IEEE-754 binary64, embedded as Rocq's primitive
      [float]; [x >= y] is written [y <=? x], [x > y] is [y <? x];
    - Python [int] is [Z]; [datetime] is a [Z] count of microseconds and
      [timedelta(hours=n)] is [hours n]; a date that goes through the
      storage is cut to the millisecond ([bson_date]);
    - pydantic models are records, one module per model; [m.dict()] is the
      association list of the model's fields, which MongoDB stores as a
      BSON document ([bson]);
    - the [async] handlers run in a state-and-exception monad over the
      MongoDB collections; the clock ([datetime.utcnow]), the identifier
      source ([uuid.uuid4]) and the availability of the storage server are
      inputs from the environment. *)

From Stdlib Require Import ZArith Uint63 Floats Lia List String Bool.
From Stdlib Require Import DecimalString.
Import ListNotations.
#[local] Set Warnings "-inexact-float,-register-all".
#[local] Open Scope string_scope.
#[local] Open Scope Z_scope.
#[local] Open Scope list_scope.

(** ** Python values and documents *)

Inductive Value : Type :=
| VNone
| VBool (b : bool)
| VInt (z : Z)
| VFloat (f : float)
| VStr (s : string)
| VDate (t : Z)
| VDict (d : list (string * Value)).

(** A [dict] with string keys, in insertion order; also a BSON document. *)
Definition Document : Type := list (string * Value).

(** [d.get(key)] *)
Fixpoint dict_get (key : string) (d : Document) : option Value :=
  match d with
  | [] => None
  | (k, v) :: rest => if String.eqb k key then Some v else dict_get key rest
  end.

(** [key in d] *)
Definition dict_has (key : string) (d : Document) : bool :=
  match dict_get key d with Some _ => true | None => false end.

(** [v == s] for a string [s] *)
Definition value_eq_str (v : option Value) (s : string) : bool :=
  match v with
  | Some (VStr s') => String.eqb s' s
  | _ => false
  end.

(** ** BSON dates

    MongoDB keeps a date as a count of milliseconds. The driver cuts the
    microseconds off every [datetime] it encodes, in a document it sends
    to be stored as in the bounds of a query; what is read back has whole
    milliseconds. The Python objects that were encoded are not changed. *)

Definition bson_date (t : Z) : Z := t / 1000 * 1000.

Fixpoint bson_value (v : Value) : Value :=
  match v with
  | VDate t => VDate (bson_date t)
  | VDict d => VDict (map (fun '(k, v) => (k, bson_value v)) d)
  | _ => v
  end.

(** The document as the server stores it. *)
Definition bson (doc : Document) : Document :=
  map (fun '(k, v) => (k, bson_value v)) doc.

Definition VOptInt (o : option Z) : Value :=
  match o with Some z => VInt z | None => VNone end.

Definition VOptDate (o : option Z) : Value :=
  match o with Some t => VDate t | None => VNone end.

(** ** Floats and integers *)

(** [x >= y] and [x > y] on Python floats. *)
Definition float_ge (x y : float) : bool := (y <=? x)%float.
Definition float_gt (x y : float) : bool := (y <? x)%float.

(** [float(n)] for an [int] below [2^63] in magnitude. *)
Definition float_of_int (n : Z) : float :=
  if n <? 0 then (- PrimFloat.of_uint63 (Uint63.of_Z (- n)))%float
  else PrimFloat.of_uint63 (Uint63.of_Z n).

(** [a / b] on two [int]s, [b] not zero: the correctly rounded quotient.
    For operands below [2^53] in magnitude, which convert exactly, this is
    the binary64 division of the two conversions. *)
Definition int_truediv (a b : Z) : float :=
  (float_of_int a / float_of_int b)%float.

(** [len(l)] *)
Definition len {A} (l : list A) : Z := Z.of_nat (List.length l).

(** [timedelta(hours=n)] in microseconds. *)
Definition hours (n : Z) : Z := n * 3600000000.

(** ** Enums *)

Inductive Platform := FACEBOOK | INSTAGRAM.
Inductive SentimentType := POSITIVE | NEGATIVE | NEUTRAL.
Inductive AlertType := SENTIMENT | VOLUME | RESPONSE_TIME.
Inductive AlertSeverity := LOW | MEDIUM | HIGH | CRITICAL.

(** The members are [str] subclasses: their value is what is stored. *)
Definition Platform_value (p : Platform) : string :=
  match p with FACEBOOK => "facebook" | INSTAGRAM => "instagram" end.

Definition SentimentType_value (t : SentimentType) : string :=
  match t with
  | POSITIVE => "positive" | NEGATIVE => "negative" | NEUTRAL => "neutral"
  end.

Definition AlertType_value (t : AlertType) : string :=
  match t with
  | SENTIMENT => "sentiment" | VOLUME => "volume"
  | RESPONSE_TIME => "response_time"
  end.

Definition AlertSeverity_value (s : AlertSeverity) : string :=
  match s with
  | LOW => "low" | MEDIUM => "medium" | HIGH => "high" | CRITICAL => "critical"
  end.

(** ** Models *)

Module CommentCreate.
Record t := mk {
  brand_id : string;
  platform : Platform;
  platform_id : string;
  content : string;
  author_name : string;
  author_id : string;
  post_id : string }.
End CommentCreate.

Module Comment.
Record t := mk {
  id : string;
  brand_id : string;
  platform : Platform;
  platform_id : string;
  content : string;
  author_name : string;
  author_id : string;
  post_id : string;
  created_at : Z;
  sentiment_score : float;
  sentiment_type : SentimentType;
  needs_response : bool;
  has_response : bool;
  response_time : option Z;
  priority : Z }.

Definition dict (c : t) : Document :=
  [ ("id", VStr (id c));
    ("brand_id", VStr (brand_id c));
    ("platform", VStr (Platform_value (platform c)));
    ("platform_id", VStr (platform_id c));
    ("content", VStr (content c));
    ("author_name", VStr (author_name c));
    ("author_id", VStr (author_id c));
    ("post_id", VStr (post_id c));
    ("created_at", VDate (created_at c));
    ("sentiment_score", VFloat (sentiment_score c));
    ("sentiment_type", VStr (SentimentType_value (sentiment_type c)));
    ("needs_response", VBool (needs_response c));
    ("has_response", VBool (has_response c));
    ("response_time", VOptInt (response_time c));
    ("priority", VInt (priority c)) ].
End Comment.

Module MentionCreate.
Record t := mk {
  brand_id : string;
  platform : Platform;
  platform_id : string;
  content : string;
  author_name : string;
  author_id : string;
  url : string;
  reach : Z;
  engagement : Z }.
End MentionCreate.

Module Mention.
Record t := mk {
  id : string;
  brand_id : string;
  platform : Platform;
  platform_id : string;
  content : string;
  author_name : string;
  author_id : string;
  url : string;
  created_at : Z;
  sentiment_score : float;
  sentiment_type : SentimentType;
  reach : Z;
  engagement : Z }.

Definition dict (m : t) : Document :=
  [ ("id", VStr (id m));
    ("brand_id", VStr (brand_id m));
    ("platform", VStr (Platform_value (platform m)));
    ("platform_id", VStr (platform_id m));
    ("content", VStr (content m));
    ("author_name", VStr (author_name m));
    ("author_id", VStr (author_id m));
    ("url", VStr (url m));
    ("created_at", VDate (created_at m));
    ("sentiment_score", VFloat (sentiment_score m));
    ("sentiment_type", VStr (SentimentType_value (sentiment_type m)));
    ("reach", VInt (reach m));
    ("engagement", VInt (engagement m)) ].
End Mention.

Module PostCreate.
Record t := mk {
  brand_id : string;
  platform : Platform;
  platform_id : string;
  content : string;
  likes : Z;
  shares : Z;
  comments_count : Z }.
End PostCreate.

Module Post.
Record t := mk {
  id : string;
  brand_id : string;
  platform : Platform;
  platform_id : string;
  content : string;
  created_at : Z;
  likes : Z;
  shares : Z;
  comments_count : Z;
  sentiment_score : float;
  sentiment_type : SentimentType }.

Definition dict (p : t) : Document :=
  [ ("id", VStr (id p));
    ("brand_id", VStr (brand_id p));
    ("platform", VStr (Platform_value (platform p)));
    ("platform_id", VStr (platform_id p));
    ("content", VStr (content p));
    ("created_at", VDate (created_at p));
    ("likes", VInt (likes p));
    ("shares", VInt (shares p));
    ("comments_count", VInt (comments_count p));
    ("sentiment_score", VFloat (sentiment_score p));
    ("sentiment_type", VStr (SentimentType_value (sentiment_type p))) ].
End Post.

Module AlertCreate.
Record t := mk {
  brand_id : string;
  alert_type : AlertType;
  severity : AlertSeverity;
  title : string;
  description : string;
  data : Document }.
End AlertCreate.

Module Alert.
Record t := mk {
  id : string;
  brand_id : string;
  alert_type : AlertType;
  severity : AlertSeverity;
  title : string;
  description : string;
  created_at : Z;
  is_acknowledged : bool;
  acknowledged_at : option Z;
  data : Document }.

Definition dict (a : t) : Document :=
  [ ("id", VStr (id a));
    ("brand_id", VStr (brand_id a));
    ("alert_type", VStr (AlertType_value (alert_type a)));
    ("severity", VStr (AlertSeverity_value (severity a)));
    ("title", VStr (title a));
    ("description", VStr (description a));
    ("created_at", VDate (created_at a));
    ("is_acknowledged", VBool (is_acknowledged a));
    ("acknowledged_at", VOptDate (acknowledged_at a));
    ("data", VDict (data a)) ].
End Alert.

(** ** Sentiment analysis functions *)

(** [calculate_priority(sentiment_score, engagement=0)] *)
Definition calculate_priority (sentiment_score : float) (engagement : Z) : Z :=
  let priority := 0 in
  let priority :=
    if (sentiment_score <=? -0.5)%float then priority + 5
    else if (sentiment_score <=? -0.1)%float then priority + 3
    else if float_ge sentiment_score 0.5 then priority + 1
    else priority in
  let priority :=
    if engagement >? 100 then priority + 2
    else if engagement >? 50 then priority + 1
    else priority in
  Z.min priority 5.

(** ** The storage collaborator and the environment *)

Inductive Collection := COMMENTS | MENTIONS | POSTS | ALERTS.

(** [db.comments], [db.mentions], [db.posts], [db.alerts]: the documents of
    each collection in natural (insertion) order, without the [_id] the
    server adds. *)
Record Database := mkDatabase {
  comments : list Document;
  mentions : list Document;
  posts : list Document;
  alerts : list Document }.

Definition collection (c : Collection) (d : Database) : list Document :=
  match c with
  | COMMENTS => comments d
  | MENTIONS => mentions d
  | POSTS => posts d
  | ALERTS => alerts d
  end.

Definition append_document (c : Collection) (doc : Document) (d : Database)
  : Database :=
  match c with
  | COMMENTS =>
      mkDatabase (comments d ++ [doc]) (mentions d) (posts d) (alerts d)
  | MENTIONS =>
      mkDatabase (comments d) (mentions d ++ [doc]) (posts d) (alerts d)
  | POSTS =>
      mkDatabase (comments d) (mentions d) (posts d ++ [doc]) (alerts d)
  | ALERTS =>
      mkDatabase (comments d) (mentions d) (posts d) (alerts d ++ [doc])
  end.

(** The filters the handlers build: [{key: s}], [{key: {"$gte": t}}] and
    [{key: {"$gte": lo, "$lt": hi}}]; a query is their conjunction. *)
Inductive Condition :=
| FieldIs (key : string) (s : string)
| FieldGte (key : string) (t : Z)
| FieldGteLt (key : string) (lo hi : Z).

Definition Query : Type := list Condition.

Definition holds (c : Condition) (doc : Document) : bool :=
  match c with
  | FieldIs key s => value_eq_str (dict_get key doc) s
  | FieldGte key t =>
      match dict_get key doc with Some (VDate t') => t <=? t' | _ => false end
  | FieldGteLt key lo hi =>
      match dict_get key doc with
      | Some (VDate t') => (lo <=? t') && (t' <? hi)
      | _ => false
      end
  end.

Definition matches (q : Query) (doc : Document) : bool :=
  forallb (fun c => holds c doc) q.

(** The query as the server evaluates it: its dates are BSON dates. *)
Definition bson_condition (c : Condition) : Condition :=
  match c with
  | FieldIs key s => FieldIs key s
  | FieldGte key t => FieldGte key (bson_date t)
  | FieldGteLt key lo hi => FieldGteLt key (bson_date lo) (bson_date hi)
  end.

Definition bson_query (q : Query) : Query := map bson_condition q.

(** The requests the handlers make, with the documents and queries as
    they hand them to the driver. *)
Inductive Request :=
| InsertOne (c : Collection) (doc : Document)
| FindToList (c : Collection) (q : Query) (length : nat)
| CountDocuments (c : Collection) (q : Query).

Inductive Exn := StorageUnavailable.

Inductive Result (A : Type) :=
| Ok (a : A)
| Raised (e : Exn).
Arguments Ok {A} a.
Arguments Raised {A} e.

(** What a run is given from outside: the successive readings of the clock,
    the successive identifiers, and which storage requests (numbered from 0
    in the order they are sent) fail. *)
Record Env := mkEnv {
  clock : nat -> Z;
  uuids : nat -> string;
  storage_fault : nat -> bool }.

Record State := mkState {
  db : Database;
  clock_reads : nat;
  uuid_draws : nat;
  requests : list Request }.

(** A handler: it reads the environment, changes the state and returns or
    raises; the state reached is kept when it raises. *)
Definition M (A : Type) : Type := Env -> State -> Result A * State.

Definition ret {A} (a : A) : M A := fun _ s => (Ok a, s).

Definition bind {A B} (m : M A) (k : A -> M B) : M B :=
  fun env s =>
    match m env s with
    | (Ok a, s') => k a env s'
    | (Raised e, s') => (Raised e, s')
    end.

Notation "x <- m ;; k" := (bind m (fun x => k))
  (at level 61, m at next level, right associativity).
Notation "m ;;; k" := (bind m (fun _ => k))
  (at level 61, right associativity).

(** The state after one more reading of the clock, one more identifier
    drawn, and one more request sent that left the database as [d]. *)
Definition clock_read (s : State) : State :=
  mkState (db s) (S (clock_reads s)) (uuid_draws s) (requests s).

Definition uuid_drawn (s : State) : State :=
  mkState (db s) (clock_reads s) (S (uuid_draws s)) (requests s).

Definition request_sent (rq : Request) (d : Database) (s : State) : State :=
  mkState d (clock_reads s) (uuid_draws s) (requests s ++ [rq]).

(** The number of requests sent so far: the number of the next one. *)
Definition sent (s : State) : nat := List.length (requests s).

(** [datetime.utcnow()] *)
Definition utcnow : M Z :=
  fun env s => (Ok (clock env (clock_reads s)), clock_read s).

(** [str(uuid.uuid4())] *)
Definition uuid4 : M string :=
  fun env s => (Ok (uuids env (uuid_draws s)), uuid_drawn s).

(** One round trip to the storage server: the request is sent, and either
    fails or is answered from, and applied to, the database. *)
Definition storage_call {A} (rq : Request) (serve : Database -> A * Database)
  : M A :=
  fun env s =>
    if storage_fault env (sent s) then
      (Raised StorageUnavailable, request_sent rq (db s) s)
    else
      (Ok (fst (serve (db s))), request_sent rq (snd (serve (db s))) s).

(** [await db.<c>.insert_one(doc)]: the server stores the BSON document. *)
Definition insert_one (c : Collection) (doc : Document) : M unit :=
  storage_call (InsertOne c doc)
    (fun d => (tt, append_document c (bson doc) d)).

(** [await db.<c>.find(q).to_list(length)] *)
Definition find_to_list (c : Collection) (q : Query) (length : nat)
  : M (list Document) :=
  storage_call (FindToList c q length)
    (fun d =>
       (firstn length (filter (matches (bson_query q)) (collection c d)),
        d)).

(** [await db.<c>.count_documents(q)] *)
Definition count_documents (c : Collection) (q : Query) : M Z :=
  storage_call (CountDocuments c q)
    (fun d => (len (filter (matches (bson_query q)) (collection c d)), d)).

Section Backend.

(** [sentiment_analyzer.polarity_scores(text)['compound']] of the VADER
    analyzer, and Python's [format(x, '.1%')]. *)
Variable polarity_compound : string -> float.
Variable format_percent : float -> string.

(** [analyze_sentiment(text)] *)
Definition analyze_sentiment (text : string) : float * SentimentType :=
  let compound_score := polarity_compound text in
  let sentiment_type :=
    if float_ge compound_score 0.05 then POSITIVE
    else if (compound_score <=? -0.05)%float then NEGATIVE
    else NEUTRAL in
  (compound_score, sentiment_type).

(** ** Alert system functions *)

(** [create_alert(alert_data)]: building the [Alert] from the fields of
    [alert_data] draws the identifier and the creation time (the default
    factories of [id] and [created_at], in field order). *)
Definition create_alert (alert_data : AlertCreate.t) : M Alert.t :=
  id <- uuid4 ;;
  created_at <- utcnow ;;
  let alert :=
    Alert.mk id
      (AlertCreate.brand_id alert_data)
      (AlertCreate.alert_type alert_data)
      (AlertCreate.severity alert_data)
      (AlertCreate.title alert_data)
      (AlertCreate.description alert_data)
      created_at false None
      (AlertCreate.data alert_data) in
  insert_one ALERTS (Alert.dict alert) ;;;
  ret alert.

(** [check_sentiment_alerts(brand_id)] *)
Definition check_sentiment_alerts (brand_id : string) : M unit :=
  now <- utcnow ;;
  let two_hours_ago := now - hours 2 in
  recent_comments <-
    find_to_list COMMENTS
      [FieldIs "brand_id" brand_id; FieldGte "created_at" two_hours_ago]
      1000 ;;
  match recent_comments with
  | [] => ret tt
  | _ :: _ =>
    let negative_comments :=
      filter (fun c => value_eq_str (dict_get "sentiment_type" c) "negative")
        recent_comments in
    let negative_ratio :=
      int_truediv (len negative_comments) (len recent_comments) in
    if float_gt negative_ratio 0.3 then
      let alert :=
        AlertCreate.mk brand_id SENTIMENT
          (if float_gt negative_ratio 0.5 then HIGH else MEDIUM)
          "High Negative Sentiment Detected"
          ("Negative sentiment ratio: " ++ format_percent negative_ratio
             ++ " in the last 2 hours")
          [ ("negative_ratio", VFloat negative_ratio);
            ("total_comments", VInt (len recent_comments)) ] in
      create_alert alert ;;; ret tt
    else ret tt
  end.

(** [check_volume_alerts(brand_id)] *)
Definition check_volume_alerts (brand_id : string) : M unit :=
  now1 <- utcnow ;;
  let one_hour_ago := now1 - hours 1 in
  now2 <- utcnow ;;
  let two_hours_ago := now2 - hours 2 in
  current_hour_count <-
    count_documents COMMENTS
      [FieldIs "brand_id" brand_id; FieldGte "created_at" one_hour_ago] ;;
  previous_hour_count <-
    count_documents COMMENTS
      [FieldIs "brand_id" brand_id;
       FieldGteLt "created_at" two_hours_ago one_hour_ago] ;;
  if previous_hour_count >? 0 then
    let volume_increase :=
      int_truediv (current_hour_count - previous_hour_count)
        previous_hour_count in
    if float_gt volume_increase 2.0 then
      let alert :=
        AlertCreate.mk brand_id VOLUME HIGH
          "Unusual Activity Volume"
          ("Comment volume increased by " ++ format_percent volume_increase
             ++ " in the last hour")
          [ ("volume_increase", VFloat volume_increase);
            ("current_count", VInt current_hour_count) ] in
      create_alert alert ;;; ret tt
    else ret tt
  else ret tt.

(** ** API routes *)

(** [POST /comments] *)
Definition create_comment (comment_data : CommentCreate.t) : M Comment.t :=
  let '(sentiment_score, sentiment_type) :=
    analyze_sentiment (CommentCreate.content comment_data) in
  let priority := calculate_priority sentiment_score 0 in
  let needs_response :=
    (sentiment_score <? -0.1)%float || (priority >=? 3) in
  id <- uuid4 ;;
  created_at <- utcnow ;;
  let comment :=
    Comment.mk id
      (CommentCreate.brand_id comment_data)
      (CommentCreate.platform comment_data)
      (CommentCreate.platform_id comment_data)
      (CommentCreate.content comment_data)
      (CommentCreate.author_name comment_data)
      (CommentCreate.author_id comment_data)
      (CommentCreate.post_id comment_data)
      created_at sentiment_score sentiment_type needs_response
      false None priority in
  insert_one COMMENTS (Comment.dict comment) ;;;
  check_sentiment_alerts (CommentCreate.brand_id comment_data) ;;;
  check_volume_alerts (CommentCreate.brand_id comment_data) ;;;
  ret comment.

(** [POST /mentions] *)
Definition create_mention (mention_data : MentionCreate.t) : M Mention.t :=
  let '(sentiment_score, sentiment_type) :=
    analyze_sentiment (MentionCreate.content mention_data) in
  id <- uuid4 ;;
  created_at <- utcnow ;;
  let mention :=
    Mention.mk id
      (MentionCreate.brand_id mention_data)
      (MentionCreate.platform mention_data)
      (MentionCreate.platform_id mention_data)
      (MentionCreate.content mention_data)
      (MentionCreate.author_name mention_data)
      (MentionCreate.author_id mention_data)
      (MentionCreate.url mention_data)
      created_at sentiment_score sentiment_type
      (MentionCreate.reach mention_data)
      (MentionCreate.engagement mention_data) in
  insert_one MENTIONS (Mention.dict mention) ;;;
  ret mention.

(** [POST /posts] *)
Definition create_post (post_data : PostCreate.t) : M Post.t :=
  let '(sentiment_score, sentiment_type) :=
    analyze_sentiment (PostCreate.content post_data) in
  id <- uuid4 ;;
  created_at <- utcnow ;;
  let post :=
    Post.mk id
      (PostCreate.brand_id post_data)
      (PostCreate.platform post_data)
      (PostCreate.platform_id post_data)
      (PostCreate.content post_data)
      created_at
      (PostCreate.likes post_data)
      (PostCreate.shares post_data)
      (PostCreate.comments_count post_data)
      sentiment_score sentiment_type in
  insert_one POSTS (Post.dict post) ;;;
  ret post.

End Backend.


(** * Vocabulary of the properties *)

(** ** Priority scorer: the bands as the specification words them *)

Definition spec_band (s : float) : Z :=
  if (s <=? -0.5)%float then 5
  else if (s <=? -0.1)%float then 3
  else if (0.5 <=? s)%float then 1
  else 0.

Definition spec_bonus (e : Z) : Z :=
  if 100 <? e then 2 else if 50 <? e then 1 else 0.

(** ** What the server keeps of a model

    The model whose document is the BSON document of the given one: its
    dates are cut to the millisecond. *)

Definition stored_comment (c : Comment.t) : Comment.t :=
  Comment.mk (Comment.id c) (Comment.brand_id c) (Comment.platform c)
    (Comment.platform_id c) (Comment.content c) (Comment.author_name c)
    (Comment.author_id c) (Comment.post_id c)
    (bson_date (Comment.created_at c))
    (Comment.sentiment_score c) (Comment.sentiment_type c)
    (Comment.needs_response c) (Comment.has_response c)
    (Comment.response_time c) (Comment.priority c).

Definition stored_mention (m : Mention.t) : Mention.t :=
  Mention.mk (Mention.id m) (Mention.brand_id m) (Mention.platform m)
    (Mention.platform_id m) (Mention.content m) (Mention.author_name m)
    (Mention.author_id m) (Mention.url m)
    (bson_date (Mention.created_at m))
    (Mention.sentiment_score m) (Mention.sentiment_type m)
    (Mention.reach m) (Mention.engagement m).

Definition stored_post (p : Post.t) : Post.t :=
  Post.mk (Post.id p) (Post.brand_id p) (Post.platform p)
    (Post.platform_id p) (Post.content p)
    (bson_date (Post.created_at p))
    (Post.likes p) (Post.shares p) (Post.comments_count p)
    (Post.sentiment_score p) (Post.sentiment_type p).

Definition stored_alert (a : Alert.t) : Alert.t :=
  Alert.mk (Alert.id a) (Alert.brand_id a) (Alert.alert_type a)
    (Alert.severity a) (Alert.title a) (Alert.description a)
    (bson_date (Alert.created_at a))
    (Alert.is_acknowledged a)
    (option_map bson_date (Alert.acknowledged_at a))
    (bson (Alert.data a)).

(** ** Runs of handlers *)

Definition no_faults (env : Env) : Prop :=
  forall k, storage_fault env k = false.

Definition fault_free (env : Env) (lo hi : nat) : Prop :=
  forall k, (lo <= k < hi)%nat -> storage_fault env k = false.

(** A run that returns met no failing request; a run that raises sent at
    least one request and stopped at its first failing one. *)
Inductive outcome {A} (env : Env) (s s' : State) : Result A -> Prop :=
| returned (a : A) :
    fault_free env (sent s) (sent s') -> outcome env s s' (Ok a)
| raised :
    (sent s < sent s')%nat ->
    fault_free env (sent s) (Nat.pred (sent s')) ->
    storage_fault env (Nat.pred (sent s')) = true ->
    outcome env s s' (Raised StorageUnavailable).

Definition disciplined {A} (m : M A) : Prop :=
  forall env s,
    (sent s <= sent (snd (m env s)))%nat /\
    outcome env s (snd (m env s)) (fst (m env s)).

(** The handler leaves [db.comments] as it found it. *)
Definition keeps_comments {A} (m : M A) : Prop :=
  forall env s, comments (db (snd (m env s))) = comments (db s).

(** ** The windows of the detectors *)

Definition is_negative (doc : Document) : bool :=
  value_eq_str (dict_get "sentiment_type" doc) "negative".

(** What [check_sentiment_alerts] scans at clock reading [now]: at most
    1000 comments of the brand, in storage order, whose stored
    [created_at] is at or after [now - 2h] cut to the millisecond. *)
Definition scanned_window (brand_id : string) (now : Z) (d : Database)
  : list Document :=
  firstn 1000
    (filter
       (matches [FieldIs "brand_id" brand_id;
                 FieldGte "created_at" (bson_date (now - hours 2))])
       (comments d)).

(** The window as the specification words it: every event of the brand,
    comment, mention or post, created in the last two hours. *)
Definition events_in_window (brand_id : string) (now : Z) (d : Database)
  : list Document :=
  filter
    (matches [FieldIs "brand_id" brand_id;
              FieldGte "created_at" (now - hours 2)])
    (comments d ++ mentions d ++ posts d).

(** What [check_volume_alerts] counts, for the two thresholds it computes
    from its two readings of the clock: the comments of the brand whose
    stored [created_at] is at or after [one_hour_ago] cut to the
    millisecond, with no upper bound; and those from [two_hours_ago] to
    [one_hour_ago], both cut to the millisecond, the latter excluded. *)
Definition current_hour_count (brand_id : string) (one_hour_ago : Z)
    (d : Database) : Z :=
  len (filter
         (matches [FieldIs "brand_id" brand_id;
                   FieldGte "created_at" (bson_date one_hour_ago)])
         (comments d)).

Definition previous_hour_count (brand_id : string)
    (two_hours_ago one_hour_ago : Z) (d : Database) : Z :=
  len (filter
         (matches [FieldIs "brand_id" brand_id;
                   FieldGteLt "created_at" (bson_date two_hours_ago)
                     (bson_date one_hour_ago)])
         (comments d)).

(** The two windows as the specification words them: the events of the
    brand, comment, mention or post, of [[now - 1h, now)] and of
    [[now - 2h, now - 1h)]. *)
Definition events_of_current_hour (brand_id : string) (now : Z)
    (d : Database) : list Document :=
  filter
    (matches [FieldIs "brand_id" brand_id;
              FieldGteLt "created_at" (now - hours 1) now])
    (comments d ++ mentions d ++ posts d).

Definition events_of_previous_hour (brand_id : string) (now : Z)
    (d : Database) : list Document :=
  filter
    (matches [FieldIs "brand_id" brand_id;
              FieldGteLt "created_at" (now - hours 2) (now - hours 1)])
    (comments d ++ mentions d ++ posts d).

(** ** Exactness of the ratio tests

    On the counts below, the binary64 quotients the detectors compute
    compare with the binary64 constants [0.3], [0.5] and [2.0] exactly as
    the rational quotients compare with 3/10, 1/2 and 2. The sweeps check
    every pair of counts of a rectangle on machine integers. *)

(** Sentiment detector: [n] negative comments of [m] scanned. *)
Definition ratio_agrees (n m : int) : bool :=
  let r := (PrimFloat.of_uint63 n / PrimFloat.of_uint63 m)%float in
  Bool.eqb (float_gt r 0.3) (3 * m <? 10 * n)%uint63
  && Bool.eqb (float_gt r 0.5) (m <? 2 * n)%uint63.

(** Volume detector: [c] comments in the current hour, [p] in the
    previous one. *)
Definition volume_agrees (c p : int) : bool :=
  let difference :=
    if (c <? p)%uint63 then (- PrimFloat.of_uint63 (p - c))%float
    else PrimFloat.of_uint63 (c - p) in
  Bool.eqb (float_gt (difference / PrimFloat.of_uint63 p)%float 2)
    (3 * p <? c)%uint63.

(** [check n m], ..., [check (n + fuel - 1) m] *)
Fixpoint sweep_row (check : int -> int -> bool) (fuel : nat) (n m : int)
  : bool :=
  match fuel with
  | O => true
  | S fuel' => check n m && sweep_row check fuel' (n + 1)%uint63 m
  end.

(** The rows [m], ..., [m + fuel - 1], each over [0], ..., [width - 1]. *)
Fixpoint sweep_rows (check : int -> int -> bool) (width fuel : nat) (m : int)
  : bool :=
  match fuel with
  | O => true
  | S fuel' =>
      sweep_row check width 0%uint63 m
      && sweep_rows check width fuel' (m + 1)%uint63
  end.

(** ** Requests of the alert path *)

Definition is_alert_insert (rq : Request) : Prop :=
  match rq with
  | InsertOne ALERTS _ => True
  | _ => False
  end.

(** ** Sample runs *)

(** A serving storage, a clock standing at ten o'clock, one identifier. *)
Definition quiet_env : Env :=
  mkEnv (fun _ => hours 10) (fun _ => "0000") (fun _ => false).

(** The same, but the storage fails the request numbered [k]. *)
Definition failing_at (k : nat) : Env :=
  mkEnv (fun _ => hours 10) (fun _ => "0000") (fun n => Nat.eqb n k).

Definition percent_stub (x : float) : string := "?%".

(** An analyzer that finds "awful" very negative and anything else flat. *)
Definition polarity_stub (text : string) : float :=
  if String.eqb text "awful" then (-0.6)%float else 0%float.

Definition sample_comment (created_at : Z) (score : float)
    (t : SentimentType) : Document :=
  Comment.dict
    (Comment.mk "c" "acme" FACEBOOK "pid" "text" "ann" "u1" "p1"
       created_at score t false false None 0).

Definition sample_mention (created_at : Z) (score : float)
    (t : SentimentType) : Document :=
  Mention.dict
    (Mention.mk "m" "acme" FACEBOOK "pid" "text" "ann" "u1" "http://x"
       created_at score t 0 0).

Definition state_of (cs ms : list Document) : State :=
  mkState (mkDatabase cs ms [] []) 0 0 [].

(** 1000 neutral comments, then 700 negative ones, all an hour old. *)
Definition crowded_state : State :=
  state_of
    (repeat (sample_comment (hours 9) 0 NEUTRAL) 1000
       ++ repeat (sample_comment (hours 9) (-0.6) NEGATIVE) 700)
    [].

(** Ten comments of the last two hours, [k] of them negative. *)
Definition ten_comments (k : nat) : State :=
  state_of
    (repeat (sample_comment (hours 9) (-0.6) NEGATIVE) k
       ++ repeat (sample_comment (hours 9) 0 NEUTRAL) (10 - k))
    [].

(** No comment, one negative mention an hour old. *)
Definition mention_only_state : State :=
  state_of [] [sample_mention (hours 9) (-0.6) NEGATIVE].

(** [p] comments in the previous hour and [c] in the current one. *)
Definition volume_state (p c : nat) : State :=
  state_of
    (repeat (sample_comment (hours 8 + 1000) 0 NEUTRAL) p
       ++ repeat (sample_comment (hours 9 + 1000) 0 NEUTRAL) c)
    [].

(** No comment; ten mentions in the previous hour and 35 in the current
    one. *)
Definition mention_volume_state : State :=
  state_of []
    (repeat (sample_mention (hours 8 + 1000) 0 NEUTRAL) 10
       ++ repeat (sample_mention (hours 9 + 1000) 0 NEUTRAL) 35).

(** A clock half a millisecond past ten o'clock: a reading with
    microseconds. *)
Definition odd_env : Env :=
  mkEnv (fun _ => hours 10 + 500) (fun _ => "0000") (fun _ => false).

Definition awful_comment : CommentCreate.t :=
  CommentCreate.mk "acme" FACEBOOK "pid" "awful" "ann" "u1" "p1".

Definition awful_mention : MentionCreate.t :=
  MentionCreate.mk "acme" FACEBOOK "pid" "awful" "ann" "u1" "http://x" 0 0.

Definition awful_post : PostCreate.t :=
  PostCreate.mk "acme" FACEBOOK "pid" "awful" 0 0 0.

(** * Further properties of comment ingestion: vocabulary *)

(** An alert document as [create_alert] writes it for a brand: the
    document of an [Alert] not yet acknowledged, of the type of one of the
    two detectors. *)
Definition fresh_alert (brand_id : string) (doc : Document) : Prop :=
  exists a,
    doc = Alert.dict a /\
    Alert.brand_id a = brand_id /\
    (Alert.alert_type a = SENTIMENT \/ Alert.alert_type a = VOLUME) /\
    Alert.is_acknowledged a = false /\
    Alert.acknowledged_at a = None.

(** A handler of the alert path for a brand: whatever the storage does, it
    writes nothing but at most [max_alerts] fresh alerts of the brand,
    appended to [db.alerts], and sends at most [max_requests] requests. *)
Definition alert_path (brand_id : string) (max_alerts max_requests : nat)
    {A} (m : M A) : Prop :=
  forall env s,
    let s' := snd (m env s) in
    comments (db s') = comments (db s) /\
    mentions (db s') = mentions (db s) /\
    posts (db s') = posts (db s) /\
    (exists new,
       alerts (db s') = alerts (db s) ++ new /\
       (List.length new <= max_alerts)%nat /\
       Forall (fresh_alert brand_id) new) /\
    (sent s <= sent s' <= sent s + max_requests)%nat.

(** * The other routes: brands, responses and acknowledgements *)

(** ** Brand models *)

(** A field of a request body that may be left out ([exclude_unset] tells
    the fields given from the fields left at their default). *)
Inductive Provided (A : Type) :=
| Unset
| Given (v : A).
Arguments Unset {A}.
Arguments Given {A} v.

Definition VOptStr (o : option string) : Value :=
  match o with Some s => VStr s | None => VNone end.

Module BrandCreate.
Record t := mk {
  name : string;
  facebook_page_id : Provided (option string);
  instagram_business_id : Provided (option string) }.

(** The value of an optional field: its default is [None]. *)
Definition value (p : Provided (option string)) : option string :=
  match p with Given v => v | Unset => None end.

Definition given (key : string) (p : Provided (option string)) : Document :=
  match p with Given v => [(key, VOptStr v)] | Unset => [] end.

(** [brand_data.dict(exclude_unset=True)] *)
Definition dict_exclude_unset (b : t) : Document :=
  ("name", VStr (name b))
    :: given "facebook_page_id" (facebook_page_id b)
    ++ given "instagram_business_id" (instagram_business_id b).
End BrandCreate.

Module Brand.
Record t := mk {
  id : string;
  name : string;
  facebook_page_id : option string;
  instagram_business_id : option string;
  created_at : Z;
  is_active : bool;
  settings : Document }.

Definition dict (b : t) : Document :=
  [ ("id", VStr (id b));
    ("name", VStr (name b));
    ("facebook_page_id", VOptStr (facebook_page_id b));
    ("instagram_business_id", VOptStr (instagram_business_id b));
    ("created_at", VDate (created_at b));
    ("is_active", VBool (is_active b));
    ("settings", VDict (settings b)) ].

Definition optional_str (v : Value) : option (option string) :=
  match v with
  | VNone => Some None
  | VStr s => Some (Some s)
  | _ => None
  end.

(** Building a [Brand] from the keys of a stored document, for a document
    that has every field of the model with a value of the field's type, as
    the documents written by these routes have. [None] stands for any
    other document: what pydantic makes of it (a default, a coercion, a
    validation error) is not modelled. *)
Definition of_dict (d : Document) : option t :=
  match dict_get "id" d, dict_get "name" d,
        dict_get "facebook_page_id" d, dict_get "instagram_business_id" d,
        dict_get "created_at" d, dict_get "is_active" d,
        dict_get "settings" d with
  | Some (VStr i), Some (VStr n), Some f, Some g,
    Some (VDate c), Some (VBool a), Some (VDict st) =>
      match optional_str f, optional_str g with
      | Some f', Some g' => Some (mk i n f' g' c a st)
      | _, _ => None
      end
  | _, _, _, _, _, _, _ => None
  end.

(** [setattr(brand, key, value)] for the keys and values of a
    [BrandCreate]; [None] for anything else. *)
Definition setattr (b : t) (key : string) (value : Value) : option t :=
  if String.eqb key "name" then
    match value with
    | VStr s =>
        Some (mk (id b) s (facebook_page_id b) (instagram_business_id b)
                (created_at b) (is_active b) (settings b))
    | _ => None
    end
  else if String.eqb key "facebook_page_id" then
    match optional_str value with
    | Some v =>
        Some (mk (id b) (name b) v (instagram_business_id b)
                (created_at b) (is_active b) (settings b))
    | None => None
    end
  else if String.eqb key "instagram_business_id" then
    match optional_str value with
    | Some v =>
        Some (mk (id b) (name b) (facebook_page_id b) v
                (created_at b) (is_active b) (settings b))
    | None => None
    end
  else None.
End Brand.

(** The brand whose document is the BSON document of the given one. *)
Definition stored_brand (b : Brand.t) : Brand.t :=
  Brand.mk (Brand.id b) (Brand.name b) (Brand.facebook_page_id b)
    (Brand.instagram_business_id b) (bson_date (Brand.created_at b))
    (Brand.is_active b) (bson (Brand.settings b)).

(** ** The store of these routes *)

(** A collection of the database of the alerting core, or [db.brands]. *)
Inductive Target :=
| IN (c : Collection)
| BRANDS.

(** The requests of these routes, as they hand them to the driver. *)
Inductive Call :=
| FindOne (t : Target) (q : Query)
| UpdateOne (t : Target) (q : Query) (set : Document)
| ReplaceOne (t : Target) (q : Query) (doc : Document)
| InsertBrand (doc : Document)
| FindActiveBrands (length : nat).

(** The state of the alerting core, [db.brands], and the requests these
    routes have sent. *)
Record Store := mkStore {
  core : State;
  brands : list Document;
  calls : list Call }.

Definition with_collection (c : Collection) (docs : list Document)
    (d : Database) : Database :=
  match c with
  | COMMENTS => mkDatabase docs (mentions d) (posts d) (alerts d)
  | MENTIONS => mkDatabase (comments d) docs (posts d) (alerts d)
  | POSTS => mkDatabase (comments d) (mentions d) docs (alerts d)
  | ALERTS => mkDatabase (comments d) (mentions d) (posts d) docs
  end.

Definition documents (t : Target) (st : Store) : list Document :=
  match t with
  | IN c => collection c (db (core st))
  | BRANDS => brands st
  end.

Definition with_documents (t : Target) (docs : list Document) (st : Store)
  : Store :=
  match t with
  | IN c =>
      mkStore
        (mkState (with_collection c docs (db (core st)))
           (clock_reads (core st)) (uuid_draws (core st))
           (requests (core st)))
        (brands st) (calls st)
  | BRANDS => mkStore (core st) docs (calls st)
  end.

Definition called (call : Call) (st : Store) : Store :=
  mkStore (core st) (brands st) (calls st ++ [call]).

(** The number of requests sent so far, by the alerting core and by these
    routes: the number of the next one. *)
Definition total_sent (st : Store) : nat :=
  (List.length (calls st) + sent (core st))%nat.

(** ** Failures and handlers *)

Inductive PyError :=
| KeyError (key : string)
| TypeError
| ValueError
| OverflowError.

(** How a route ends when it does not return: the [HTTPException] it
    raises, an exception of the storage or of Python that nothing handles,
    or a stored document outside the model (see [Brand.of_dict]). *)
Inductive Failure :=
| HTTPException (status_code : Z) (detail : string)
| Unhandled (e : Exn)
| Python (e : PyError)
| Unmodelled.

Inductive Response (A : Type) :=
| Returned (a : A)
| Failed (f : Failure).
Arguments Returned {A} a.
Arguments Failed {A} f.

Definition Handler (A : Type) : Type := Env -> Store -> Response A * Store.

Definition hret {A} (a : A) : Handler A := fun _ st => (Returned a, st).

Definition raise {A} (f : Failure) : Handler A := fun _ st => (Failed f, st).

Definition hbind {A B} (m : Handler A) (k : A -> Handler B) : Handler B :=
  fun env st =>
    match m env st with
    | (Returned a, st') => k a env st'
    | (Failed f, st') => (Failed f, st')
    end.

Notation "x <~ m ;; k" := (hbind m (fun x => k))
  (at level 61, m at next level, right associativity).
Notation "m ~;; k" := (hbind m (fun _ => k))
  (at level 61, right associativity).

(** The environment as the alerting core sees it after [k] requests of
    these routes: its requests are numbered after them. *)
Definition later_env (env : Env) (k : nat) : Env :=
  mkEnv (clock env) (uuids env) (fun n => storage_fault env (k + n)%nat).

(** A handler of the alerting core run from one of these routes. *)
Definition lift {A} (m : M A) : Handler A :=
  fun env st =>
    let out := m (later_env env (List.length (calls st))) (core st) in
    (match fst out with
     | Ok a => Returned a
     | Raised e => Failed (Unhandled e)
     end,
     mkStore (snd out) (brands st) (calls st)).

(** One round trip to the storage server for these routes. *)
Definition driver_call {A} (call : Call) (serve : Store -> A * Store)
  : Handler A :=
  fun env st =>
    if storage_fault env (total_sent st) then
      (Failed (Unhandled StorageUnavailable), called call st)
    else
      (Returned (fst (serve st)), called call (snd (serve st))).

(** ** The driver *)

(** [{"$set": {key: value}}] on one field: the value is replaced in place,
    or the field is added at the end. *)
Fixpoint dict_set (key : string) (value : Value) (d : Document) : Document :=
  match d with
  | [] => [(key, value)]
  | (k, v) :: rest =>
      if String.eqb k key then (k, value) :: rest
      else (k, v) :: dict_set key value rest
  end.

(** [{"$set": fields}] *)
Definition apply_set (fields : Document) (d : Document) : Document :=
  fold_left (fun doc kv => dict_set (fst kv) (snd kv) doc) fields d.

(** The first document that satisfies [p] is changed by [f]. *)
Fixpoint update_first (p : Document -> bool) (f : Document -> Document)
    (docs : list Document) : list Document :=
  match docs with
  | [] => []
  | doc :: rest =>
      if p doc then f doc :: rest else doc :: update_first p f rest
  end.

(** [await db.<t>.find_one(q)] *)
Definition find_one (t : Target) (q : Query) : Handler (option Document) :=
  driver_call (FindOne t q)
    (fun st => (find (matches (bson_query q)) (documents t st), st)).

(** [await db.<t>.update_one(q, {"$set": fields})]: the first document
    that satisfies [q] gets the BSON values of [fields]. *)
Definition update_one (t : Target) (q : Query) (fields : Document)
  : Handler unit :=
  driver_call (UpdateOne t q fields)
    (fun st =>
       (tt,
        with_documents t
          (update_first (matches (bson_query q)) (apply_set (bson fields))
             (documents t st)) st)).

(** [await db.<t>.replace_one(q, doc)] *)
Definition replace_one (t : Target) (q : Query) (doc : Document)
  : Handler unit :=
  driver_call (ReplaceOne t q doc)
    (fun st =>
       (tt,
        with_documents t
          (update_first (matches (bson_query q)) (fun _ => bson doc)
             (documents t st)) st)).

(** [await db.brands.insert_one(doc)] *)
Definition insert_brand (doc : Document) : Handler unit :=
  driver_call (InsertBrand doc)
    (fun st => (tt, with_documents BRANDS (brands st ++ [bson doc]) st)).

Definition is_active_brand (doc : Document) : bool :=
  match dict_get "is_active" doc with
  | Some (VBool true) => true
  | _ => false
  end.

(** [await db.brands.find({"is_active": True}).to_list(length)] *)
Definition find_active_brands (length : nat) : Handler (list Document) :=
  driver_call (FindActiveBrands length)
    (fun st => (firstn length (filter is_active_brand (brands st)), st)).

(** ** Python helpers of these routes *)

(** [d[key]] *)
Definition getitem (d : Document) (key : string) : Handler Value :=
  match dict_get key d with
  | Some v => hret v
  | None => raise (Python (KeyError key))
  end.

(** [now - v] for a [datetime] [now]: a [timedelta], in microseconds. *)
Definition datetime_sub (now : Z) (v : Value) : Handler Z :=
  match v with
  | VDate t => hret (now - t)
  | _ => raise (Python TypeError)
  end.

(** [td.total_seconds()]: the microseconds over [10**6], see
    [int_truediv]. *)
Definition total_seconds (td : Z) : float := int_truediv td 1000000.

(** [int(x)]: truncation towards zero; [OverflowError] on an infinity,
    [ValueError] on a NaN. *)
Definition truncate (x : float) : Z + PyError :=
  match Prim2SF x with
  | S754_zero _ => inl 0
  | S754_finite negative m e =>
      let magnitude := Z.shiftl (Z.pos m) e in
      inl (if negative then - magnitude else magnitude)
  | S754_infinity _ => inr OverflowError
  | S754_nan => inr ValueError
  end.

(** A zero or a finite number: what [int] accepts. *)
Definition finite_number (x : spec_float) : Prop :=
  match x with
  | S754_zero _ | S754_finite _ _ _ => True
  | _ => False
  end.

Definition int_of_float (x : float) : Handler Z :=
  match truncate x with
  | inl z => hret z
  | inr e => raise (Python e)
  end.

(** The [Brand] built from the keys of a stored document. *)
Definition parse_brand (doc : Document) : Handler Brand.t :=
  match Brand.of_dict doc with
  | Some b => hret b
  | None => raise Unmodelled
  end.

(** The list comprehension of [get_brands]: one [Brand] per document, in
    order. *)
Fixpoint parse_brands (docs : list Document) : Handler (list Brand.t) :=
  match docs with
  | [] => hret []
  | doc :: rest =>
      b <~ parse_brand doc ;;
      bs <~ parse_brands rest ;;
      hret (b :: bs)
  end.

(** The loop of [update_brand]: one [setattr] per item. *)
Fixpoint setattr_all (items : Document) (b : Brand.t) : Handler Brand.t :=
  match items with
  | [] => hret b
  | (key, value) :: rest =>
      match Brand.setattr b key value with
      | Some b' => setattr_all rest b'
      | None => raise Unmodelled
      end
  end.

(** ** Brand management *)

(** [POST /brands] *)
Definition create_brand (brand_data : BrandCreate.t) : Handler Brand.t :=
  id <~ lift uuid4 ;;
  created_at <~ lift utcnow ;;
  let brand :=
    Brand.mk id
      (BrandCreate.name brand_data)
      (BrandCreate.value (BrandCreate.facebook_page_id brand_data))
      (BrandCreate.value (BrandCreate.instagram_business_id brand_data))
      created_at true [] in
  insert_brand (Brand.dict brand) ~;;
  hret brand.

(** [GET /brands] *)
Definition get_brands : Handler (list Brand.t) :=
  brands <~ find_active_brands 1000 ;;
  parse_brands brands.

(** [GET /brands/{brand_id}] *)
Definition get_brand (brand_id : string) : Handler Brand.t :=
  brand <~ find_one BRANDS [FieldIs "id" brand_id] ;;
  match brand with
  | None => raise (HTTPException 404 "Brand not found")
  | Some brand => parse_brand brand
  end.

(** [PUT /brands/{brand_id}] *)
Definition update_brand (brand_id : string) (brand_data : BrandCreate.t)
  : Handler Brand.t :=
  brand <~ find_one BRANDS [FieldIs "id" brand_id] ;;
  match brand with
  | None => raise (HTTPException 404 "Brand not found")
  | Some brand =>
      updated_brand <~ parse_brand brand ;;
      updated_brand <~
        setattr_all (BrandCreate.dict_exclude_unset brand_data)
          updated_brand ;;
      replace_one BRANDS [FieldIs "id" brand_id] (Brand.dict updated_brand) ~;;
      hret updated_brand
  end.

(** [DELETE /brands/{brand_id}] *)
Definition delete_brand (brand_id : string) : Handler Document :=
  brand <~ find_one BRANDS [FieldIs "id" brand_id] ;;
  match brand with
  | None => raise (HTTPException 404 "Brand not found")
  | Some _ =>
      update_one BRANDS [FieldIs "id" brand_id]
        [("is_active", VBool false)] ~;;
      hret [("message", VStr "Brand deleted successfully")]
  end.

(** ** Responses and acknowledgements *)

(** [PUT /comments/{comment_id}/respond] *)
Definition mark_comment_responded (comment_id : string) : Handler Document :=
  comment <~ find_one (IN COMMENTS) [FieldIs "id" comment_id] ;;
  match comment with
  | None => raise (HTTPException 404 "Comment not found")
  | Some comment =>
      now <~ lift utcnow ;;
      created_at <~ getitem comment "created_at" ;;
      waited <~ datetime_sub now created_at ;;
      response_time <~ int_of_float (total_seconds waited / 60)%float ;;
      update_one (IN COMMENTS) [FieldIs "id" comment_id]
        [("has_response", VBool true);
         ("response_time", VInt response_time)] ~;;
      hret [("message", VStr "Comment marked as responded");
            ("response_time", VInt response_time)]
  end.

(** [PUT /alerts/{alert_id}/acknowledge] *)
Definition acknowledge_alert (alert_id : string) : Handler Document :=
  alert <~ find_one (IN ALERTS) [FieldIs "id" alert_id] ;;
  match alert with
  | None => raise (HTTPException 404 "Alert not found")
  | Some _ =>
      now <~ lift utcnow ;;
      update_one (IN ALERTS) [FieldIs "id" alert_id]
        [("is_acknowledged", VBool true); ("acknowledged_at", VDate now)] ~;;
      hret [("message", VStr "Alert acknowledged")]
  end.

(** ** Vocabulary of the properties of these routes *)

(** The two stores hold the same documents. *)
Definition same_documents (st st' : Store) : Prop :=
  db (core st') = db (core st) /\ brands st' = brands st.

(** A handler that writes nothing, whatever the storage does. *)
Definition read_only {A} (m : Handler A) : Prop :=
  forall env st, same_documents st (snd (m env st)).

(** A handler that has written nothing when it fails. *)
Definition all_or_nothing {A} (m : Handler A) : Prop :=
  forall env st,
    match fst (m env st) with
    | Failed _ => same_documents st (snd (m env st))
    | Returned _ => True
    end.

(** The field after the loop of [update_brand]: the value given, or the
    stored one when the request left the field out. *)
Definition updated_field (given : Provided (option string))
    (stored : option string) : option string :=
  match given with Given v => v | Unset => stored end.

(** ** Sample stores *)

Definition sample_alert : Document :=
  Alert.dict
    (Alert.mk "a1" "acme" SENTIMENT HIGH "High Negative Sentiment Detected"
       "text" (hours 9) false None []).

Definition sample_brand : Brand.t :=
  Brand.mk "b1" "Acme" (Some "acme_fb") None (hours 9) true [].

Definition store_of (cs als bs : list Document) : Store :=
  mkStore (mkState (mkDatabase cs [] [] als) 0 0 []) bs [].

Definition rename_only : BrandCreate.t :=
  BrandCreate.mk "Acme Ltd" Unset Unset.

Definition sample_alert_data : AlertCreate.t :=
  AlertCreate.mk "acme" VOLUME HIGH "Unusual Activity Volume" "text" [].

(** ** What the detectors read of a comment *)

(** Two documents that agree on every field but the two that
    [mark_comment_responded] sets. *)
Definition same_but_response (doc doc' : Document) : Prop :=
  forall key,
    key <> "has_response" -> key <> "response_time" ->
    dict_get key doc' = dict_get key doc.

(** ** The shape of the stored documents *)

(** A document of a collection that is the document of a model of that
    collection, as the routes write them. *)
Definition shaped (t : Target) (doc : Document) : Prop :=
  match t with
  | IN COMMENTS => exists c, doc = Comment.dict c
  | IN MENTIONS => exists m, doc = Mention.dict m
  | IN POSTS => exists p, doc = Post.dict p
  | IN ALERTS => exists a, doc = Alert.dict a
  | BRANDS => exists b, doc = Brand.dict b
  end.

Definition well_formed (st : Store) : Prop :=
  forall t, Forall (shaped t) (documents t st).

Definition keeps_well_formed {A} (m : Handler A) : Prop :=
  forall env st, well_formed st -> well_formed (snd (m env st)).

(** The same for a handler of the alerting core. *)
Definition shaped_database (d : Database) : Prop :=
  forall c, Forall (shaped (IN c)) (collection c d).

Definition keeps_shaped_database {A} (m : M A) : Prop :=
  forall env s, shaped_database (db s) -> shaped_database (db (snd (m env s))).

(** The failures of a route that say something of the request or of the
    storage: a 404 or a storage failure. *)
Definition expected_failure (f : Failure) : Prop :=
  (exists detail, f = HTTPException 404 detail) \/
  f = Unhandled StorageUnavailable.

(** * Sample data *)

(** [for x in items: ...] in a handler, with the local variables the body
    assigns as an accumulator. *)
Fixpoint for_each {A S} (items : list A) (body : A -> S -> Handler S)
    (acc : S) : Handler S :=
  match items with
  | [] => hret acc
  | x :: rest =>
      acc <~ body x acc ;;
      for_each rest body acc
  end.

(** [str(i)] for an [i] of a [range]. *)
Definition str (i : nat) : string :=
  NilZero.string_of_uint (Nat.to_uint i).

Definition sample_brands : list BrandCreate.t :=
  [ BrandCreate.mk "TechCorp"
      (Given (Some "tech_corp_fb")) (Given (Some "tech_corp_ig"));
    BrandCreate.mk "FoodiePlace"
      (Given (Some "foodie_place_fb")) (Given (Some "foodie_place_ig"));
    BrandCreate.mk "FashionBrand"
      (Given (Some "fashion_brand_fb")) (Given (Some "fashion_brand_ig")) ].

Definition sample_comments : list string :=
  [ "Love this product! Amazing quality and service.";
    "Not satisfied with the delivery time. Very disappointed.";
    "Good value for money. Would recommend to others.";
    "The customer service was terrible. Will not buy again.";
    "Excellent experience! Fast delivery and great product.";
    "Average product. Nothing special but okay.";
    "Outstanding quality! Exceeded my expectations.";
    "Poor quality product. Waste of money.";
    "Great customer support. Very helpful team.";
    "Delivery was delayed but product is good.";
    "Fantastic! Will definitely order again.";
    "Not worth the price. Expected better quality.";
    "Amazing experience from start to finish!";
    "Product arrived damaged. Poor packaging.";
    "Reasonable price and good quality.";
    "Worst experience ever. Avoid this brand.";
    "Perfect! Everything was as described.";
    "Okay product but could be better.";
    "Excellent service and fast response.";
    "Quality issues with the product." ].

Section SampleData.

Variable polarity_compound : string -> float.
Variable format_percent : float -> string.

(** The random generator, as this call sees it: [randbelow k n] is the
    index that the [k]-th [random.choice] of the call draws in a sequence
    of length [n]. *)
Variable randbelow : nat -> nat -> nat.

(** [random.choice(seq)] on a non-empty [seq], as the [k]-th draw; [d] is
    never returned when the index drawn is below the length. *)
Definition choice {A} (k : nat) (seq : list A) (d : A) : A :=
  nth (randbelow k (List.length seq)) seq d.

(** The body of the inner loop; [draws] counts the draws made so far. *)
Definition generate_comment (brand : Brand.t) (i : nat) (draws : nat)
  : Handler nat :=
  let comment_text := choice draws sample_comments "" in
  let comment_data :=
    CommentCreate.mk
      (Brand.id brand)
      (choice (S draws) [FACEBOOK; INSTAGRAM] FACEBOOK)
      ("comment_" ++ str i ++ "_" ++ Brand.id brand)
      comment_text
      ("User_" ++ str i)
      ("user_" ++ str i)
      ("post_" ++ str i ++ "_" ++ Brand.id brand) in
  lift (create_comment polarity_compound format_percent comment_data) ~;;
  hret (S (S draws)).

(** The body of the first loop. *)
Definition generate_brand (brand_data : BrandCreate.t)
    (created_brands : list Brand.t) : Handler (list Brand.t) :=
  id <~ lift uuid4 ;;
  created_at <~ lift utcnow ;;
  let brand :=
    Brand.mk id
      (BrandCreate.name brand_data)
      (BrandCreate.value (BrandCreate.facebook_page_id brand_data))
      (BrandCreate.value (BrandCreate.instagram_business_id brand_data))
      created_at true [] in
  insert_brand (Brand.dict brand) ~;;
  hret (created_brands ++ [brand]).

(** [POST /sample-data/generate] *)
Definition generate_sample_data : Handler Document :=
  created_brands <~ for_each sample_brands generate_brand [] ;;
  for_each created_brands
    (fun brand draws =>
       for_each (seq 0 20) (generate_comment brand) draws)
    0%nat ~;;
  hret [("message", VStr "Sample data generated successfully");
        ("brands_created", VInt (len created_brands))].

End SampleData.

(** The index drawn is below the length, as [random.choice] has it. *)
Definition draws_in_range (randbelow : nat -> nat -> nat) : Prop :=
  forall k n, (0 < n)%nat -> (randbelow k n < n)%nat.

(** A comment of the sample data of a brand. *)
Definition sample_comment_of (brand : Brand.t) (doc : Document) : Prop :=
  exists c,
    doc = Comment.dict c /\
    Comment.brand_id c = Brand.id brand /\
    In (Comment.content c) sample_comments /\
    Comment.has_response c = false.

(** The store [st'] is [st] with at most [nb] brands, [nc] comments and
    [na] alerts appended and at most [nr] more requests sent: no stored
    document is changed or removed. *)
Definition grown (nb nc na nr : nat) (st st' : Store) : Prop :=
  (exists new,
     brands st' = brands st ++ new /\ (List.length new <= nb)%nat) /\
  (exists new,
     comments (db (core st')) = comments (db (core st)) ++ new /\
     (List.length new <= nc)%nat) /\
  (exists new,
     alerts (db (core st')) = alerts (db (core st)) ++ new /\
     (List.length new <= na)%nat) /\
  mentions (db (core st')) = mentions (db (core st)) /\
  posts (db (core st')) = posts (db (core st)) /\
  (total_sent st <= total_sent st' <= total_sent st + nr)%nat.

(** A handler that only appends, within these bounds, whatever the storage
    does; that fails only when the storage does; and whose result, when it
    returns, satisfies [Q]. *)
Definition only_appends (nb nc na nr : nat) {A} (Q : A -> Prop)
    (m : Handler A) : Prop :=
  forall env st,
    grown nb nc na nr st (snd (m env st)) /\
    match fst (m env st) with
    | Returned a => Q a
    | Failed f => f = Unhandled StorageUnavailable
    end.

(** * Properties *)

(** ** The order on binary64 values

    The primitive comparisons are specified by [SFleb] and [SFltb] on the
    decoded value ([leb_spec], [ltb_spec]); the order facts the thresholds
    need are proved there. A NaN is below and above nothing. *)

Ltac sf_order :=
  unfold SFleb, SFltb, SFcompare;
  repeat match goal with
    | |- context [(?a ?= ?b)%Z] => destruct (Z.compare_spec a b)
    | |- context [PosDef.Pos.compare_cont Eq ?a ?b] =>
        change (PosDef.Pos.compare_cont Eq a b) with (Pos.compare a b);
        destruct (Pos.compare_spec a b)
    end;
  simpl; intros; subst; try reflexivity; try discriminate; try lia.

Lemma SFleb_trans a b c :
  SFleb a b = true -> SFleb b c = true -> SFleb a c = true.
Proof.
  destruct a as [[]|[]| |[] ma ea], b as [[]|[]| |[] mb eb],
    c as [[]|[]| |[] mc ec]; try (simpl; intros; congruence).
  all: sf_order.
Qed.

Lemma SFltb_leb a b : SFltb a b = true -> SFleb a b = true.
Proof.
  unfold SFltb, SFleb. destruct (SFcompare a b) as [[]|]; congruence.
Qed.

Lemma float_leb_trans (x y z : float) :
  (x <=? y)%float = true -> (y <=? z)%float = true -> (x <=? z)%float = true.
Proof. rewrite !leb_spec. apply SFleb_trans. Qed.

Lemma float_ltb_leb (x y : float) :
  (x <? y)%float = true -> (x <=? y)%float = true.
Proof. rewrite ltb_spec, leb_spec. apply SFltb_leb. Qed.

(** Two thresholds [lo < hi]: nothing is at or above [hi] and at or below
    [lo]. *)
Lemma float_between_false (lo hi x : float) :
  (hi <=? lo)%float = false ->
  (hi <=? x)%float = true -> (x <=? lo)%float = false.
Proof.
  intros Hc Hx. destruct (x <=? lo)%float eqn:Hl; [|reflexivity].
  rewrite (float_leb_trans _ _ _ Hx Hl) in Hc. discriminate.
Qed.

Lemma float_leb_weaken (x c c' : float) :
  (c <=? c')%float = true -> (x <=? c)%float = true -> (x <=? c')%float = true.
Proof. intros Hc Hx. exact (float_leb_trans _ _ _ Hx Hc). Qed.

(** ** Priority scorer *)

Lemma calculate_priority_band_bonus (s : float) (e : Z) :
  calculate_priority s e = Z.min (spec_band s + spec_bonus e) 5.
Proof.
  unfold calculate_priority, spec_band, spec_bonus, float_ge.
  rewrite !Z.gtb_ltb.
  destruct (s <=? -0.5)%float, (s <=? -0.1)%float, (0.5 <=? s)%float,
    (100 <? e), (50 <? e); reflexivity.
Qed.

Lemma spec_band_range s : 0 <= spec_band s <= 5.
Proof.
  unfold spec_band.
  destruct (s <=? -0.5)%float, (s <=? -0.1)%float, (0.5 <=? s)%float; lia.
Qed.

Lemma spec_bonus_range e : 0 <= spec_bonus e <= 2.
Proof. unfold spec_bonus. destruct (100 <? e), (50 <? e); lia. Qed.

Lemma spec_bonus_monotone e1 e2 : e1 <= e2 -> spec_bonus e1 <= spec_bonus e2.
Proof.
  unfold spec_bonus. intros H.
  destruct (Z.ltb_spec 100 e1), (Z.ltb_spec 100 e2),
    (Z.ltb_spec 50 e1), (Z.ltb_spec 50 e2); lia.
Qed.

(** Below the very-positive band, a lower score has a band at least as
    high; so has a score that is itself very positive or at most [-0.1]. *)
Lemma spec_band_antitone (s1 s2 : float) :
  (s1 <=? s2)%float = true ->
  (0.5 <=? s2)%float = false \/ (0.5 <=? s1)%float = true
    \/ (s1 <=? -0.1)%float = true ->
  spec_band s2 <= spec_band s1.
Proof.
  intros Hle Hside. unfold spec_band.
  destruct (s2 <=? -0.5)%float eqn:H25.
  - rewrite (float_leb_trans _ _ _ Hle H25). lia.
  - destruct (s2 <=? -0.1)%float eqn:H21.
    + rewrite (float_leb_trans _ _ _ Hle H21).
      destruct (s1 <=? -0.5)%float; lia.
    + destruct (0.5 <=? s2)%float eqn:H2p.
      * destruct Hside as [Hs|[Hs|Hs]]; [discriminate| |].
        -- rewrite Hs.
           rewrite (float_between_false (-0.5) 0.5 s1 eq_refl Hs).
           rewrite (float_between_false (-0.1) 0.5 s1 eq_refl Hs). lia.
        -- rewrite Hs. destruct (s1 <=? -0.5)%float; lia.
      * destruct (s1 <=? -0.5)%float, (s1 <=? -0.1)%float,
          (0.5 <=? s1)%float; lia.
Qed.

(** C4: [calculate_priority] is the minimum of 5 and the sum of the
    sentiment band (5 at or below -0.5, else 3 at or below -0.1, else 1 at
    or above 0.5, else 0) and the engagement bonus (2 above 100, else 1
    above 50, else 0); it is 5 at (-0.6, 150) and 0 at (-0.05, 0). It is a
    total function: every pair of arguments has a value. *)
Theorem calculate_priority_spec :
  (forall (s : float) (e : Z),
     calculate_priority s e = Z.min (spec_band s + spec_bonus e) 5) /\
  calculate_priority (-0.6) 150 = 5 /\
  calculate_priority (-0.05) 0 = 0.
Proof.
  split; [exact calculate_priority_band_bonus|].
  split; reflexivity.
Qed.

(** C7, as the code has it: for every score, a NaN included, the priority
    does not decrease when the engagement grows, and it always lies between
    0 and 5; for a fixed engagement a lower score has a priority at least
    as high provided the higher score is below 0.5, or the lower one is
    itself at least 0.5 or at most -0.1. *)
Theorem calculate_priority_monotone (s1 s2 : float) (e1 e2 : Z) :
  (e1 <= e2 -> calculate_priority s1 e1 <= calculate_priority s1 e2) /\
  0 <= calculate_priority s1 e1 <= 5 /\
  ((s1 <=? s2)%float = true ->
   (0.5 <=? s2)%float = false \/ (0.5 <=? s1)%float = true
     \/ (s1 <=? -0.1)%float = true ->
   calculate_priority s2 e1 <= calculate_priority s1 e1).
Proof.
  rewrite !calculate_priority_band_bonus.
  pose proof (spec_band_range s1) as Hband.
  pose proof (spec_bonus_range e1) as Hbonus.
  split; [|split].
  - intros He. pose proof (spec_bonus_monotone e1 e2 He). lia.
  - lia.
  - intros Hs Hside. pose proof (spec_band_antitone s1 s2 Hs Hside). lia.
Qed.

Lemma calculate_priority_monotone_witness :
  calculate_priority (-0.2) 60 <= calculate_priority (-0.7) 60 /\
  calculate_priority (-0.7) 60 <= calculate_priority (-0.7) 120 /\
  0 <= calculate_priority (-0.7) 60 <= 5 /\
  0 <= calculate_priority nan 60 <= 5.
Proof.
  destruct (calculate_priority_monotone (-0.7) (-0.2) 60 120)
    as (Hengagement & Hrange & Hscore).
  split; [apply Hscore; [reflexivity|left; reflexivity]|].
  split; [apply Hengagement; lia|].
  split; [exact Hrange|].
  exact (proj1 (proj2 (calculate_priority_monotone nan nan 60 60))).
Defined.

(** C7 as stated fails: from 0.6 down to 0.3 the priority drops from 1
    to 0. *)
Lemma calculate_priority_not_antitone :
  ~ (forall (s1 s2 : float) (e : Z),
       (s1 <=? s2)%float = true ->
       calculate_priority s2 e <= calculate_priority s1 e).
Proof.
  intros H. specialize (H 0.3%float 0.6%float 0 eq_refl).
  vm_compute in H. apply H. reflexivity.
Qed.

(** ** Sentiment classifier *)

(** C5: the category is positive exactly when the score is at least 0.05,
    negative exactly when it is at most -0.05, and neutral otherwise; 0.05
    is positive, -0.05 negative and 0.0 neutral. *)
Theorem analyze_sentiment_thresholds
    (polarity_compound : string -> float) (text : string) :
  let score := fst (analyze_sentiment polarity_compound text) in
  let category := snd (analyze_sentiment polarity_compound text) in
  score = polarity_compound text /\
  (category = POSITIVE <-> float_ge score 0.05 = true) /\
  (category = NEGATIVE <-> (score <=? -0.05)%float = true) /\
  (category = NEUTRAL <->
     float_ge score 0.05 = false /\ (score <=? -0.05)%float = false) /\
  (score = 0.05%float -> category = POSITIVE) /\
  (score = (-0.05)%float -> category = NEGATIVE) /\
  (score = 0%float -> category = NEUTRAL).
Proof.
  unfold analyze_sentiment, float_ge. cbn [fst snd].
  set (x := polarity_compound text).
  split; [reflexivity|].
  assert (Hex : (0.05 <=? x)%float = true -> (x <=? -0.05)%float = false)
    by (apply float_between_false; reflexivity).
  destruct (0.05 <=? x)%float eqn:Hp.
  - rewrite (Hex eq_refl).
    repeat split; try congruence;
      try (intros ->; vm_compute in Hp; discriminate).
    intros [? ?]; discriminate.
  - destruct (x <=? -0.05)%float eqn:Hn.
    + repeat split; try congruence;
        try (intros ->; vm_compute in Hp, Hn; discriminate).
      intros [? ?]; discriminate.
    + repeat split; try congruence;
        try (intros ->; vm_compute in Hp, Hn; discriminate).
Qed.

(** ** Exactness of the ratio tests *)

Lemma to_Z_succ (n : int) (z : Z) :
  Uint63.to_Z n < z < wB -> Uint63.to_Z (n + 1)%uint63 = Uint63.to_Z n + 1.
Proof.
  intros H. rewrite Uint63.add_spec, Uint63.to_Z_1.
  pose proof (Uint63.to_Z_bounded n). apply Z.mod_small. lia.
Qed.

Lemma sweep_row_sound check fuel : forall n m,
  sweep_row check fuel n m = true ->
  forall z, Uint63.to_Z n <= z < Uint63.to_Z n + Z.of_nat fuel -> z < wB ->
  check (Uint63.of_Z z) m = true.
Proof.
  induction fuel as [|fuel IH]; intros n m Hs z Hz Hw; [lia|].
  cbn [sweep_row] in Hs.
  apply andb_true_iff in Hs. destruct Hs as [Hn Hs].
  destruct (Z.eq_dec z (Uint63.to_Z n)) as [->|Hne].
  - now rewrite Uint63.of_to_Z.
  - apply (IH _ _ Hs); [|exact Hw].
    rewrite (to_Z_succ n z) by lia. lia.
Qed.

Lemma sweep_rows_sound check width fuel : forall m,
  sweep_rows check width fuel m = true ->
  forall zn zm,
    Uint63.to_Z m <= zm < Uint63.to_Z m + Z.of_nat fuel -> zm < wB ->
    0 <= zn < Z.of_nat width -> zn < wB ->
    check (Uint63.of_Z zn) (Uint63.of_Z zm) = true.
Proof.
  induction fuel as [|fuel IH]; intros m Hs zn zm Hz Hw Hn Hnw; [lia|].
  cbn [sweep_rows] in Hs.
  apply andb_true_iff in Hs. destruct Hs as [Hm Hs].
  destruct (Z.eq_dec zm (Uint63.to_Z m)) as [->|Hne].
  - rewrite Uint63.of_to_Z.
    apply (sweep_row_sound _ _ _ _ Hm); rewrite ?Uint63.to_Z_0; lia.
  - apply (IH _ Hs); try assumption.
    rewrite (to_Z_succ m zm) by lia. lia.
Qed.

Lemma sweep_ratio :
  sweep_rows ratio_agrees (Z.to_nat 1001) (Z.to_nat 1000) 1%uint63 = true.
Proof. vm_compute. reflexivity. Qed.

Lemma sweep_volume :
  sweep_rows volume_agrees (Z.to_nat 5001) (Z.to_nat 1000) 1%uint63 = true.
Proof. vm_compute. reflexivity. Qed.

Lemma wB_value : wB = 9223372036854775808.
Proof. reflexivity. Qed.

Lemma to_Z_of_small (z : Z) :
  0 <= z <= 100000 -> Uint63.to_Z (Uint63.of_Z z) = z.
Proof.
  intros Hz. rewrite Uint63.of_Z_spec. apply Z.mod_small.
  rewrite wB_value. lia.
Qed.

Lemma to_Z_small_mul (c z : Z) :
  0 <= c <= 10 -> 0 <= z <= 1000 ->
  Uint63.to_Z (Uint63.of_Z c * Uint63.of_Z z)%uint63 = c * z.
Proof.
  intros Hc Hz. rewrite Uint63.mul_spec, !to_Z_of_small by lia.
  apply Z.mod_small. rewrite wB_value. nia.
Qed.

Lemma of_Z_small_sub (a b : Z) :
  0 <= b <= a -> a <= 100000 ->
  (Uint63.of_Z a - Uint63.of_Z b)%uint63 = Uint63.of_Z (a - b).
Proof.
  intros Hb Ha. apply Uint63.to_Z_inj.
  rewrite Uint63.sub_spec, !to_Z_of_small by lia.
  apply Z.mod_small. rewrite wB_value. lia.
Qed.

(** On at most 1000 scanned comments the two float tests of the sentiment
    detector are the exact comparisons of the fraction with 3/10 and 1/2. *)
Lemma ratio_exact (n m : Z) :
  0 <= n <= m -> 1 <= m <= 1000 ->
  float_gt (int_truediv n m) 0.3 = (3 * m <? 10 * n) /\
  float_gt (int_truediv n m) 0.5 = (m <? 2 * n).
Proof.
  intros Hn Hm.
  assert (H := sweep_rows_sound _ _ _ _ sweep_ratio n m).
  rewrite Uint63.to_Z_1, wB_value in H.
  specialize (H ltac:(lia) ltac:(lia) ltac:(lia) ltac:(lia)).
  unfold ratio_agrees in H. apply andb_true_iff in H. destruct H as [H3 H5].
  apply Bool.eqb_prop in H3, H5.
  unfold int_truediv, float_of_int.
  destruct (Z.ltb_spec n 0); [lia|]. destruct (Z.ltb_spec m 0); [lia|].
  rewrite H3, H5. clear H3 H5.
  change 3%uint63 with (Uint63.of_Z 3). change 10%uint63 with (Uint63.of_Z 10).
  change 2%uint63 with (Uint63.of_Z 2).
  split; apply eq_true_iff_eq; rewrite Uint63.ltb_spec, Z.ltb_lt.
  - rewrite !to_Z_small_mul by lia. reflexivity.
  - rewrite to_Z_small_mul, to_Z_of_small by lia. reflexivity.
Qed.

(** For up to 1000 comments in the previous hour and 5000 in the current
    one, the float test of the volume detector is the exact comparison:
    the current count is more than three times the previous one. *)
Lemma volume_exact (c p : Z) :
  1 <= p <= 1000 -> 0 <= c <= 5000 ->
  float_gt (int_truediv (c - p) p) 2 = (3 * p <? c).
Proof.
  intros Hp Hc.
  assert (H := sweep_rows_sound _ _ _ _ sweep_volume c p).
  rewrite Uint63.to_Z_1, wB_value in H.
  specialize (H ltac:(lia) ltac:(lia) ltac:(lia) ltac:(lia)).
  unfold volume_agrees in H. apply Bool.eqb_prop in H.
  assert (Hlt : (Uint63.of_Z c <? Uint63.of_Z p)%uint63 = (c - p <? 0)).
  { apply eq_true_iff_eq. rewrite Uint63.ltb_spec, Z.ltb_lt.
    rewrite !to_Z_of_small by lia. lia. }
  assert (H3 : (3 * Uint63.of_Z p <? Uint63.of_Z c)%uint63 = (3 * p <? c)).
  { change 3%uint63 with (Uint63.of_Z 3).
    apply eq_true_iff_eq. rewrite Uint63.ltb_spec, Z.ltb_lt.
    rewrite to_Z_small_mul, to_Z_of_small by lia. reflexivity. }
  rewrite Hlt, H3 in H. rewrite <- H. clear H Hlt H3.
  unfold int_truediv, float_of_int.
  destruct (Z.ltb_spec p 0); [lia|].
  destruct (Z.ltb_spec (c - p) 0).
  - rewrite of_Z_small_sub by lia.
    replace (- (c - p)) with (p - c) by lia. reflexivity.
  - rewrite of_Z_small_sub by lia. reflexivity.
Qed.

(** ** Running a handler step by step *)

Lemma run_ret {A B} (a : A) (k : A -> M B) env s :
  bind (ret a) k env s = k a env s.
Proof. reflexivity. Qed.

Lemma run_bind {A B C} (m : M A) (f : A -> M B) (g : B -> M C) env s :
  bind (bind m f) g env s = bind m (fun a => bind (f a) g) env s.
Proof. unfold bind. destruct (m env s) as [[a|e] s']; reflexivity. Qed.

Lemma run_utcnow {B} (k : Z -> M B) env s :
  bind utcnow k env s = k (clock env (clock_reads s)) env (clock_read s).
Proof. reflexivity. Qed.

Lemma run_uuid4 {B} (k : string -> M B) env s :
  bind uuid4 k env s = k (uuids env (uuid_draws s)) env (uuid_drawn s).
Proof. reflexivity. Qed.

Lemma run_storage_call {A B} rq (serve : Database -> A * Database)
    (k : A -> M B) env s :
  storage_fault env (sent s) = false ->
  bind (storage_call rq serve) k env s
  = k (fst (serve (db s))) env (request_sent rq (snd (serve (db s))) s).
Proof. intros H. unfold bind, storage_call. rewrite H. reflexivity. Qed.

Lemma run_storage_fault {A B} rq (serve : Database -> A * Database)
    (k : A -> M B) env s :
  storage_fault env (sent s) = true ->
  bind (storage_call rq serve) k env s
  = (Raised StorageUnavailable, request_sent rq (db s) s).
Proof. intros H. unfold bind, storage_call. rewrite H. reflexivity. Qed.

(** What each step leaves of the state. *)
Lemma db_clock_read s : db (clock_read s) = db s.
Proof. reflexivity. Qed.
Lemma db_uuid_drawn s : db (uuid_drawn s) = db s.
Proof. reflexivity. Qed.
Lemma db_request_sent rq d s : db (request_sent rq d s) = d.
Proof. reflexivity. Qed.
Lemma clock_reads_clock_read s : clock_reads (clock_read s) = S (clock_reads s).
Proof. reflexivity. Qed.
Lemma clock_reads_uuid_drawn s : clock_reads (uuid_drawn s) = clock_reads s.
Proof. reflexivity. Qed.
Lemma clock_reads_request_sent rq d s :
  clock_reads (request_sent rq d s) = clock_reads s.
Proof. reflexivity. Qed.
Lemma uuid_draws_clock_read s : uuid_draws (clock_read s) = uuid_draws s.
Proof. reflexivity. Qed.
Lemma uuid_draws_uuid_drawn s : uuid_draws (uuid_drawn s) = S (uuid_draws s).
Proof. reflexivity. Qed.
Lemma uuid_draws_request_sent rq d s :
  uuid_draws (request_sent rq d s) = uuid_draws s.
Proof. reflexivity. Qed.
Lemma requests_clock_read s : requests (clock_read s) = requests s.
Proof. reflexivity. Qed.
Lemma requests_uuid_drawn s : requests (uuid_drawn s) = requests s.
Proof. reflexivity. Qed.
Lemma requests_request_sent rq d s :
  requests (request_sent rq d s) = requests s ++ [rq].
Proof. reflexivity. Qed.
Lemma sent_clock_read s : sent (clock_read s) = sent s.
Proof. reflexivity. Qed.
Lemma sent_uuid_drawn s : sent (uuid_drawn s) = sent s.
Proof. reflexivity. Qed.
Lemma sent_request_sent rq d s : sent (request_sent rq d s) = S (sent s).
Proof.
  unfold sent. rewrite requests_request_sent, length_app. cbn. lia.
Qed.
Lemma alerts_append_alert doc d :
  alerts (append_document ALERTS doc d) = alerts d ++ [doc].
Proof. reflexivity. Qed.
Lemma comments_append_alert doc d :
  comments (append_document ALERTS doc d) = comments d.
Proof. reflexivity. Qed.
Lemma comments_append_comment doc d :
  comments (append_document COMMENTS doc d) = comments d ++ [doc].
Proof. reflexivity. Qed.
Lemma alerts_append_comment doc d :
  alerts (append_document COMMENTS doc d) = alerts d.
Proof. reflexivity. Qed.

(** ** BSON dates and documents *)

Lemma bson_date_le_self t : bson_date t <= t.
Proof. unfold bson_date. pose proof (Z.mul_div_le t 1000). lia. Qed.

Lemma bson_date_close t : t - 1000 < bson_date t.
Proof.
  unfold bson_date. pose proof (Z.mod_pos_bound t 1000).
  pose proof (Z.div_mod t 1000). lia.
Qed.

Lemma bson_date_monotone a b : a <= b -> bson_date a <= bson_date b.
Proof.
  intros H. unfold bson_date.
  pose proof (Z.div_le_mono a b 1000). lia.
Qed.

Lemma bson_date_whole t : bson_date (t * 1000) = t * 1000.
Proof. unfold bson_date. rewrite Z.div_mul by lia. reflexivity. Qed.

Lemma bson_date_idempotent t : bson_date (bson_date t) = bson_date t.
Proof. unfold bson_date at 2. apply bson_date_whole. Qed.

Lemma bson_comment_dict c :
  bson (Comment.dict c) = Comment.dict (stored_comment c).
Proof.
  destruct c as [? ? ? ? ? ? ? ? ? ? ? ? ? [r|] ?]; reflexivity.
Qed.

Lemma bson_mention_dict m :
  bson (Mention.dict m) = Mention.dict (stored_mention m).
Proof. reflexivity. Qed.

Lemma bson_post_dict p : bson (Post.dict p) = Post.dict (stored_post p).
Proof. reflexivity. Qed.

Lemma bson_alert_dict a : bson (Alert.dict a) = Alert.dict (stored_alert a).
Proof.
  destruct a as [? ? ? ? ? ? ? ? [t|] ?]; reflexivity.
Qed.

Lemma dict_get_bson key doc :
  dict_get key (bson doc) = option_map bson_value (dict_get key doc).
Proof.
  induction doc as [|[k v] rest IH]; [reflexivity|].
  cbn [bson map dict_get]. destruct (String.eqb k key); [reflexivity|].
  exact IH.
Qed.

(** Symbolic execution of the steps that cannot fail, and of the storage
    calls once the request is known to be served. *)
Ltac step :=
  first
    [ rewrite run_bind
    | rewrite run_ret
    | rewrite run_utcnow
    | rewrite run_uuid4
    | rewrite run_storage_call by auto ].

Ltac steps := repeat step.

(** The same, stopping at every storage call. *)
Ltac local_steps :=
  repeat first
    [ rewrite run_bind | rewrite run_ret | rewrite run_utcnow
    | rewrite run_uuid4 ].

Ltac simpl_state :=
  cbn [ret fst snd collection bson_query map bson_condition];
  rewrite ?db_clock_read, ?db_uuid_drawn, ?db_request_sent,
    ?clock_reads_clock_read, ?clock_reads_uuid_drawn,
    ?clock_reads_request_sent, ?uuid_draws_clock_read,
    ?uuid_draws_uuid_drawn, ?uuid_draws_request_sent,
    ?alerts_append_alert, ?comments_append_alert,
    ?comments_append_comment, ?alerts_append_comment.

Lemma len_filter_le {A} (f : A -> bool) (l : list A) :
  0 <= len (filter f l) <= len l.
Proof. unfold len. pose proof (filter_length_le f l). lia. Qed.

Lemma firstn_len_bound {A} (n : nat) (l : list A) :
  len (firstn n l) <= Z.of_nat n.
Proof. unfold len. pose proof (firstn_le_length n l). lia. Qed.

Lemma scanned_window_bound b now d : len (scanned_window b now d) <= 1000.
Proof. apply (firstn_len_bound 1000). Qed.

(** [create_alert] under a serving storage: one alert document is appended. *)
Lemma run_create_alert {B} (a : AlertCreate.t) (k : Alert.t -> M B) env s :
  storage_fault env (sent s) = false ->
  exists alert,
    Alert.brand_id alert = AlertCreate.brand_id a /\
    Alert.alert_type alert = AlertCreate.alert_type a /\
    Alert.severity alert = AlertCreate.severity a /\
    Alert.data alert = AlertCreate.data a /\
    bind (create_alert a) k env s
    = k alert env
        (request_sent (InsertOne ALERTS (Alert.dict alert))
           (append_document ALERTS (Alert.dict (stored_alert alert)) (db s))
           (clock_read (uuid_drawn s))).
Proof.
  intros H. unfold create_alert, insert_one.
  eexists. repeat split.
  5: { steps. rewrite bson_alert_dict. reflexivity. }
  all: reflexivity.
Qed.

(** ** Sentiment detector *)

(** C1, as the code has it: with the storage serving, the detector looks at
    the scanned window, at most 1000 comments of the brand (mentions and
    posts are not read) whose stored [created_at], in milliseconds, is at
    or after the reading of the clock less two hours, cut to the
    millisecond. It emits nothing when that window is empty; otherwise it
    emits one sentiment alert exactly when the fraction of negative
    comments in it is above 3/10, with severity high when the fraction is
    above 1/2 and medium otherwise. *)
Theorem check_sentiment_alerts_spec
    (format_percent : float -> string) (env : Env) (s : State)
    (brand_id : string) :
  no_faults env ->
  let window := scanned_window brand_id (clock env (clock_reads s)) (db s) in
  let negative := len (filter is_negative window) in
  let total := len window in
  let out := check_sentiment_alerts format_percent brand_id env s in
  fst out = Ok tt /\
  (window = [] \/ 10 * negative <= 3 * total ->
   alerts (db (snd out)) = alerts (db s)) /\
  (3 * total < 10 * negative ->
   exists a,
     alerts (db (snd out)) = alerts (db s) ++ [Alert.dict a] /\
     Alert.brand_id a = brand_id /\
     Alert.alert_type a = SENTIMENT /\
     Alert.severity a = (if total <? 2 * negative then HIGH else MEDIUM)).
Proof.
  intros Hok window negative total out.
  pose proof (scanned_window_bound brand_id (clock env (clock_reads s)) (db s))
    as Hcap.
  pose proof (len_filter_le is_negative window) as Hneg.
  fold window total in Hcap. fold negative total in Hneg.
  assert (Hwin : scanned_window brand_id (clock env (clock_reads s)) (db s)
                 = window) by reflexivity.
  assert (Hn : len (filter is_negative window) = negative) by reflexivity.
  assert (Ht : len window = total) by reflexivity.
  assert (Hrun : out = check_sentiment_alerts format_percent brand_id env s)
    by reflexivity.
  clearbody out total negative window. revert Hrun.
  unfold check_sentiment_alerts, find_to_list. steps. simpl_state.
  fold (scanned_window brand_id (clock env (clock_reads s)) (db s)).
  rewrite Hwin. fold is_negative.
  destruct window as [|doc rest].
  - intros ->. simpl_state. repeat split; try reflexivity.
    intros H. unfold len in Hn, Ht. cbn in Hn, Ht. lia.
  - rewrite Hn, Ht.
    assert (Hpos : 1 <= total)
      by (rewrite <- Ht; unfold len; cbn [List.length]; lia).
    destruct (ratio_exact negative total ltac:(lia) ltac:(lia)) as [H3 H5].
    rewrite H3, H5.
    destruct (Z.ltb_spec (3 * total) (10 * negative)) as [Hgt|Hle].
    + match goal with
      | |- context [bind (create_alert ?a) ?k ?e ?st] =>
          destruct (run_create_alert a k e st (Hok _))
            as (alert & Hb & Hty & Hsev & _ & Heq)
      end.
      rewrite Heq. intros ->. simpl_state.
      repeat split.
      * intros [H|H]; [discriminate H|lia].
      * intros _. exists (stored_alert alert). repeat split; assumption.
    + intros ->. simpl_state.
      repeat split; try reflexivity. intros H; lia.
Qed.

(** C1 as stated fails: 1700 comments of one brand in the last two hours,
    700 of them negative, a fraction of 7/17 above 3/10; the detector
    scans the first 1000, finds none negative and emits nothing. *)
Lemma sentiment_window_cap_counterexample :
  let window :=
    events_in_window "acme" (clock quiet_env 0) (db crowded_state) in
  let out :=
    check_sentiment_alerts percent_stub "acme" quiet_env crowded_state in
  len window = 1700 /\
  len (filter is_negative window) = 700 /\
  3 * len window < 10 * len (filter is_negative window) /\
  fst out = Ok tt /\
  alerts (db (snd out)) = [].
Proof. vm_compute. repeat split. Qed.

(** Mentions and posts are not comments: a brand whose only recent event
    is a negative mention gets no alert. *)
Example sentiment_detector_skips_mentions :
  let window :=
    events_in_window "acme" (clock quiet_env 0) (db mention_only_state) in
  let out :=
    check_sentiment_alerts percent_stub "acme" quiet_env mention_only_state in
  len window = 1 /\ len (filter is_negative window) = 1 /\
  alerts (db (snd out)) = [].
Proof. vm_compute. repeat split. Qed.

(** Three negative comments of ten: no alert; four: medium; six: high. *)
Example sentiment_three_four_six_of_ten :
  let emitted k :=
    map (dict_get "severity")
      (alerts (db (snd (check_sentiment_alerts percent_stub "acme" quiet_env
                          (ten_comments k))))) in
  emitted 3%nat = [] /\
  emitted 4%nat = [Some (VStr "medium")] /\
  emitted 6%nat = [Some (VStr "high")].
Proof. vm_compute. repeat split. Qed.

(** The bound of the window is a BSON date: half a millisecond past ten
    o'clock, a comment stored at eight o'clock sharp is still scanned. *)
Example sentiment_window_cut_to_millisecond :
  let out :=
    check_sentiment_alerts percent_stub "acme" odd_env
      (state_of [sample_comment (hours 8) (-0.6) NEGATIVE] []) in
  clock odd_env 0 - hours 2 = hours 8 + 500 /\
  map (dict_get "severity") (alerts (db (snd out))) = [Some (VStr "high")].
Proof. vm_compute. repeat split. Qed.

(** ** Volume detector *)

(** C2, as the code has it: the detector counts comments of the brand
    only, on its own bounds, which are BSON dates: [current] counts those
    stored at or after its first reading of the clock less one hour, with
    no upper bound, and [previous] those from its second reading less two
    hours up to that same bound, excluded. With the storage serving, it
    emits nothing when [previous] is zero, whatever [current]; when it is
    positive it emits one alert exactly when (current - previous) /
    previous is above 2.0, and that alert has severity high. For 10 and 35
    the ratio is 2.5, above 2.0. Up to 1000 previous and 5000 current
    comments the float test is exact: current is above 3 * previous. *)
Theorem check_volume_alerts_spec
    (format_percent : float -> string) (env : Env) (s : State)
    (brand_id : string) :
  no_faults env ->
  let one_hour_ago := clock env (clock_reads s) - hours 1 in
  let two_hours_ago := clock env (S (clock_reads s)) - hours 2 in
  let current := current_hour_count brand_id one_hour_ago (db s) in
  let previous :=
    previous_hour_count brand_id two_hours_ago one_hour_ago (db s) in
  let increase := int_truediv (current - previous) previous in
  let out := check_volume_alerts format_percent brand_id env s in
  fst out = Ok tt /\
  (previous = 0 -> alerts (db (snd out)) = alerts (db s)) /\
  (0 < previous -> float_gt increase 2 = false ->
   alerts (db (snd out)) = alerts (db s)) /\
  (0 < previous -> float_gt increase 2 = true ->
   exists a,
     alerts (db (snd out)) = alerts (db s) ++ [Alert.dict a] /\
     Alert.brand_id a = brand_id /\
     Alert.alert_type a = VOLUME /\
     Alert.severity a = HIGH) /\
  (1 <= previous <= 1000 -> current <= 5000 ->
   float_gt increase 2 = (3 * previous <? current)) /\
  int_truediv (35 - 10) 10 = 2.5%float /\
  float_gt 2.5 2 = true.
Proof.
  intros Hok one_hour_ago two_hours_ago current previous increase out.
  subst one_hour_ago two_hours_ago.
  set (t1 := clock env (clock_reads s) - hours 1) in *.
  set (t2 := clock env (S (clock_reads s)) - hours 2) in *.
  assert (Hc : current_hour_count brand_id t1 (db s) = current)
    by reflexivity.
  assert (Hp : previous_hour_count brand_id t2 t1 (db s) = previous)
    by reflexivity.
  assert (Hi : int_truediv (current - previous) previous = increase)
    by reflexivity.
  assert (Hexact : 1 <= previous <= 1000 -> current <= 5000 ->
                   float_gt increase 2 = (3 * previous <? current)).
  { intros Hprev Hcur. apply volume_exact; [exact Hprev|].
    split; [|exact Hcur]. apply len_filter_le. }
  assert (Hrun : out = check_volume_alerts format_percent brand_id env s)
    by reflexivity.
  clearbody out increase previous current. revert Hrun.
  unfold check_volume_alerts, count_documents. steps. simpl_state.
  fold t1 t2.
  fold (current_hour_count brand_id t1 (db s)).
  fold (previous_hour_count brand_id t2 t1 (db s)).
  rewrite Hc, Hp, Hi.
  destruct (Z.gtb_spec previous 0) as [Hpos|Hzero].
  - destruct (float_gt increase 2) eqn:Hgt.
    + match goal with
      | |- context [bind (create_alert ?a) ?k ?e ?st] =>
          destruct (run_create_alert a k e st (Hok _))
            as (alert & Hb & Hty & Hsev & _ & Heq)
      end.
      rewrite Heq. intros ->. simpl_state.
      repeat split; try lia; try discriminate; try exact Hexact.
      intros _ _. exists (stored_alert alert). repeat split; assumption.
    + intros ->. simpl_state.
      repeat split; try reflexivity; try discriminate; try exact Hexact.
  - intros ->. simpl_state.
    repeat split; try reflexivity; try lia; try exact Hexact.
Qed.

(** Ten comments in the previous hour and 35 in the current one: a
    high-severity alert with [current_count] 35; none in the previous hour:
    no alert. *)
Example volume_ten_then_thirty_five :
  let emitted p c :=
    map (fun doc => (dict_get "severity" doc, dict_get "data" doc))
      (alerts (db (snd (check_volume_alerts percent_stub "acme" quiet_env
                          (volume_state p c))))) in
  emitted 10%nat 35%nat
  = [(Some (VStr "high"),
      Some (VDict [("volume_increase", VFloat 2.5);
                   ("current_count", VInt 35)]))] /\
  emitted 0%nat 35%nat = [].
Proof. vm_compute. repeat split. Qed.

(** C2 as stated fails: ten mentions of the brand in the previous hour and
    35 in the current one, a growth of 2.5 on the events of the two
    windows; the detector counts comments, finds none and emits
    nothing. *)
Lemma volume_detector_counts_comments_only :
  let now := clock quiet_env 0 in
  let previous :=
    len (events_of_previous_hour "acme" now (db mention_volume_state)) in
  let current :=
    len (events_of_current_hour "acme" now (db mention_volume_state)) in
  let out :=
    check_volume_alerts percent_stub "acme" quiet_env mention_volume_state in
  previous = 10 /\
  current = 35 /\
  float_gt (int_truediv (current - previous) previous) 2 = true /\
  fst out = Ok tt /\
  alerts (db (snd out)) = [].
Proof. vm_compute. repeat split. Qed.

(** The bounds of the two windows are BSON dates: half a millisecond past
    ten o'clock, four comments stored at nine o'clock sharp are of the
    current hour, the one stored at half past eight is the previous hour,
    and the growth of 3 gives an alert. *)
Example volume_windows_cut_to_millisecond :
  let s :=
    state_of
      (sample_comment (hours 8 + 1800000000) 0 NEUTRAL
         :: repeat (sample_comment (hours 9) 0 NEUTRAL) 4)
      [] in
  let out := check_volume_alerts percent_stub "acme" odd_env s in
  current_hour_count "acme" (clock odd_env 0 - hours 1) (db s) = 4 /\
  previous_hour_count "acme" (clock odd_env 1 - hours 2)
    (clock odd_env 0 - hours 1) (db s) = 1 /\
  map (dict_get "severity") (alerts (db (snd out))) = [Some (VStr "high")].
Proof. vm_compute. repeat split. Qed.

(** ** Alert payloads *)

Lemma run_create_alert_fault {B} (a : AlertCreate.t) (k : Alert.t -> M B)
    env s :
  storage_fault env (sent s) = true ->
  exists doc,
    bind (create_alert a) k env s
    = (Raised StorageUnavailable,
       request_sent (InsertOne ALERTS doc) (db s) (clock_read (uuid_drawn s))).
Proof.
  intros H. unfold create_alert, insert_one.
  eexists. local_steps.
  rewrite run_storage_fault by auto. reflexivity.
Qed.

Lemma nothing_emitted (P : Document -> Prop) (before after : list Document) :
  after = before ->
  exists new, after = before ++ new /\ forall doc, In doc new -> P doc.
Proof.
  intros ->. exists []. rewrite app_nil_r. split; [reflexivity|].
  intros doc [].
Qed.

Lemma one_emitted (P : Document -> Prop) (before after : list Document) doc :
  after = before ++ [doc] -> P doc ->
  exists new, after = before ++ new /\ forall doc, In doc new -> P doc.
Proof.
  intros -> HP. exists [doc]. split; [reflexivity|].
  intros doc' [<-|[]]. exact HP.
Qed.

(** C8, as the code has it: whatever the storage does, every alert the
    sentiment detector stores carries the payload [negative_ratio],
    [total_comments] of the scanned window, and every alert the volume
    detector stores carries [volume_increase], [current_count]. *)
Theorem alert_payloads
    (format_percent : float -> string) (env : Env) (s : State)
    (brand_id : string) :
  let window := scanned_window brand_id (clock env (clock_reads s)) (db s) in
  let negative := len (filter is_negative window) in
  let total := len window in
  let one_hour_ago := clock env (clock_reads s) - hours 1 in
  let two_hours_ago := clock env (S (clock_reads s)) - hours 2 in
  let current := current_hour_count brand_id one_hour_ago (db s) in
  let previous :=
    previous_hour_count brand_id two_hours_ago one_hour_ago (db s) in
  (exists new,
     alerts (db (snd (check_sentiment_alerts format_percent brand_id env s)))
     = alerts (db s) ++ new /\
     forall doc, In doc new ->
       dict_get "data" doc
       = Some (VDict [("negative_ratio", VFloat (int_truediv negative total));
                      ("total_comments", VInt total)])) /\
  (exists new,
     alerts (db (snd (check_volume_alerts format_percent brand_id env s)))
     = alerts (db s) ++ new /\
     forall doc, In doc new ->
       dict_get "data" doc
       = Some (VDict [("volume_increase",
                       VFloat (int_truediv (current - previous) previous));
                      ("current_count", VInt current)])).
Proof.
  intros window negative total one_hour_ago two_hours_ago current previous.
  split.
  - subst negative total. unfold scanned_window in window.
    unfold check_sentiment_alerts, find_to_list.
    local_steps.
    destruct (storage_fault env (sent (clock_read s))) eqn:Hfind.
    { rewrite run_storage_fault by exact Hfind.
      apply nothing_emitted. reflexivity. }
    rewrite run_storage_call by exact Hfind. simpl_state.
    fold window. fold is_negative.
    destruct window as [|doc rest] eqn:Hw.
    { apply nothing_emitted. reflexivity. }
    rewrite <- Hw.
    destruct (float_gt _ 0.3); [|apply nothing_emitted; reflexivity].
    match goal with
    | |- context [bind (create_alert ?a) ?k ?e ?st] =>
        destruct (storage_fault e (sent st)) eqn:Hins;
        [ destruct (run_create_alert_fault a k e st Hins) as (d & Heq)
        | destruct (run_create_alert a k e st Hins)
            as (alert & _ & _ & _ & Hdata & Heq) ]
    end; rewrite Heq; simpl_state.
    + apply nothing_emitted. reflexivity.
    + eapply one_emitted; [reflexivity|].
      cbn [dict_get Alert.dict String.eqb Ascii.eqb Bool.eqb stored_alert
           Alert.data].
      rewrite Hdata. reflexivity.
  - subst current previous one_hour_ago two_hours_ago.
    set (t1 := clock env (clock_reads s) - hours 1).
    set (t2 := clock env (S (clock_reads s)) - hours 2).
    unfold check_volume_alerts, count_documents.
    local_steps.
    destruct (storage_fault env (sent (clock_read (clock_read s)))) eqn:Hc1.
    { rewrite run_storage_fault by exact Hc1.
      apply nothing_emitted. reflexivity. }
    rewrite run_storage_call by exact Hc1. simpl_state.
    match goal with
    | |- context [bind (storage_call ?rq ?serve) ?k ?e ?st] =>
        destruct (storage_fault e (sent st)) eqn:Hc2;
        [ rewrite (run_storage_fault rq serve k e st Hc2)
        | rewrite (run_storage_call rq serve k e st Hc2) ]
    end.
    { apply nothing_emitted. reflexivity. }
    simpl_state. fold t1 t2.
    fold (current_hour_count brand_id t1 (db s)).
    fold (previous_hour_count brand_id t2 t1 (db s)).
    destruct (_ >? 0); [|apply nothing_emitted; reflexivity].
    destruct (float_gt _ 2); [|apply nothing_emitted; reflexivity].
    match goal with
    | |- context [bind (create_alert ?a) ?k ?e ?st] =>
        destruct (storage_fault e (sent st)) eqn:Hins;
        [ destruct (run_create_alert_fault a k e st Hins) as (d & Heq)
        | destruct (run_create_alert a k e st Hins)
            as (alert & _ & _ & _ & Hdata & Heq) ]
    end; rewrite Heq; simpl_state.
    + apply nothing_emitted. reflexivity.
    + eapply one_emitted; [reflexivity|].
      cbn [dict_get Alert.dict String.eqb Ascii.eqb Bool.eqb stored_alert
           Alert.data].
      rewrite Hdata. reflexivity.
Qed.

(** C8 as stated fails on the names: the sentiment payload has no
    [total_count] and the volume payload no [increase_ratio]. *)
Lemma alert_payload_names_counterexample :
  (exists doc d,
     alerts (db (snd (check_sentiment_alerts percent_stub "acme" quiet_env
                        (ten_comments 6))))
     = [doc] /\
     dict_get "data" doc = Some (VDict d) /\
     dict_has "total_count" d = false /\
     dict_has "total_comments" d = true) /\
  (exists doc d,
     alerts (db (snd (check_volume_alerts percent_stub "acme" quiet_env
                        (volume_state 10 35))))
     = [doc] /\
     dict_get "data" doc = Some (VDict d) /\
     dict_has "increase_ratio" d = false /\
     dict_has "volume_increase" d = true).
Proof.
  split; eexists; eexists; vm_compute; repeat split.
Qed.

(** ** Runs and storage failures *)

Lemma disciplined_ret {A} (a : A) : disciplined (ret a).
Proof.
  intros env s. split; [apply Nat.le_refl|].
  apply returned. intros k Hk. cbn [ret snd] in Hk. lia.
Qed.

Lemma disciplined_bind {A B} (m : M A) (k : A -> M B) :
  disciplined m -> (forall a, disciplined (k a)) -> disciplined (bind m k).
Proof.
  intros Hm Hk env s. unfold bind.
  destruct (Hm env s) as [Hle Hout].
  destruct (m env s) as [[a|e] s1]; cbn [fst snd] in *.
  - destruct (Hk a env s1) as [Hle' Hout'].
    split; [lia|].
    inversion Hout as [a' Hff|]; subst.
    inversion Hout' as [b Hff' Hb|Hlt Hff' Hf Hb].
    + apply returned. intros j Hj.
      destruct (Nat.lt_ge_cases j (sent s1)); [apply Hff|apply Hff']; lia.
    + apply raised; [lia| |exact Hf]. intros j Hj.
      destruct (Nat.lt_ge_cases j (sent s1)); [apply Hff|apply Hff']; lia.
  - split; [exact Hle|].
    destruct e. inversion Hout; subst. now apply raised.
Qed.

Lemma disciplined_utcnow : disciplined utcnow.
Proof.
  intros env s. split; [apply Nat.le_refl|].
  apply returned. intros k Hk. cbn [utcnow snd] in Hk.
  rewrite sent_clock_read in Hk. lia.
Qed.

Lemma disciplined_uuid4 : disciplined uuid4.
Proof.
  intros env s. split; [apply Nat.le_refl|].
  apply returned. intros k Hk. cbn [uuid4 snd] in Hk.
  rewrite sent_uuid_drawn in Hk. lia.
Qed.

Lemma disciplined_storage_call {A} rq (serve : Database -> A * Database) :
  disciplined (storage_call rq serve).
Proof.
  intros env s. unfold storage_call.
  destruct (storage_fault env (sent s)) eqn:Hf; cbn [fst snd];
    rewrite sent_request_sent; (split; [lia|]).
  - apply raised; rewrite sent_request_sent; cbn [Nat.pred];
      [lia | intros k Hk; lia | exact Hf].
  - apply returned. rewrite sent_request_sent. intros k Hk.
    replace k with (sent s) by lia. exact Hf.
Qed.

Ltac disciplined_steps :=
  repeat first
    [ apply disciplined_bind; [|intros ?]
    | apply disciplined_ret | apply disciplined_utcnow
    | apply disciplined_uuid4 | apply disciplined_storage_call
    | match goal with
      | |- disciplined (match ?x with _ => _ end) => destruct x
      end ].

Lemma disciplined_create_alert a : disciplined (create_alert a).
Proof. unfold create_alert, insert_one. disciplined_steps. Qed.

Lemma disciplined_check_sentiment_alerts fp b :
  disciplined (check_sentiment_alerts fp b).
Proof.
  unfold check_sentiment_alerts, find_to_list.
  disciplined_steps; apply disciplined_create_alert.
Qed.

Lemma disciplined_check_volume_alerts fp b :
  disciplined (check_volume_alerts fp b).
Proof.
  unfold check_volume_alerts, count_documents.
  disciplined_steps; apply disciplined_create_alert.
Qed.

(** ** The detectors do not touch the comments *)

Lemma keeps_comments_ret {A} (a : A) : keeps_comments (ret a).
Proof. intros env s. reflexivity. Qed.

Lemma keeps_comments_bind {A B} (m : M A) (k : A -> M B) :
  keeps_comments m -> (forall a, keeps_comments (k a)) ->
  keeps_comments (bind m k).
Proof.
  intros Hm Hk env s. unfold bind. specialize (Hm env s).
  destruct (m env s) as [[a|e] s1]; cbn [fst snd] in *.
  - rewrite (Hk a env s1). exact Hm.
  - exact Hm.
Qed.

Lemma keeps_comments_utcnow : keeps_comments utcnow.
Proof. intros env s. reflexivity. Qed.

Lemma keeps_comments_uuid4 : keeps_comments uuid4.
Proof. intros env s. reflexivity. Qed.

Lemma keeps_comments_storage_call {A} rq (serve : Database -> A * Database) :
  (forall d, comments (snd (serve d)) = comments d) ->
  keeps_comments (storage_call rq serve).
Proof.
  intros H env s. unfold storage_call.
  destruct (storage_fault env (sent s)); cbn [snd];
    rewrite db_request_sent; [reflexivity|apply H].
Qed.

Ltac keeps_comments_steps :=
  repeat first
    [ apply keeps_comments_bind; [|intros ?]
    | apply keeps_comments_ret | apply keeps_comments_utcnow
    | apply keeps_comments_uuid4
    | apply keeps_comments_storage_call; intros ?; reflexivity
    | match goal with
      | |- keeps_comments (match ?x with _ => _ end) => destruct x
      end ].

Lemma keeps_comments_create_alert a : keeps_comments (create_alert a).
Proof. unfold create_alert, insert_one. keeps_comments_steps. Qed.

Lemma keeps_comments_check_sentiment_alerts fp b :
  keeps_comments (check_sentiment_alerts fp b).
Proof.
  unfold check_sentiment_alerts, find_to_list.
  keeps_comments_steps; apply keeps_comments_create_alert.
Qed.

Lemma keeps_comments_check_volume_alerts fp b :
  keeps_comments (check_volume_alerts fp b).
Proof.
  unfold check_volume_alerts, count_documents.
  keeps_comments_steps; apply keeps_comments_create_alert.
Qed.

(** ** Comment ingestion *)

(** What [create_comment] returns when it runs to its last line. *)
Lemma then_ret_value {A B} (m : M A) (b b' : B) env s :
  fst (bind m (fun _ => ret b) env s) = Ok b' -> b' = b.
Proof.
  unfold bind, ret. destruct (m env s) as [[a|e] s1]; cbn [fst];
    congruence.
Qed.

(** Once the comment is written, the rest of [create_comment] is the two
    detectors run on the database that holds it. *)
Lemma create_comment_after_insert
    (polarity_compound : string -> float) (format_percent : float -> string)
    (comment_data : CommentCreate.t) env s :
  storage_fault env (sent s) = false ->
  exists c,
    Comment.brand_id c = CommentCreate.brand_id comment_data /\
    Comment.sentiment_score c
    = polarity_compound (CommentCreate.content comment_data) /\
    Comment.sentiment_type c
    = snd (analyze_sentiment polarity_compound
             (CommentCreate.content comment_data)) /\
    Comment.priority c = calculate_priority (Comment.sentiment_score c) 0 /\
    Comment.needs_response c
    = ((Comment.sentiment_score c <? -0.1)%float
       || (Comment.priority c >=? 3)) /\
    create_comment polarity_compound format_percent comment_data env s
    = (check_sentiment_alerts format_percent
         (CommentCreate.brand_id comment_data) ;;;
       check_volume_alerts format_percent
         (CommentCreate.brand_id comment_data) ;;;
       ret c) env
        (request_sent (InsertOne COMMENTS (Comment.dict c))
           (append_document COMMENTS (Comment.dict (stored_comment c))
              (db s))
           (clock_read (uuid_drawn s))).
Proof.
  intros H. unfold create_comment, analyze_sentiment, insert_one.
  eexists. repeat split.
  6: { local_steps. rewrite run_storage_call by exact H.
       rewrite bson_comment_dict. reflexivity. }
  all: reflexivity.
Qed.

(** C3, as the code has it: once the comment is written, no failure of the
    alert path removes it from [db.comments]; but nothing catches such a
    failure: when a request of the alert path fails, [create_comment]
    raises [StorageUnavailable] to its caller, and it returns the comment
    it stored only when every request of the alert path is served. What
    is stored is the BSON document of the comment returned: its
    [created_at] is cut to the millisecond. *)
Theorem create_comment_alert_failure
    (polarity_compound : string -> float) (format_percent : float -> string)
    (env : Env) (s : State) (comment_data : CommentCreate.t) :
  storage_fault env (sent s) = false ->
  let out :=
    create_comment polarity_compound format_percent comment_data env s in
  exists c,
    comments (db (snd out)) = comments (db s) ++ [bson (Comment.dict c)] /\
    ((exists k, (sent s < k < sent (snd out))%nat /\
                storage_fault env k = true) ->
     fst out = Raised StorageUnavailable) /\
    ((forall k, (sent s < k < sent (snd out))%nat ->
                storage_fault env k = false) ->
     fst out = Ok c).
Proof.
  intros Hins out.
  destruct (create_comment_after_insert polarity_compound format_percent
              comment_data env s Hins) as (c & _ & _ & _ & _ & _ & Hrun).
  exists c. subst out. rewrite Hrun. clear Hrun.
  set (b := CommentCreate.brand_id comment_data).
  set (s1 := request_sent _ _ _).
  set (rest := check_sentiment_alerts format_percent b ;;;
               check_volume_alerts format_percent b ;;; ret c).
  assert (Hsent : sent s1 = S (sent s))
    by (unfold s1; rewrite sent_request_sent, sent_clock_read,
          sent_uuid_drawn; reflexivity).
  assert (Hkeep : keeps_comments rest).
  { unfold rest. apply keeps_comments_bind;
      [apply keeps_comments_check_sentiment_alerts|intros _].
    apply keeps_comments_bind;
      [apply keeps_comments_check_volume_alerts|intros _].
    apply keeps_comments_ret. }
  assert (Hdisc : disciplined rest).
  { unfold rest. apply disciplined_bind;
      [apply disciplined_check_sentiment_alerts|intros _].
    apply disciplined_bind;
      [apply disciplined_check_volume_alerts|intros _].
    apply disciplined_ret. }
  split.
  { rewrite (Hkeep env s1). unfold s1. simpl_state.
    rewrite bson_comment_dict. reflexivity. }
  destruct (Hdisc env s1) as [Hle Hout].
  assert (Hval : forall c', fst (rest env s1) = Ok c' -> c' = c).
  { intros c' Hc'. unfold rest in Hc'.
    rewrite <- run_bind in Hc'. exact (then_ret_value _ _ _ _ _ Hc'). }
  inversion Hout as [a Hff Ha|Hlt Hff Hf Hr].
  - assert (a = c) by (apply Hval; symmetry; exact Ha). subst a. split.
    + intros (k & Hk & Hfault). rewrite Hff in Hfault by lia. discriminate.
    + intros _. reflexivity.
  - split.
    + intros _. reflexivity.
    + intros Hnone. rewrite Hnone in Hf by lia. discriminate.
Qed.

Lemma create_comment_alert_failure_witness :
  exists c,
    comments (db (snd (create_comment polarity_stub percent_stub awful_comment
                         (failing_at 1) (state_of [] []))))
    = comments (db (state_of [] [])) ++ [bson (Comment.dict c)].
Proof.
  destruct (create_comment_alert_failure polarity_stub percent_stub
              (failing_at 1) (state_of [] []) awful_comment eq_refl)
    as (c & Hc & _).
  exists c. exact Hc.
Defined.

(** C3 as stated fails: the write of the comment is served, the query of
    the sentiment detector is not; the comment stays stored and the call
    raises. *)
Lemma alert_failure_reaches_caller :
  let out :=
    create_comment polarity_stub percent_stub awful_comment
      (failing_at 1) (state_of [] []) in
  storage_fault (failing_at 1) 0 = false /\
  List.length (comments (db (snd out))) = 1%nat /\
  fst out = Raised StorageUnavailable /\
  (forall c, fst out <> Ok c).
Proof.
  vm_compute. repeat split. intros c H. discriminate H.
Qed.

(** C6: the stored comment carries the score the analyzer gave its
    content, the priority [calculate_priority] gives that score with no
    engagement, and [needs_response] equal to (sentiment_score < -0.1) or
    (priority >= 3) on that score and that priority; stored mentions and
    posts have no such field. *)
Theorem needs_response_stored
    (polarity_compound : string -> float) (format_percent : float -> string)
    (env : Env) (s : State) (comment_data : CommentCreate.t)
    (mention_data : MentionCreate.t) (post_data : PostCreate.t) :
  storage_fault env (sent s) = false ->
  (let score := polarity_compound (CommentCreate.content comment_data) in
   let priority := calculate_priority score 0 in
   exists doc,
     comments (db (snd (create_comment polarity_compound format_percent
                          comment_data env s)))
     = comments (db s) ++ [doc] /\
     dict_get "sentiment_score" doc = Some (VFloat score) /\
     dict_get "priority" doc = Some (VInt priority) /\
     dict_get "needs_response" doc
     = Some (VBool ((score <? -0.1)%float || (priority >=? 3)))) /\
  (exists doc,
     mentions (db (snd (create_mention polarity_compound mention_data env s)))
     = mentions (db s) ++ [doc] /\
     dict_has "sentiment_score" doc = true /\
     dict_has "needs_response" doc = false /\
     dict_has "priority" doc = false) /\
  (exists doc,
     posts (db (snd (create_post polarity_compound post_data env s)))
     = posts (db s) ++ [doc] /\
     dict_has "sentiment_score" doc = true /\
     dict_has "needs_response" doc = false /\
     dict_has "priority" doc = false).
Proof.
  intros Hins. split; [|split].
  - destruct (create_comment_after_insert polarity_compound format_percent
                comment_data env s Hins)
      as (c & _ & Hscore & _ & Hpriority & Hneeds & Hrun).
    cbv zeta. exists (Comment.dict (stored_comment c)).
    rewrite Hrun. split; [|split; [|split]].
    + rewrite (keeps_comments_bind _ _
                 (keeps_comments_check_sentiment_alerts format_percent _)
                 (fun _ => keeps_comments_bind _ _
                    (keeps_comments_check_volume_alerts format_percent _)
                    (fun _ => keeps_comments_ret c))).
      simpl_state. reflexivity.
    + cbn [dict_get Comment.dict String.eqb Ascii.eqb Bool.eqb
           stored_comment Comment.sentiment_score].
      rewrite Hscore. reflexivity.
    + cbn [dict_get Comment.dict String.eqb Ascii.eqb Bool.eqb
           stored_comment Comment.priority].
      rewrite Hpriority, Hscore. reflexivity.
    + cbn [dict_get Comment.dict String.eqb Ascii.eqb Bool.eqb
           stored_comment Comment.needs_response].
      rewrite Hneeds, Hpriority, Hscore. reflexivity.
  - unfold create_mention, analyze_sentiment, insert_one. local_steps.
    rewrite run_storage_call by exact Hins.
    eexists. split; [reflexivity|]. repeat split.
  - unfold create_post, analyze_sentiment, insert_one. local_steps.
    rewrite run_storage_call by exact Hins.
    eexists. split; [reflexivity|]. repeat split.
Qed.

(** At a score of exactly -0.1 the flag is set by the priority, 3. *)
Lemma needs_response_stored_witness :
  exists doc,
    comments (db (snd (create_comment (fun _ => (-0.1)%float) percent_stub
                         awful_comment quiet_env (state_of [] []))))
    = [doc] /\
    dict_get "priority" doc = Some (VInt 3) /\
    dict_get "needs_response" doc = Some (VBool true).
Proof.
  destruct (needs_response_stored (fun _ => (-0.1)%float) percent_stub
              quiet_env (state_of [] []) awful_comment awful_mention
              awful_post eq_refl)
    as ((doc & Hdoc & _ & Hp & Hn) & _).
  exists doc. split; [exact Hdoc|]. split; [exact Hp|exact Hn].
Defined.

(** With the default engagement of 0 only the band counts. *)
Lemma calculate_priority_no_engagement (s : float) :
  let p := calculate_priority s 0 in
  (p = 0 \/ p = 1 \/ p = 3 \/ p = 5) /\
  ((s <? -0.1)%float || (p >=? 3)) = (s <=? -0.1)%float.
Proof.
  cbv zeta. unfold calculate_priority, float_ge.
  destruct (s <=? -0.5)%float eqn:H5.
  - rewrite (float_leb_weaken s (-0.5) (-0.1) eq_refl H5).
    cbn. split; [auto|]. apply orb_true_r.
  - destruct (s <=? -0.1)%float eqn:H1.
    + cbn. split; [auto|]. apply orb_true_r.
    + assert (Hlt : (s <? -0.1)%float = false).
      { destruct (s <? -0.1)%float eqn:Hlt; [|reflexivity].
        rewrite (float_ltb_leb _ _ Hlt) in H1. discriminate. }
      rewrite Hlt. destruct (0.5 <=? s)%float; cbn; auto.
Qed.

(** C10: a comment is scored with the default engagement of 0, so its
    stored priority is 0, 1, 3 or 5, never 2 or 4, and its stored
    [needs_response] is true exactly when its score is at most -0.1. *)
Theorem comment_priority_values
    (polarity_compound : string -> float) (format_percent : float -> string)
    (env : Env) (s : State) (comment_data : CommentCreate.t) :
  storage_fault env (sent s) = false ->
  exists doc score priority needs_response,
    comments (db (snd (create_comment polarity_compound format_percent
                         comment_data env s)))
    = comments (db s) ++ [doc] /\
    dict_get "sentiment_score" doc = Some (VFloat score) /\
    dict_get "priority" doc = Some (VInt priority) /\
    dict_get "needs_response" doc = Some (VBool needs_response) /\
    score = polarity_compound (CommentCreate.content comment_data) /\
    priority = calculate_priority score 0 /\
    (priority = 0 \/ priority = 1 \/ priority = 3 \/ priority = 5) /\
    priority <> 2 /\ priority <> 4 /\
    needs_response = (score <=? -0.1)%float.
Proof.
  intros Hins.
  destruct (create_comment_after_insert polarity_compound format_percent
              comment_data env s Hins)
    as (c & _ & Hscore & _ & Hprio & Hneeds & Hrun).
  exists (Comment.dict (stored_comment c)), (Comment.sentiment_score c),
    (Comment.priority c), (Comment.needs_response c).
  destruct (calculate_priority_no_engagement (Comment.sentiment_score c))
    as [Hvals Hflag].
  rewrite <- Hprio in Hvals, Hflag.
  rewrite Hrun. repeat split; try assumption; try reflexivity.
  - rewrite (keeps_comments_bind _ _
               (keeps_comments_check_sentiment_alerts format_percent _)
               (fun _ => keeps_comments_bind _ _
                  (keeps_comments_check_volume_alerts format_percent _)
                  (fun _ => keeps_comments_ret c))).
    simpl_state. reflexivity.
  - lia.
  - lia.
  - rewrite Hneeds. exact Hflag.
Qed.

Lemma comment_priority_values_witness :
  exists doc,
    comments (db (snd (create_comment polarity_stub percent_stub awful_comment
                         quiet_env (state_of [] []))))
    = [doc] /\
    dict_get "priority" doc = Some (VInt 5).
Proof.
  destruct (comment_priority_values polarity_stub percent_stub quiet_env
              (state_of [] []) awful_comment eq_refl)
    as (doc & score & priority & needs & Hdoc & _ & Hp & _ & Hs & Hc & _).
  exists doc. split; [exact Hdoc|].
  rewrite Hp, Hc, Hs. reflexivity.
Defined.

(** ** Which ingestion runs the detectors *)

Lemma run_returned {A B} (m : M A) (k : A -> M B) (a : A) env s :
  fst (m env s) = Ok a -> bind m k env s = k a env (snd (m env s)).
Proof.
  unfold bind. destruct (m env s) as [[a'|e] s1]; cbn [fst snd];
    congruence.
Qed.


Lemma check_volume_alerts_requests fp b env s :
  no_faults env ->
  exists extra,
    fst (check_volume_alerts fp b env s) = Ok tt /\
    requests (snd (check_volume_alerts fp b env s))
    = requests s
        ++ CountDocuments COMMENTS
             [FieldIs "brand_id" b;
              FieldGte "created_at" (clock env (clock_reads s) - hours 1)]
        :: CountDocuments COMMENTS
             [FieldIs "brand_id" b;
              FieldGteLt "created_at"
                (clock env (S (clock_reads s)) - hours 2)
                (clock env (clock_reads s) - hours 1)]
        :: extra /\
    Forall is_alert_insert extra.
Proof.
  intros Hok. unfold check_volume_alerts, count_documents. steps. simpl_state.
  destruct (_ >? 0).
  - destruct (float_gt _ 2).
    + match goal with
      | |- context [bind (create_alert ?a) ?k ?e ?st] =>
          destruct (run_create_alert a k e st (Hok _))
            as (alert & _ & _ & _ & _ & Heq)
      end.
      rewrite Heq. exists [InsertOne ALERTS (Alert.dict alert)].
      cbn [ret fst snd].
      rewrite !requests_request_sent, requests_clock_read,
        requests_uuid_drawn, !requests_request_sent, !requests_clock_read.
      rewrite <- !app_assoc. repeat split.
      constructor; [exact I|constructor].
    + exists []. cbn [ret fst snd].
      rewrite !requests_request_sent, !requests_clock_read.
      rewrite <- !app_assoc. repeat split. constructor.
  - exists []. cbn [ret fst snd].
    rewrite !requests_request_sent, !requests_clock_read.
    rewrite <- !app_assoc. repeat split. constructor.
Qed.




(** ** The detector theorems at sample states *)

(** Four negative comments of ten: one alert of medium severity. *)
Lemma check_sentiment_alerts_spec_witness :
  exists a,
    alerts (db (snd (check_sentiment_alerts percent_stub "acme" quiet_env
                       (ten_comments 4))))
    = [Alert.dict a] /\
    Alert.severity a = MEDIUM.
Proof.
  destruct (check_sentiment_alerts_spec percent_stub quiet_env
              (ten_comments 4) "acme" (fun k => eq_refl))
    as (_ & _ & Hemit).
  destruct Hemit as (a & Ha & _ & _ & Hsev); [vm_compute; reflexivity|].
  exists a. split; [exact Ha|exact Hsev].
Defined.

(** Ten comments, then 35 in the next hour: one alert of high severity. *)
Lemma check_volume_alerts_spec_witness :
  exists a,
    alerts (db (snd (check_volume_alerts percent_stub "acme" quiet_env
                       (volume_state 10 35))))
    = [Alert.dict a] /\
    Alert.severity a = HIGH.
Proof.
  destruct (check_volume_alerts_spec percent_stub quiet_env
              (volume_state 10 35) "acme" (fun k => eq_refl))
    as (_ & _ & _ & Hemit & _).
  destruct Hemit as (a & Ha & _ & _ & Hsev);
    [vm_compute; reflexivity|vm_compute; reflexivity|].
  exists a. split; [exact Ha|exact Hsev].
Defined.

(** * Further properties of comment ingestion *)

(** ** The write path *)

Lemma create_comment_unwritten
    (polarity_compound : string -> float) (format_percent : float -> string)
    (env : Env) (s : State) (comment_data : CommentCreate.t) :
  storage_fault env (sent s) = true ->
  let out :=
    create_comment polarity_compound format_percent comment_data env s in
  fst out = Raised StorageUnavailable /\
  db (snd out) = db s /\
  exists doc, requests (snd out) = requests s ++ [InsertOne COMMENTS doc].
Proof.
  intros Hfault. cbv zeta.
  unfold create_comment, analyze_sentiment, insert_one. local_steps.
  rewrite run_storage_fault by exact Hfault.
  cbn [fst snd]. simpl_state. repeat split.
  eexists. rewrite requests_request_sent, requests_clock_read,
    requests_uuid_drawn. reflexivity.
Qed.

(** X1: when the storage refuses the first write of create_comment (the
    insert of the comment) the call raises StorageUnavailable, the database
    is left as it was, and the only request sent is that one insert: no
    detector runs and no alert is written. *)
Theorem create_comment_write_failure
    (polarity_compound : string -> float) (format_percent : float -> string)
    (env : Env) (s : State) (comment_data : CommentCreate.t) :
  storage_fault env (sent s) = true ->
  let out :=
    create_comment polarity_compound format_percent comment_data env s in
  fst out = Raised StorageUnavailable /\
  db (snd out) = db s /\
  exists doc, requests (snd out) = requests s ++ [InsertOne COMMENTS doc].
Proof.
  intros Hfault. cbv zeta.
  unfold create_comment, analyze_sentiment, insert_one. local_steps.
  rewrite run_storage_fault by exact Hfault.
  cbn [fst snd]. simpl_state. repeat split.
  eexists. rewrite requests_request_sent, requests_clock_read,
    requests_uuid_drawn. reflexivity.
Qed.

Lemma create_comment_write_failure_witness :
  fst (create_comment polarity_stub percent_stub awful_comment
         (failing_at 0) (state_of [] []))
  = Raised StorageUnavailable.
Proof.
  exact (proj1 (create_comment_write_failure polarity_stub percent_stub
                  (failing_at 0) (state_of [] []) awful_comment eq_refl)).
Defined.

(** ** What the alert path may do *)

Lemma alert_path_ret b {A} (a : A) : alert_path b 0 0 (ret a).
Proof.
  intros env s. cbn [ret snd]. repeat split; try lia.
  exists []. rewrite app_nil_r. repeat split; [cbn; lia|constructor].
Qed.

Lemma alert_path_weaken b n r n' r' {A} (m : M A) :
  alert_path b n r m -> (n <= n')%nat -> (r <= r')%nat ->
  alert_path b n' r' m.
Proof.
  intros Hm Hn Hr env s.
  destruct (Hm env s) as (Hc & Hme & Hp & (new & Ha & Hl & Hf) & Hs).
  repeat split; try assumption; try lia.
  exists new. repeat split; [assumption|lia|assumption].
Qed.

Lemma alert_path_bind b n1 r1 n2 r2 n r {A B} (m : M A) (k : A -> M B) :
  alert_path b n1 r1 m -> (forall a, alert_path b n2 r2 (k a)) ->
  (n1 + n2 <= n)%nat -> (r1 + r2 <= r)%nat ->
  alert_path b n r (bind m k).
Proof.
  intros Hm Hk Hn Hr env s. unfold bind.
  destruct (Hm env s) as (Hc & Hme & Hp & (new & Ha & Hl & Hf) & Hs).
  destruct (m env s) as [[a|e] s1]; cbn [fst snd] in *.
  - destruct (Hk a env s1)
      as (Hc' & Hme' & Hp' & (new' & Ha' & Hl' & Hf') & Hs').
    rewrite Hc', Hme', Hp', Ha', Hc, Hme, Hp, Ha.
    repeat split; try lia.
    exists (new ++ new'). rewrite app_assoc. repeat split.
    + rewrite length_app. lia.
    + apply Forall_app. split; assumption.
  - repeat split; try assumption; try lia.
    exists new. repeat split; [assumption|lia|assumption].
Qed.

Lemma alert_path_utcnow b : alert_path b 0 0 utcnow.
Proof.
  intros env s. cbn [utcnow snd]. simpl_state. rewrite sent_clock_read.
  repeat split; try lia.
  exists []. rewrite app_nil_r. repeat split; [cbn; lia|constructor].
Qed.

Lemma alert_path_uuid4 b : alert_path b 0 0 uuid4.
Proof.
  intros env s. cbn [uuid4 snd]. simpl_state. rewrite sent_uuid_drawn.
  repeat split; try lia.
  exists []. rewrite app_nil_r. repeat split; [cbn; lia|constructor].
Qed.

(** A query: the database is returned as it was. *)
Lemma alert_path_query b {A} rq (serve : Database -> A * Database) :
  (forall d, snd (serve d) = d) ->
  alert_path b 0 1 (storage_call rq serve).
Proof.
  intros Hro env s. unfold storage_call.
  destruct (storage_fault env (sent s)); cbn [snd]; simpl_state;
    rewrite ?Hro, sent_request_sent; repeat split; try lia;
    exists []; rewrite app_nil_r; repeat split; try (cbn; lia); constructor.
Qed.

Lemma alert_path_insert_alert b doc :
  fresh_alert b (bson doc) -> alert_path b 1 1 (insert_one ALERTS doc).
Proof.
  intros Hdoc env s. unfold insert_one, storage_call.
  destruct (storage_fault env (sent s)); cbn [snd fst]; simpl_state;
    rewrite sent_request_sent; repeat split; try lia.
  - exists []. rewrite app_nil_r. repeat split; [cbn; lia|constructor].
  - exists [bson doc]. repeat split; [cbn; lia|].
    constructor; [exact Hdoc|constructor].
Qed.

Lemma alert_path_create_alert (a : AlertCreate.t) :
  AlertCreate.alert_type a = SENTIMENT \/ AlertCreate.alert_type a = VOLUME ->
  alert_path (AlertCreate.brand_id a) 1 1 (create_alert a).
Proof.
  intros Hty. unfold create_alert.
  apply (alert_path_bind _ 0 0 1 1); [apply alert_path_uuid4| |lia|lia].
  intros id.
  apply (alert_path_bind _ 0 0 1 1); [apply alert_path_utcnow| |lia|lia].
  intros now.
  apply (alert_path_bind _ 1 1 0 0);
    [|intros _; apply alert_path_ret|lia|lia].
  apply alert_path_insert_alert. rewrite bson_alert_dict.
  eexists. split; [reflexivity|].
  cbn [stored_alert Alert.brand_id Alert.alert_type Alert.is_acknowledged
       Alert.acknowledged_at option_map].
  repeat split. exact Hty.
Qed.

Lemma alert_path_check_sentiment_alerts fp b :
  alert_path b 1 2 (check_sentiment_alerts fp b).
Proof.
  unfold check_sentiment_alerts, find_to_list.
  apply (alert_path_bind _ 0 0 1 2); [apply alert_path_utcnow| |lia|lia].
  intros now.
  apply (alert_path_bind _ 0 1 1 1);
    [apply alert_path_query; reflexivity| |lia|lia].
  intros [|doc rest].
  - apply (alert_path_weaken _ 0 0); [apply alert_path_ret|lia|lia].
  - destruct (float_gt _ 0.3).
    + apply (alert_path_bind _ 1 1 0 0);
        [|intros _; apply alert_path_ret|lia|lia].
      apply (alert_path_create_alert
               (AlertCreate.mk b SENTIMENT _ _ _ _)).
      left. reflexivity.
    + apply (alert_path_weaken _ 0 0); [apply alert_path_ret|lia|lia].
Qed.

Lemma alert_path_check_volume_alerts fp b :
  alert_path b 1 3 (check_volume_alerts fp b).
Proof.
  unfold check_volume_alerts, count_documents.
  apply (alert_path_bind _ 0 0 1 3); [apply alert_path_utcnow| |lia|lia].
  intros now1.
  apply (alert_path_bind _ 0 0 1 3); [apply alert_path_utcnow| |lia|lia].
  intros now2.
  apply (alert_path_bind _ 0 1 1 2);
    [apply alert_path_query; reflexivity| |lia|lia].
  intros current.
  apply (alert_path_bind _ 0 1 1 1);
    [apply alert_path_query; reflexivity| |lia|lia].
  intros previous.
  destruct (previous >? 0);
    [|apply (alert_path_weaken _ 0 0); [apply alert_path_ret|lia|lia]].
  destruct (float_gt _ 2);
    [|apply (alert_path_weaken _ 0 0); [apply alert_path_ret|lia|lia]].
  apply (alert_path_bind _ 1 1 0 0);
    [|intros _; apply alert_path_ret|lia|lia].
  apply (alert_path_create_alert (AlertCreate.mk b VOLUME _ _ _ _)).
  right. reflexivity.
Qed.

(** The two detectors and the return of [create_comment]. *)
Lemma alert_path_detectors fp b {A} (a : A) :
  alert_path b 2 5
    (check_sentiment_alerts fp b ;;; check_volume_alerts fp b ;;; ret a).
Proof.
  apply (alert_path_bind _ 1 2 1 3);
    [apply alert_path_check_sentiment_alerts| |lia|lia].
  intros _.
  apply (alert_path_bind _ 1 3 0 0);
    [apply alert_path_check_volume_alerts| |lia|lia].
  intros _. apply alert_path_ret.
Qed.

(** What one call of [create_comment] does to the database. *)
Lemma create_comment_appends
    (polarity_compound : string -> float) (format_percent : float -> string)
    (env : Env) (s : State) (comment_data : CommentCreate.t) :
  let s' :=
    snd (create_comment polarity_compound format_percent comment_data env s)
  in
  (exists new,
     comments (db s') = comments (db s) ++ new /\
     (List.length new <= 1)%nat) /\
  (exists new,
     alerts (db s') = alerts (db s) ++ new /\
     (List.length new <= 2)%nat /\
     Forall (fresh_alert (CommentCreate.brand_id comment_data)) new) /\
  mentions (db s') = mentions (db s) /\
  posts (db s') = posts (db s) /\
  (sent s < sent s' <= sent s + 6)%nat.
Proof.
  cbv zeta. destruct (storage_fault env (sent s)) eqn:Hins.
  - destruct (create_comment_unwritten polarity_compound format_percent
                env s comment_data Hins) as (_ & Hdb & doc & Hreq).
    rewrite Hdb. unfold sent. rewrite Hreq, length_app. cbn [List.length].
    repeat split; try lia.
    + exists []. rewrite app_nil_r. split; [reflexivity|cbn; lia].
    + exists []. rewrite app_nil_r. repeat split; [cbn; lia|constructor].
  - destruct (create_comment_after_insert polarity_compound format_percent
                comment_data env s Hins) as (c & _ & _ & _ & _ & _ & Hrun).
    rewrite Hrun. clear Hrun.
    set (s1 := request_sent _ _ _).
    destruct (alert_path_detectors format_percent
                (CommentCreate.brand_id comment_data) c env s1)
      as (Hc & Hm & Hp & Ha & Hs).
    rewrite Hc, Hm, Hp.
    destruct Ha as (new & Ha & Hl & Hf). rewrite Ha.
    assert (Hsent : sent s1 = S (sent s))
      by (unfold s1; rewrite sent_request_sent, sent_clock_read,
            sent_uuid_drawn; reflexivity).
    unfold s1 at 1 2 3 4. simpl_state.
    repeat split; try lia.
    + exists [Comment.dict (stored_comment c)].
      split; [reflexivity|cbn; lia].
    + exists new. repeat split; assumption.
Qed.

(** X2: whatever the storage does, one call of [create_comment] sends
    between one and six requests, adds at most the one comment to
    [db.comments] and at most two alerts to [db.alerts], both at the end,
    and changes nothing else: no stored comment or alert is modified or
    removed, and mentions and posts are left alone. The alerts it adds are
    unacknowledged alerts of the comment's brand. *)
Theorem create_comment_effects
    (polarity_compound : string -> float) (format_percent : float -> string)
    (env : Env) (s : State) (comment_data : CommentCreate.t) :
  let s' :=
    snd (create_comment polarity_compound format_percent comment_data env s)
  in
  (exists new,
     comments (db s') = comments (db s) ++ new /\
     (List.length new <= 1)%nat) /\
  (exists new,
     alerts (db s') = alerts (db s) ++ new /\
     (List.length new <= 2)%nat /\
     Forall (fresh_alert (CommentCreate.brand_id comment_data)) new) /\
  mentions (db s') = mentions (db s) /\
  posts (db s') = posts (db s) /\
  (sent s < sent s' <= sent s + 6)%nat.
Proof.
  exact (create_comment_appends polarity_compound format_percent env s
           comment_data).
Qed.


(** ** The first negative comment of a quiet brand *)

(** Once the comment is written: what it is, and what runs next. *)
Lemma create_comment_stamped
    (polarity_compound : string -> float) (format_percent : float -> string)
    (comment_data : CommentCreate.t) env s :
  storage_fault env (sent s) = false ->
  exists c,
    Comment.id c = uuids env (uuid_draws s) /\
    Comment.created_at c = clock env (clock_reads s) /\
    Comment.brand_id c = CommentCreate.brand_id comment_data /\
    Comment.sentiment_type c
    = snd (analyze_sentiment polarity_compound
             (CommentCreate.content comment_data)) /\
    Comment.has_response c = false /\
    Comment.response_time c = None /\
    create_comment polarity_compound format_percent comment_data env s
    = (check_sentiment_alerts format_percent
         (CommentCreate.brand_id comment_data) ;;;
       check_volume_alerts format_percent
         (CommentCreate.brand_id comment_data) ;;;
       ret c) env
        (request_sent (InsertOne COMMENTS (Comment.dict c))
           (append_document COMMENTS (Comment.dict (stored_comment c))
              (db s))
           (clock_read (uuid_drawn s))).
Proof.
  intros H. unfold create_comment, analyze_sentiment, insert_one.
  eexists. repeat split.
  7: { local_steps. rewrite run_storage_call by exact H.
       rewrite bson_comment_dict. reflexivity. }
  all: reflexivity.
Qed.

Lemma firstn_1000_nil {A} (l : list A) : firstn 1000 l = [] -> l = [].
Proof. destruct l; [reflexivity|]. cbn. discriminate. Qed.

(** A window of one comment, negative: the ratio is 1 and the alert is of
    high severity. *)
Lemma lone_negative_comment_alert fp b env s doc :
  no_faults env ->
  scanned_window b (clock env (clock_reads s)) (db s) = [doc] ->
  is_negative doc = true ->
  exists a,
    fst (check_sentiment_alerts fp b env s) = Ok tt /\
    alerts (db (snd (check_sentiment_alerts fp b env s)))
    = alerts (db s) ++ [Alert.dict a] /\
    Alert.brand_id a = b /\
    Alert.alert_type a = SENTIMENT /\
    Alert.severity a = HIGH /\
    Alert.data a
    = [("negative_ratio", VFloat 1); ("total_comments", VInt 1)].
Proof.
  intros Hok Hwin Hneg.
  unfold check_sentiment_alerts, find_to_list. steps. simpl_state.
  fold (scanned_window b (clock env (clock_reads s)) (db s)).
  rewrite Hwin. fold is_negative.
  cbn [filter]. rewrite Hneg.
  change (int_truediv (len [doc]) (len [doc])) with 1%float.
  change (float_gt 1 0.3) with true. change (float_gt 1 0.5) with true.
  cbv iota.
  match goal with
  | |- context [bind (create_alert ?a) ?k ?e ?st] =>
      destruct (run_create_alert a k e st (Hok _))
        as (alert & Hb & Hty & Hsev & Hdata & Heq)
  end.
  rewrite Heq. exists (stored_alert alert). simpl_state.
  cbn [stored_alert Alert.brand_id Alert.alert_type Alert.severity
       Alert.data].
  rewrite Hdata. repeat split; assumption.
Qed.

Lemma negative_category (polarity_compound : string -> float) text :
  (polarity_compound text <=? -0.05)%float = true ->
  snd (analyze_sentiment polarity_compound text) = NEGATIVE.
Proof.
  intros Hneg. unfold analyze_sentiment, float_ge. cbn [snd].
  rewrite Hneg.
  destruct (0.05 <=? polarity_compound text)%float eqn:Hpos;
    [|reflexivity].
  rewrite (float_between_false (-0.05) 0.05 _ eq_refl Hpos) in Hneg.
  discriminate.
Qed.

(** X3: there is no minimum sample. With the storage serving, when a brand
    has no comment in the window the sentiment detector is about to scan,
    ingesting one comment that the classifier finds negative (score at most
    -0.05) stores a sentiment alert of high severity for that brand, with
    ratio 1 over 1 comment. The clock must not have moved two hours between
    stamping the comment and the detector's reading. *)
Theorem first_negative_comment_alerts
    (polarity_compound : string -> float) (format_percent : float -> string)
    (env : Env) (s : State) (comment_data : CommentCreate.t) :
  no_faults env ->
  (polarity_compound (CommentCreate.content comment_data) <=? -0.05)%float
  = true ->
  clock env (S (clock_reads s)) - hours 2 <= clock env (clock_reads s) ->
  scanned_window (CommentCreate.brand_id comment_data)
    (clock env (S (clock_reads s))) (db s) = [] ->
  exists a rest,
    alerts (db (snd (create_comment polarity_compound format_percent
                       comment_data env s)))
    = alerts (db s) ++ Alert.dict a :: rest /\
    Alert.brand_id a = CommentCreate.brand_id comment_data /\
    Alert.alert_type a = SENTIMENT /\
    Alert.severity a = HIGH /\
    Alert.data a
    = [("negative_ratio", VFloat 1); ("total_comments", VInt 1)].
Proof.
  intros Hok Hneg Hclock Hquiet.
  destruct (create_comment_stamped polarity_compound format_percent
              comment_data env s (Hok _))
    as (c & _ & Hat & Hbrand & Hty & _ & _ & Hrun).
  rewrite Hrun. clear Hrun.
  set (b := CommentCreate.brand_id comment_data) in *.
  set (s1 := request_sent _ _ _).
  assert (Hwin : scanned_window b (clock env (clock_reads s1)) (db s1)
                 = [Comment.dict (stored_comment c)]).
  { unfold s1. do 3 simpl_state. unfold scanned_window.
    rewrite comments_append_comment, filter_app.
    apply firstn_1000_nil in Hquiet. rewrite Hquiet.
    cbn [filter matches forallb holds dict_get Comment.dict String.eqb
         Ascii.eqb Bool.eqb value_eq_str app stored_comment
         Comment.brand_id Comment.created_at].
    rewrite Hbrand, String.eqb_refl, Hat.
    pose proof (bson_date_monotone _ _ Hclock).
    destruct (Z.leb_spec
                (bson_date (clock env (S (clock_reads s)) - hours 2))
                (bson_date (clock env (clock_reads s)))); [|lia].
    reflexivity. }
  assert (Hnegdoc : is_negative (Comment.dict (stored_comment c)) = true).
  { unfold is_negative.
    cbn [dict_get Comment.dict String.eqb Ascii.eqb Bool.eqb value_eq_str
         stored_comment Comment.sentiment_type].
    rewrite Hty, (negative_category _ _ Hneg). reflexivity. }
  destruct (lone_negative_comment_alert format_percent b env s1 _
              Hok Hwin Hnegdoc)
    as (a & Hr & Ha & Hab & Haty & Hsev & Hdata).
  rewrite (run_returned _ _ tt env s1 Hr).
  set (s2 := snd (check_sentiment_alerts format_percent b env s1)) in *.
  destruct (alert_path_bind b 1 3 0 0 1 3 _ (fun _ => ret c)
              (alert_path_check_volume_alerts format_percent b)
              (fun _ => alert_path_ret b c) ltac:(lia) ltac:(lia) env s2)
    as (_ & _ & _ & (new & Hnew & _ & _) & _).
  exists a, new. rewrite Hnew, Ha. unfold s1. simpl_state.
  rewrite <- app_assoc. repeat split; assumption.
Qed.

Lemma first_negative_comment_alerts_witness :
  exists a rest,
    alerts (db (snd (create_comment polarity_stub percent_stub awful_comment
                       quiet_env (state_of [] []))))
    = Alert.dict a :: rest /\
    Alert.severity a = HIGH.
Proof.
  destruct (first_negative_comment_alerts polarity_stub percent_stub
              quiet_env (state_of [] []) awful_comment
              (fun k => eq_refl) eq_refl)
    as (a & rest & Ha & _ & _ & Hsev & _).
  - vm_compute. discriminate.
  - reflexivity.
  - exists a, rest. split; [exact Ha|exact Hsev].
Defined.

(** ** Priorities 4 and 5 *)

(** X4: engagement alone never lifts a comment above priority 3: the
    priority is 4 or 5 exactly when the score is at most -0.5, or at most
    -0.1 with an engagement above 50. *)
Theorem calculate_priority_high (s : float) (e : Z) :
  (4 <=? calculate_priority s e)
  = ((s <=? -0.5)%float || ((s <=? -0.1)%float && (50 <? e))).
Proof.
  rewrite calculate_priority_band_bonus. unfold spec_band, spec_bonus.
  destruct (s <=? -0.5)%float eqn:H5.
  - destruct (100 <? e), (50 <? e); reflexivity.
  - destruct (s <=? -0.1)%float, (0.5 <=? s)%float;
      destruct (Z.ltb_spec 100 e), (Z.ltb_spec 50 e);
      try reflexivity; lia.
Qed.

(** ** The two hours of the volume detector *)

(** Two windows that share their boundary: no document is in both. *)
Lemma adjacent_windows_disjoint (brand_id : string) (boundary lower : Z)
    (docs : list Document) :
  (forall doc,
     matches [FieldIs "brand_id" brand_id;
              FieldGte "created_at" boundary] doc = true ->
     matches [FieldIs "brand_id" brand_id;
              FieldGteLt "created_at" lower boundary] doc = true ->
     False) /\
  len (filter (matches [FieldIs "brand_id" brand_id;
                        FieldGte "created_at" boundary]) docs)
  + len (filter (matches [FieldIs "brand_id" brand_id;
                          FieldGteLt "created_at" lower boundary]) docs)
  <= len (filter (matches [FieldIs "brand_id" brand_id]) docs).
Proof.
  assert (Hdisj : forall doc,
    matches [FieldIs "brand_id" brand_id;
             FieldGte "created_at" boundary] doc = true ->
    matches [FieldIs "brand_id" brand_id;
             FieldGteLt "created_at" lower boundary] doc = true ->
    False).
  { intros doc. cbn [matches forallb holds].
    destruct (value_eq_str _ _); [|discriminate].
    destruct (dict_get "created_at" doc) as [[| | | | |t|]|];
      try discriminate.
    cbn [andb]. rewrite !andb_true_r.
    destruct (Z.leb_spec boundary t), (Z.ltb_spec t boundary);
      rewrite ?andb_false_r; try discriminate; lia. }
  split; [exact Hdisj|].
  unfold len.
  induction docs as [|doc docs IH]; [cbn; lia|].
  cbn [filter].
  specialize (Hdisj doc).
  destruct (matches [FieldIs "brand_id" brand_id;
                     FieldGte "created_at" boundary] doc) eqn:Hc,
    (matches [FieldIs "brand_id" brand_id;
              FieldGteLt "created_at" lower boundary] doc) eqn:Hp,
    (matches [FieldIs "brand_id" brand_id] doc) eqn:Hb;
    cbn [List.length].
  all: try (exfalso; apply Hdisj; reflexivity).
  all: try lia.
  all: cbn [matches forallb holds] in Hc, Hp, Hb;
    rewrite andb_true_r in Hb; rewrite Hb in Hc, Hp;
    cbn [andb] in Hc, Hp; discriminate.
Qed.

(** X5: the two counts of [check_volume_alerts] never count a comment
    twice. With the storage serving, the detector sends two counting
    queries on [db.comments] and nothing else but the insert of an alert;
    whatever its two readings of the clock, no document satisfies both
    queries as the server evaluates them, and the two counts add up to at
    most the number of the brand's comments. *)
Theorem volume_windows_disjoint
    (format_percent : float -> string) (env : Env) (s : State)
    (brand_id : string) :
  no_faults env ->
  exists current_query previous_query extra,
    requests (snd (check_volume_alerts format_percent brand_id env s))
    = requests s
        ++ CountDocuments COMMENTS current_query
        :: CountDocuments COMMENTS previous_query
        :: extra /\
    Forall is_alert_insert extra /\
    (forall doc,
       matches (bson_query current_query) doc = true ->
       matches (bson_query previous_query) doc = true ->
       False) /\
    len (filter (matches (bson_query current_query)) (comments (db s)))
    + len (filter (matches (bson_query previous_query)) (comments (db s)))
    <= len (filter (matches [FieldIs "brand_id" brand_id])
              (comments (db s))).
Proof.
  intros Hok.
  destruct (check_volume_alerts_requests format_percent brand_id env s Hok)
    as (extra & _ & Hrequests & Hextra).
  eexists _, _, extra. split; [exact Hrequests|]. split; [exact Hextra|].
  cbn [bson_query map bson_condition].
  apply adjacent_windows_disjoint.
Qed.

Lemma volume_windows_disjoint_witness :
  exists current_query previous_query extra,
    requests (snd (check_volume_alerts percent_stub "acme" odd_env
                     (volume_state 10 35)))
    = CountDocuments COMMENTS current_query
        :: CountDocuments COMMENTS previous_query
        :: extra.
Proof.
  destruct (volume_windows_disjoint percent_stub odd_env
              (volume_state 10 35) "acme" (fun k => eq_refl))
    as (current_query & previous_query & extra & Hrequests & _).
  exists current_query, previous_query, extra. exact Hrequests.
Defined.

(** * The other routes *)

(** ** Running a route step by step *)

Lemma hrun_ret {A B} (a : A) (k : A -> Handler B) env st :
  hbind (hret a) k env st = k a env st.
Proof. reflexivity. Qed.

Lemma hrun_raise {A B} (f : Failure) (k : A -> Handler B) env st :
  hbind (raise f) k env st = (Failed f, st).
Proof. reflexivity. Qed.

Lemma hrun_bind {A B C} (m : Handler A) (f : A -> Handler B)
    (g : B -> Handler C) env st :
  hbind (hbind m f) g env st = hbind m (fun a => hbind (f a) g) env st.
Proof. unfold hbind. destruct (m env st) as [[a|e] st']; reflexivity. Qed.

Lemma hrun_utcnow {B} (k : Z -> Handler B) env st :
  hbind (lift utcnow) k env st
  = k (clock env (clock_reads (core st))) env
      (mkStore (clock_read (core st)) (brands st) (calls st)).
Proof. reflexivity. Qed.

Lemma hrun_uuid4 {B} (k : string -> Handler B) env st :
  hbind (lift uuid4) k env st
  = k (uuids env (uuid_draws (core st))) env
      (mkStore (uuid_drawn (core st)) (brands st) (calls st)).
Proof. reflexivity. Qed.

Lemma hrun_driver_call {A B} call (serve : Store -> A * Store)
    (k : A -> Handler B) env st :
  storage_fault env (total_sent st) = false ->
  hbind (driver_call call serve) k env st
  = k (fst (serve st)) env (called call (snd (serve st))).
Proof. intros Hf. unfold hbind, driver_call. rewrite Hf. reflexivity. Qed.

Lemma hrun_driver_fault {A B} call (serve : Store -> A * Store)
    (k : A -> Handler B) env st :
  storage_fault env (total_sent st) = true ->
  hbind (driver_call call serve) k env st
  = (Failed (Unhandled StorageUnavailable), called call st).
Proof. intros Hf. unfold hbind, driver_call. rewrite Hf. reflexivity. Qed.

Ltac hsteps :=
  repeat first
    [ rewrite hrun_bind | rewrite hrun_ret | rewrite hrun_raise
    | rewrite hrun_utcnow | rewrite hrun_uuid4
    | rewrite hrun_driver_call by auto ].

(** ** The driver's updates *)

Lemma dict_get_set_same key value d :
  dict_get key (dict_set key value d) = Some value.
Proof.
  induction d as [|[k v] rest IH]; cbn [dict_set dict_get].
  - rewrite String.eqb_refl. reflexivity.
  - destruct (String.eqb k key) eqn:Hk; cbn [dict_get]; rewrite Hk;
      [reflexivity|exact IH].
Qed.

Lemma dict_get_set_other key key' value d :
  key' <> key ->
  dict_get key' (dict_set key value d) = dict_get key' d.
Proof.
  intros Hne. induction d as [|[k v] rest IH]; cbn [dict_set dict_get].
  - destruct (String.eqb_spec key key'); [congruence|reflexivity].
  - destruct (String.eqb_spec k key) as [->|Hk]; cbn [dict_get].
    + destruct (String.eqb_spec key key'); [congruence|reflexivity].
    + destruct (String.eqb k key'); [reflexivity|exact IH].
Qed.

Lemma find_update_first (p : Document -> bool) f docs doc :
  find p docs = Some doc ->
  exists before after,
    docs = before ++ doc :: after /\
    Forall (fun d => p d = false) before /\
    p doc = true /\
    update_first p f docs = before ++ f doc :: after.
Proof.
  induction docs as [|d rest IH]; cbn [find update_first]; [discriminate|].
  destruct (p d) eqn:Hp.
  - intros [= ->]. exists [], rest. repeat split; [constructor|exact Hp].
  - intros Hfind. destruct (IH Hfind) as (before & after & -> & Hb & Hd & Hu).
    exists (d :: before), after. rewrite Hu.
    repeat split; [constructor; assumption|exact Hd].
Qed.

Lemma find_none_update_first (p : Document -> bool) f docs :
  find p docs = None -> update_first p f docs = docs.
Proof.
  induction docs as [|d rest IH]; cbn [find update_first]; [reflexivity|].
  destruct (p d); [discriminate|]. intros Hn. rewrite (IH Hn). reflexivity.
Qed.

Lemma with_collection_same c d : with_collection c (collection c d) d = d.
Proof. destruct c, d; reflexivity. Qed.

Lemma with_documents_same t st :
  same_documents st (with_documents t (documents t st) st).
Proof.
  destruct t as [c|]; unfold same_documents, with_documents, documents;
    cbn [core db brands]; [|split; reflexivity].
  rewrite with_collection_same. split; reflexivity.
Qed.

(** ** Routes that fail have written nothing *)

Lemma same_documents_refl st : same_documents st st.
Proof. split; reflexivity. Qed.

Lemma same_documents_trans st1 st2 st3 :
  same_documents st1 st2 -> same_documents st2 st3 -> same_documents st1 st3.
Proof. intros [H1 H2] [H3 H4]. split; congruence. Qed.

Lemma read_only_hret {A} (a : A) : read_only (hret a).
Proof. intros env st. apply same_documents_refl. Qed.

Lemma read_only_raise {A} f : read_only (@raise A f).
Proof. intros env st. apply same_documents_refl. Qed.

Lemma read_only_hbind {A B} (m : Handler A) (k : A -> Handler B) :
  read_only m -> (forall a, read_only (k a)) -> read_only (hbind m k).
Proof.
  intros Hm Hk env st. unfold hbind. specialize (Hm env st).
  destruct (m env st) as [[a|f] st1]; cbn [snd] in *; [|exact Hm].
  exact (same_documents_trans _ _ _ Hm (Hk a env st1)).
Qed.

Lemma read_only_utcnow : read_only (lift utcnow).
Proof. intros env st. split; reflexivity. Qed.

Lemma read_only_uuid4 : read_only (lift uuid4).
Proof. intros env st. split; reflexivity. Qed.

Lemma read_only_query {A} call (serve : Store -> A * Store) :
  (forall st, snd (serve st) = st) -> read_only (driver_call call serve).
Proof.
  intros Hro env st. unfold driver_call.
  destruct (storage_fault env (total_sent st)); cbn [snd];
    rewrite ?Hro; split; reflexivity.
Qed.

Lemma read_only_getitem d key : read_only (getitem d key).
Proof.
  unfold getitem. destruct (dict_get key d);
    [apply read_only_hret|apply read_only_raise].
Qed.

Lemma read_only_datetime_sub now v : read_only (datetime_sub now v).
Proof.
  unfold datetime_sub. destruct v;
    first [apply read_only_hret|apply read_only_raise].
Qed.

Lemma read_only_int_of_float x : read_only (int_of_float x).
Proof.
  unfold int_of_float. destruct (truncate x);
    first [apply read_only_hret|apply read_only_raise].
Qed.

Lemma read_only_parse_brand doc : read_only (parse_brand doc).
Proof.
  unfold parse_brand. destruct (Brand.of_dict doc);
    [apply read_only_hret|apply read_only_raise].
Qed.

Lemma read_only_parse_brands docs : read_only (parse_brands docs).
Proof.
  induction docs as [|doc rest IH]; cbn [parse_brands];
    [apply read_only_hret|].
  apply read_only_hbind; [apply read_only_parse_brand|intros b].
  apply read_only_hbind; [exact IH|intros bs]. apply read_only_hret.
Qed.

Lemma read_only_setattr_all items : forall b,
  read_only (setattr_all items b).
Proof.
  induction items as [|[key value] rest IH]; intros b; cbn [setattr_all];
    [apply read_only_hret|].
  destruct (Brand.setattr b key value); [apply IH|apply read_only_raise].
Qed.

Lemma all_or_nothing_read_only {A} (m : Handler A) :
  read_only m -> all_or_nothing m.
Proof.
  intros Hm env st. destruct (fst (m env st)); [exact I|apply Hm].
Qed.

Lemma all_or_nothing_after_reads {A B} (m : Handler A) (k : A -> Handler B) :
  read_only m -> (forall a, all_or_nothing (k a)) ->
  all_or_nothing (hbind m k).
Proof.
  intros Hm Hk env st. unfold hbind. specialize (Hm env st).
  destruct (m env st) as [[a|f] st1]; cbn [fst snd] in *; [|exact Hm].
  specialize (Hk a env st1).
  destruct (fst (k a env st1)); [exact I|].
  exact (same_documents_trans _ _ _ Hm Hk).
Qed.

(** A single write, then the return. *)
Lemma all_or_nothing_write {B} call (serve : Store -> unit * Store) (b : B) :
  all_or_nothing (driver_call call serve ~;; hret b).
Proof.
  intros env st. unfold hbind, driver_call, hret.
  destruct (storage_fault env (total_sent st)); cbn [fst snd];
    [split; reflexivity|exact I].
Qed.

Ltac read_steps :=
  first
    [ apply read_only_utcnow | apply read_only_uuid4
    | apply read_only_query; reflexivity
    | apply read_only_getitem | apply read_only_datetime_sub
    | apply read_only_int_of_float | apply read_only_parse_brand
    | apply read_only_parse_brands | apply read_only_setattr_all
    | apply read_only_hret | apply read_only_raise ].

Ltac all_or_nothing_steps :=
  repeat first
    [ apply all_or_nothing_write
    | apply all_or_nothing_after_reads; [read_steps|intros ?]
    | apply all_or_nothing_read_only; read_steps
    | match goal with
      | |- all_or_nothing (match ?x with _ => _ end) => destruct x
      end ].

(** X6: each of these routes writes at most once, as its last request: a
    call that does not return, whether it raised a 404, met a storage
    failure or a Python error, has changed no stored document. *)
Theorem failed_routes_write_nothing (id : string)
    (brand_data : BrandCreate.t) :
  all_or_nothing (create_brand brand_data) /\
  all_or_nothing get_brands /\
  all_or_nothing (get_brand id) /\
  all_or_nothing (update_brand id brand_data) /\
  all_or_nothing (delete_brand id) /\
  all_or_nothing (mark_comment_responded id) /\
  all_or_nothing (acknowledge_alert id).
Proof.
  repeat split.
  - unfold create_brand, insert_brand. all_or_nothing_steps.
  - unfold get_brands, find_active_brands. all_or_nothing_steps.
  - unfold get_brand, find_one. all_or_nothing_steps.
  - unfold update_brand, find_one, replace_one. all_or_nothing_steps.
  - unfold delete_brand, find_one, update_one. all_or_nothing_steps.
  - unfold mark_comment_responded, find_one, update_one.
    all_or_nothing_steps.
  - unfold acknowledge_alert, find_one, update_one. all_or_nothing_steps.
Qed.

(** ** Unknown identifiers *)

(** X7: with the storage serving, each route that takes an identifier
    answers one that no document of its collection carries with a 404 of
    its own detail. *)
Theorem unknown_id_not_found (env : Env) (st : Store) (id : string)
    (brand_data : BrandCreate.t) :
  storage_fault env (total_sent st) = false ->
  (find (matches [FieldIs "id" id]) (brands st) = None ->
   fst (get_brand id env st)
   = Failed (HTTPException 404 "Brand not found") /\
   fst (update_brand id brand_data env st)
   = Failed (HTTPException 404 "Brand not found") /\
   fst (delete_brand id env st)
   = Failed (HTTPException 404 "Brand not found")) /\
  (find (matches [FieldIs "id" id]) (comments (db (core st))) = None ->
   fst (mark_comment_responded id env st)
   = Failed (HTTPException 404 "Comment not found")) /\
  (find (matches [FieldIs "id" id]) (alerts (db (core st))) = None ->
   fst (acknowledge_alert id env st)
   = Failed (HTTPException 404 "Alert not found")).
Proof.
  intros Hserved. split; [|split]; intros Hnone.
  - repeat split.
    + unfold get_brand, find_one.
      rewrite hrun_driver_call by exact Hserved.
      cbn [fst snd documents bson_query map bson_condition].
      rewrite Hnone. reflexivity.
    + unfold update_brand, find_one.
      rewrite hrun_driver_call by exact Hserved.
      cbn [fst snd documents bson_query map bson_condition].
      rewrite Hnone. reflexivity.
    + unfold delete_brand, find_one.
      rewrite hrun_driver_call by exact Hserved.
      cbn [fst snd documents bson_query map bson_condition].
      rewrite Hnone. reflexivity.
  - unfold mark_comment_responded, find_one.
    rewrite hrun_driver_call by exact Hserved.
    cbn [fst snd documents collection bson_query map bson_condition].
    rewrite Hnone. reflexivity.
  - unfold acknowledge_alert, find_one.
    rewrite hrun_driver_call by exact Hserved.
    cbn [fst snd documents collection bson_query map bson_condition].
    rewrite Hnone. reflexivity.
Qed.

Lemma unknown_id_not_found_witness :
  fst (mark_comment_responded "nope" quiet_env
         (store_of (comments (db (ten_comments 3))) [sample_alert]
            [Brand.dict sample_brand]))
  = Failed (HTTPException 404 "Comment not found").
Proof.
  exact (proj1 (proj2 (unknown_id_not_found quiet_env
                         (store_of (comments (db (ten_comments 3)))
                            [sample_alert] [Brand.dict sample_brand])
                         "nope" rename_only eq_refl))
           eq_refl).
Defined.
(** ** [int] of the minutes never fails

    The quotient that [mark_comment_responded] hands to [int] is a zero or
    a finite number, whatever the two dates: the conversion of an integer
    is finite, and so is a finite number divided by [10**6] or by 60.
    The bounds follow the rounding of [SpecFloat]: the mantissa is cut to
    53 digits and the exponent stays below the largest one. *)

Lemma digits2_pos_succ p :
  Zpos (digits2_pos (Pos.succ p)) <= Zpos (digits2_pos p) + 1.
Proof.
  induction p as [p IH|p IH|]; cbn [Pos.succ digits2_pos];
    rewrite ?Pos2Z.inj_succ; lia.
Qed.

Lemma Zdigits2_nonneg m : 0 <= Zdigits2 m.
Proof. destruct m; cbn; lia. Qed.

Lemma Zdigits2_succ m : 0 <= m -> Zdigits2 (m + 1) <= Zdigits2 m + 1.
Proof.
  intros Hm. destruct m as [|p|p]; [cbn; lia| |lia].
  change (Z.pos p + 1) with (Z.pos (p + 1)). rewrite Pos.add_1_r.
  apply digits2_pos_succ.
Qed.

Lemma digits2_pos_pow p :
  2 ^ (Zpos (digits2_pos p) - 1) <= Zpos p < 2 ^ Zpos (digits2_pos p).
Proof.
  induction p as [p IH|p IH|]; cbn [digits2_pos];
    rewrite ?Pos2Z.inj_succ.
  - replace (Z.succ (Z.pos (digits2_pos p)) - 1)
      with (Z.succ (Z.pos (digits2_pos p) - 1)) by lia.
    rewrite !Z.pow_succ_r by lia. lia.
  - replace (Z.succ (Z.pos (digits2_pos p)) - 1)
      with (Z.succ (Z.pos (digits2_pos p) - 1)) by lia.
    rewrite !Z.pow_succ_r by lia. lia.
  - cbn. lia.
Qed.

Lemma Zdigits2_le m k : 0 <= m -> 0 <= k -> m < 2 ^ k -> Zdigits2 m <= k.
Proof.
  intros Hm Hk Hlt. destruct m as [|p|p]; [cbn; lia| |lia].
  cbn [Zdigits2]. pose proof (digits2_pos_pow p) as [Hlo _].
  destruct (Z_le_gt_dec (Zpos (digits2_pos p)) k) as [|Hgt]; [assumption|].
  exfalso.
  assert (2 ^ k <= 2 ^ (Zpos (digits2_pos p) - 1))
    by (apply Z.pow_le_mono_r; lia).
  lia.
Qed.

Lemma shr_1_bound mrs :
  0 <= shr_m mrs ->
  0 <= shr_m (shr_1 mrs) /\
  Zdigits2 (shr_m (shr_1 mrs)) <= Z.max 0 (Zdigits2 (shr_m mrs) - 1).
Proof.
  destruct mrs as [[|[p|p|]|p] r s]; cbn [shr_m shr_1 Zdigits2 digits2_pos];
    rewrite ?Pos2Z.inj_succ; lia.
Qed.

Lemma iter_shr_1_bound p : forall mrs d,
  0 <= shr_m mrs -> Zdigits2 (shr_m mrs) <= Z.max 0 d ->
  0 <= shr_m (iter_pos shr_1 p mrs) /\
  Zdigits2 (shr_m (iter_pos shr_1 p mrs)) <= Z.max 0 (d - Zpos p).
Proof.
  induction p as [p IH|p IH|]; intros mrs d Hm Hd; cbn [iter_pos].
  - destruct (shr_1_bound mrs Hm) as [H0 H1].
    destruct (IH (shr_1 mrs) (d - 1) H0 ltac:(lia)) as [H2 H3].
    destruct (IH _ (d - 1 - Zpos p) H2 H3) as [H4 H5].
    split; [exact H4|]. rewrite Pos2Z.inj_xI. lia.
  - destruct (IH mrs d Hm Hd) as [H2 H3].
    destruct (IH _ (d - Zpos p) H2 H3) as [H4 H5].
    split; [exact H4|]. rewrite Pos2Z.inj_xO. lia.
  - destruct (shr_1_bound mrs Hm) as [H0 H1]. split; [exact H0|lia].
Qed.

Lemma shr_m_of_loc m l : shr_m (shr_record_of_loc m l) = m.
Proof. destruct l as [|[]]; reflexivity. Qed.

(** After [shr_fexp] the mantissa has at most 53 digits. *)
Lemma shr_fexp_bound m e l :
  0 <= m ->
  0 <= shr_m (fst (shr_fexp prec emax m e l)) /\
  Zdigits2 (shr_m (fst (shr_fexp prec emax m e l))) <= 53 /\
  snd (shr_fexp prec emax m e l)
  = Z.max e (fexp prec emax (Zdigits2 m + e)).
Proof.
  intros Hm. unfold shr_fexp, shr.
  pose proof (Zdigits2_nonneg m) as Hd.
  assert (Hf : Zdigits2 m + e - 53 <= fexp prec emax (Zdigits2 m + e))
    by (unfold fexp, prec; lia).
  destruct (fexp prec emax (Zdigits2 m + e) - e) as [|p|p] eqn:Hn;
    cbn [fst snd].
  - rewrite shr_m_of_loc. repeat split; lia.
  - destruct (iter_shr_1_bound p (shr_record_of_loc m l) (Zdigits2 m))
      as [H0 H1]; rewrite ?shr_m_of_loc; lia.
  - rewrite shr_m_of_loc. repeat split; lia.
Qed.

Lemma round_nearest_even_bound m l :
  0 <= m ->
  0 <= round_nearest_even m l /\
  Zdigits2 (round_nearest_even m l) <= Zdigits2 m + 1.
Proof.
  intros Hm. pose proof (Zdigits2_succ m Hm).
  unfold round_nearest_even.
  destruct l as [|[]]; try destruct (Z.even m); split; lia.
Qed.

(** Rounding a mantissa that is not negative, away from the largest
    exponents, gives a zero or a finite number. *)
Lemma binary_round_aux_finite sx mx ex lx :
  0 <= mx -> ex <= 970 -> Zdigits2 mx + ex <= 1023 ->
  finite_number (binary_round_aux prec emax sx mx ex lx).
Proof.
  intros Hm He Hd. unfold binary_round_aux.
  destruct (shr_fexp_bound mx ex lx Hm) as (H0 & H1 & H2).
  destruct (shr_fexp prec emax mx ex lx) as [mrs' e']. cbn [fst snd] in *.
  destruct (round_nearest_even_bound (shr_m mrs') (loc_of_shr_record mrs') H0)
    as [H3 H4].
  destruct (shr_fexp_bound _ e' loc_Exact H3) as (H5 & H6 & H7).
  destruct (shr_fexp prec emax _ e' loc_Exact) as [mrs'' e''].
  cbn [fst snd] in *.
  destruct (shr_m mrs'') as [|m|m]; [exact I| |lia].
  assert (Hle : e'' <= emax - prec).
  { subst e'' e'. unfold fexp, emin, emax, prec in *. lia. }
  apply Z.leb_le in Hle. rewrite Hle. exact I.
Qed.

(** The quotient of a finite number by a finite number that is not tiny
    is a zero or a finite number. *)
Lemma SFdiv_finite sx mx ex sy my ey :
  valid_binary (S754_finite sx mx ex) = true ->
  2 <= Zpos (digits2_pos my) + ey ->
  finite_number (SFdiv prec emax (S754_finite sx mx ex) (S754_finite sy my ey)).
Proof.
  intros Hvalid Hy.
  unfold valid_binary, SpecFloat.valid_binary in Hvalid.
  unfold bounded, canonical_mantissa in Hvalid.
  apply andb_true_iff in Hvalid. destruct Hvalid as [Hcan Hex].
  apply Z.eqb_eq in Hcan. apply Z.leb_le in Hex.
  unfold SFdiv, SFdiv_core_binary. cbn [Zdigits2].
  set (d1 := Zpos (digits2_pos mx)) in *.
  set (d2 := Zpos (digits2_pos my)) in *.
  set (e' := Z.min (fexp prec emax (d1 + ex - (d2 + ey))) (ex - ey)).
  set (s := ex - ey - e').
  assert (Hd1 : d1 + ex <= 1024)
    by (unfold fexp, emin, emax, prec in *; lia).
  assert (He' : e' <= 969 /\ 0 <= s)
    by (unfold e', s, fexp, emin, emax, prec in *; lia).
  set (m' := match s with
             | 0 => Z.pos mx
             | Z.pos _ => Z.shiftl (Z.pos mx) s
             | Z.neg _ => 0
             end).
  assert (Hm' : m' = Zpos mx * 2 ^ s).
  { unfold m'. destruct s as [|p|p] eqn:Hs; [cbn; lia| |lia].
    apply Z.shiftl_mul_pow2. lia. }
  pose proof (Z_div_mod m' (Zpos my) ltac:(lia)) as Hdiv.
  destruct (Z.div_eucl m' (Z.pos my)) as [q r].
  destruct Hdiv as [Hdiv Hr].
  pose proof (digits2_pos_pow mx) as [_ Hmx].
  pose proof (digits2_pos_pow my) as [Hmy _].
  fold d1 in Hmx. fold d2 in Hmy.
  assert (Hpow : 0 < 2 ^ s) by (apply Z.pow_pos_nonneg; lia).
  assert (Hq0 : 0 <= q) by nia.
  assert (Hqm : q * 2 ^ (d2 - 1) < 2 ^ (d1 + s)).
  { rewrite Z.pow_add_r by lia. nia. }
  assert (Hdq : Zdigits2 q <= Z.max 0 (d1 + s - d2 + 1)).
  { destruct (Z_le_gt_dec 0 (d1 + s - d2 + 1)) as [Hk|Hk].
    - rewrite Z.max_r by lia. apply Zdigits2_le; [lia|lia|].
      replace (d1 + s) with ((d1 + s - d2 + 1) + (d2 - 1)) in Hqm by lia.
      rewrite Z.pow_add_r in Hqm by lia.
      assert (0 < 2 ^ (d2 - 1)) by (apply Z.pow_pos_nonneg; lia).
      nia.
    - rewrite Z.max_l by lia.
      assert (2 ^ (d1 + s) <= 2 ^ (d2 - 1))
        by (apply Z.pow_le_mono_r; lia).
      assert (0 < 2 ^ (d2 - 1)) by (apply Z.pow_pos_nonneg; lia).
      assert (q = 0) by nia. subst q. cbn. lia. }
  apply binary_round_aux_finite; [exact Hq0|lia|].
  unfold s in Hdq. lia.
Qed.

Lemma finite_opp x : finite_number x -> finite_number (SFopp x).
Proof. destruct x; cbn; auto. Qed.

Lemma digits2_pos_iter_xO m d :
  Zpos (digits2_pos (Pos.iter xO m d)) = Zpos (digits2_pos m) + Zpos d.
Proof.
  induction d as [|d IH] using Pos.peano_ind.
  - cbn. rewrite Pos2Z.inj_succ. lia.
  - rewrite Pos.iter_succ. cbn [digits2_pos].
    rewrite !Pos2Z.inj_succ, IH. lia.
Qed.

Lemma of_uint63_finite n : finite_number (Prim2SF (of_uint63 n)).
Proof.
  rewrite of_uint63_spec. unfold binary_normalize.
  pose proof (Uint63.to_Z_bounded n) as Hn.
  destruct (Uint63.to_Z n) as [|m|m] eqn:Hm; [exact I| |lia].
  unfold binary_round.
  assert (Hd : Zpos (digits2_pos m) <= 63).
  { apply (Zdigits2_le (Zpos m)); [lia|lia|].
    change (2 ^ 63) with wB. lia. }
  unfold shl_align.
  destruct (fexp prec emax (Z.pos (digits2_pos m) + 0) - 0) as [|p|p] eqn:Hs.
  - apply binary_round_aux_finite; cbn [Zdigits2]; lia.
  - apply binary_round_aux_finite; cbn [Zdigits2]; lia.
  - assert (Hf : fexp prec emax (Z.pos (digits2_pos m) + 0) = Zneg p)
      by lia.
    rewrite Hf.
    apply binary_round_aux_finite; cbn [Zdigits2];
      rewrite ?digits2_pos_iter_xO; lia.
Qed.

Lemma quotient_finite (x y : float) sy my ey :
  finite_number (Prim2SF x) ->
  Prim2SF y = S754_finite sy my ey ->
  2 <= Zpos (digits2_pos my) + ey ->
  finite_number (Prim2SF (x / y)).
Proof.
  intros Hx Hy Hbig. rewrite div_spec, Hy.
  pose proof (Prim2SF_valid x) as Hvalid.
  destruct (Prim2SF x) as [sx| | |sx mx ex]; try contradiction.
  - exact I.
  - apply SFdiv_finite; assumption.
Qed.

Lemma float_of_int_finite n : finite_number (Prim2SF (float_of_int n)).
Proof.
  unfold float_of_int. destruct (n <? 0).
  - rewrite opp_spec. apply finite_opp, of_uint63_finite.
  - apply of_uint63_finite.
Qed.

Lemma int_of_minutes td :
  exists n, truncate (total_seconds td / 60)%float = inl n.
Proof.
  assert (H : finite_number (Prim2SF (total_seconds td / 60)%float)).
  { eapply quotient_finite; [|vm_compute; reflexivity|cbn; lia].
    unfold total_seconds, int_truediv.
    eapply quotient_finite;
      [apply float_of_int_finite|vm_compute; reflexivity|cbn; lia]. }
  unfold truncate.
  destruct (Prim2SF _) as [s|s| |s m e]; try contradiction; eauto.
Qed.

(** ** Marking a comment responded *)

Lemma apply_set_two k1 v1 k2 v2 d :
  apply_set [(k1, v1); (k2, v2)] d = dict_set k2 v2 (dict_set k1 v1 d).
Proof. reflexivity. Qed.

(** The run of [mark_comment_responded] on a comment that is found. *)
Lemma mark_comment_responded_run env st comment_id doc t n :
  no_faults env ->
  find (matches [FieldIs "id" comment_id]) (comments (db (core st)))
  = Some doc ->
  dict_get "created_at" doc = Some (VDate t) ->
  truncate
    (total_seconds (clock env (clock_reads (core st)) - t) / 60)%float
  = inl n ->
  let fields :=
    [("has_response", VBool true); ("response_time", VInt n)] in
  mark_comment_responded comment_id env st
  = (Returned [("message", VStr "Comment marked as responded");
               ("response_time", VInt n)],
     called (UpdateOne (IN COMMENTS) [FieldIs "id" comment_id] fields)
       (with_documents (IN COMMENTS)
          (update_first (matches [FieldIs "id" comment_id])
             (apply_set fields) (comments (db (core st))))
          (mkStore (clock_read (core st)) (brands st)
             (calls st ++ [FindOne (IN COMMENTS)
                             [FieldIs "id" comment_id]])))).
Proof.
  intros Hok Hfind Hcreated Htrunc fields.
  unfold mark_comment_responded, find_one, update_one.
  rewrite hrun_driver_call by apply Hok.
  cbn [fst snd documents collection bson_query map bson_condition].
  rewrite Hfind.
  rewrite hrun_utcnow. cbn [core called brands calls].
  unfold getitem. rewrite Hcreated.
  rewrite hrun_ret. cbn [datetime_sub]. rewrite hrun_ret.
  unfold int_of_float. rewrite Htrunc. rewrite hrun_ret.
  rewrite hrun_driver_call by apply Hok.
  reflexivity.
Qed.

(** X8: with the storage serving, marking a stored comment responded
    never fails in [int]: the quotient of the elapsed seconds by 60 is a
    number, [int] cuts it to an integer [n], and the route sets
    [has_response] to true and [response_time] to [n] on the first comment
    with that identifier, returns [n], and changes nothing else: every
    other field of that comment (its score, category, priority and
    [needs_response] among them), every other comment, and the mentions,
    posts, alerts and brands are as before. The comment is less than
    [2^53] microseconds (285 years) from the clock, where the conversion
    of the elapsed time to a float is exact, as Python's is. *)
Theorem mark_comment_responded_sets_response
    (env : Env) (st : Store) (comment_id : string) (doc : Document)
    (t : Z) :
  no_faults env ->
  find (matches [FieldIs "id" comment_id]) (comments (db (core st)))
  = Some doc ->
  dict_get "created_at" doc = Some (VDate t) ->
  Z.abs (clock env (clock_reads (core st)) - t) < 2 ^ 53 ->
  let out := mark_comment_responded comment_id env st in
  exists n,
    truncate
      (total_seconds (clock env (clock_reads (core st)) - t) / 60)%float
    = inl n /\
    fst out
    = Returned [("message", VStr "Comment marked as responded");
                ("response_time", VInt n)] /\
    (exists before after doc',
       comments (db (core st)) = before ++ doc :: after /\
       comments (db (core (snd out))) = before ++ doc' :: after /\
       dict_get "has_response" doc' = Some (VBool true) /\
       dict_get "response_time" doc' = Some (VInt n) /\
       forall key,
         key <> "has_response" -> key <> "response_time" ->
         dict_get key doc' = dict_get key doc) /\
    mentions (db (core (snd out))) = mentions (db (core st)) /\
    posts (db (core (snd out))) = posts (db (core st)) /\
    alerts (db (core (snd out))) = alerts (db (core st)) /\
    brands (snd out) = brands st.
Proof.
  intros Hok Hfind Hcreated _ out. subst out.
  destruct (int_of_minutes (clock env (clock_reads (core st)) - t))
    as [n Htrunc].
  exists n. split; [exact Htrunc|].
  rewrite (mark_comment_responded_run env st comment_id doc t n
             Hok Hfind Hcreated Htrunc).
  cbn [fst snd called with_documents with_collection core db brands
       comments mentions posts alerts clock_read].
  split; [reflexivity|]. split; [|repeat split].
  destruct (find_update_first _
              (apply_set [("has_response", VBool true);
                          ("response_time", VInt n)]) _ _ Hfind)
    as (before & after & Hdocs & _ & _ & Hupd).
  exists before, after, (apply_set [("has_response", VBool true);
                                    ("response_time", VInt n)] doc).
  rewrite apply_set_two in *.
  repeat split; try assumption.
  - rewrite dict_get_set_other by discriminate.
    apply dict_get_set_same.
  - apply dict_get_set_same.
  - intros key Hk1 Hk2. rewrite !dict_get_set_other by assumption.
    reflexivity.
Qed.

(** An hour and half a millisecond after the comment: 60 minutes. *)
Lemma mark_comment_responded_sets_response_witness :
  fst (mark_comment_responded "c" odd_env
         (mkStore (ten_comments 3) [] []))
  = Returned [("message", VStr "Comment marked as responded");
              ("response_time", VInt 60)].
Proof.
  destruct (mark_comment_responded_sets_response odd_env
              (mkStore (ten_comments 3) [] []) "c"
              (sample_comment (hours 9) (-0.6) NEGATIVE) (hours 9)
              (fun k => eq_refl) eq_refl eq_refl eq_refl)
    as (n & Htrunc & Hreturned & _).
  vm_compute in Htrunc. injection Htrunc as <-. exact Hreturned.
Defined.

(** ** Acknowledging an alert *)

Lemma acknowledge_alert_run env st alert_id doc :
  no_faults env ->
  find (matches [FieldIs "id" alert_id]) (alerts (db (core st)))
  = Some doc ->
  let fields :=
    [("is_acknowledged", VBool true);
     ("acknowledged_at", VDate (clock env (clock_reads (core st))))] in
  acknowledge_alert alert_id env st
  = (Returned [("message", VStr "Alert acknowledged")],
     called (UpdateOne (IN ALERTS) [FieldIs "id" alert_id] fields)
       (with_documents (IN ALERTS)
          (update_first (matches [FieldIs "id" alert_id])
             (apply_set (bson fields)) (alerts (db (core st))))
          (mkStore (clock_read (core st)) (brands st)
             (calls st ++ [FindOne (IN ALERTS) [FieldIs "id" alert_id]])))).
Proof.
  intros Hok Hfind fields.
  unfold acknowledge_alert, find_one, update_one.
  rewrite hrun_driver_call by apply Hok.
  cbn [fst snd documents collection bson_query map bson_condition].
  rewrite Hfind.
  rewrite hrun_utcnow. cbn [core called brands calls].
  rewrite hrun_driver_call by apply Hok.
  reflexivity.
Qed.

(** X9: with the storage serving, acknowledging a stored alert sets
    [is_acknowledged] to true and [acknowledged_at] to the reading of the
    clock, which the storage keeps cut to the millisecond, on the first
    alert with that identifier, whether or not it was acknowledged before
    (a second acknowledgement overwrites the time of the first), and
    changes nothing else. *)
Theorem acknowledge_alert_sets_acknowledged
    (env : Env) (st : Store) (alert_id : string) (doc : Document) :
  no_faults env ->
  find (matches [FieldIs "id" alert_id]) (alerts (db (core st)))
  = Some doc ->
  let out := acknowledge_alert alert_id env st in
  fst out = Returned [("message", VStr "Alert acknowledged")] /\
  (exists before after doc',
     alerts (db (core st)) = before ++ doc :: after /\
     alerts (db (core (snd out))) = before ++ doc' :: after /\
     dict_get "is_acknowledged" doc' = Some (VBool true) /\
     dict_get "acknowledged_at" doc'
     = Some (VDate (bson_date (clock env (clock_reads (core st))))) /\
     forall key,
       key <> "is_acknowledged" -> key <> "acknowledged_at" ->
       dict_get key doc' = dict_get key doc) /\
  comments (db (core (snd out))) = comments (db (core st)) /\
  mentions (db (core (snd out))) = mentions (db (core st)) /\
  posts (db (core (snd out))) = posts (db (core st)) /\
  brands (snd out) = brands st.
Proof.
  intros Hok Hfind out. subst out.
  rewrite (acknowledge_alert_run env st alert_id doc Hok Hfind).
  cbn [fst snd called with_documents with_collection core db brands
       comments mentions posts alerts clock_read].
  split; [reflexivity|]. split; [|repeat split].
  set (fields := [("is_acknowledged", VBool true);
                  ("acknowledged_at",
                   VDate (bson_date (clock env (clock_reads (core st)))))]).
  change (bson [("is_acknowledged", VBool true);
                ("acknowledged_at",
                 VDate (clock env (clock_reads (core st))))])
    with fields.
  destruct (find_update_first _ (apply_set fields) _ _ Hfind)
    as (before & after & Hdocs & _ & _ & Hupd).
  exists before, after, (apply_set fields doc).
  unfold fields in *. rewrite apply_set_two in *.
  repeat split; try assumption.
  - rewrite dict_get_set_other by discriminate.
    apply dict_get_set_same.
  - apply dict_get_set_same.
  - intros key Hk1 Hk2. rewrite !dict_get_set_other by assumption.
    reflexivity.
Qed.

Lemma acknowledge_alert_sets_acknowledged_witness :
  fst (acknowledge_alert "a1" odd_env (store_of [] [sample_alert] []))
  = Returned [("message", VStr "Alert acknowledged")].
Proof.
  exact (proj1 (acknowledge_alert_sets_acknowledged odd_env
                  (store_of [] [sample_alert] []) "a1" sample_alert
                  (fun k => eq_refl) eq_refl)).
Defined.

(** ** From a new alert to its acknowledgement *)

Lemma no_faults_later env k : no_faults env -> no_faults (later_env env k).
Proof. intros Hok n. apply Hok. Qed.

Lemma create_alert_run (a : AlertCreate.t) env s :
  storage_fault env (sent s) = false ->
  let alert :=
    Alert.mk (uuids env (uuid_draws s))
      (AlertCreate.brand_id a) (AlertCreate.alert_type a)
      (AlertCreate.severity a) (AlertCreate.title a)
      (AlertCreate.description a)
      (clock env (clock_reads s)) false None (AlertCreate.data a) in
  create_alert a env s
  = (Ok alert,
     request_sent (InsertOne ALERTS (Alert.dict alert))
       (append_document ALERTS (Alert.dict (stored_alert alert)) (db s))
       (clock_read (uuid_drawn s))).
Proof.
  intros Hf alert. unfold create_alert, insert_one.
  rewrite run_uuid4, run_utcnow.
  unfold bind, storage_call.
  change (sent (clock_read (uuid_drawn s))) with (sent s). rewrite Hf.
  reflexivity.
Qed.

Lemma find_app_last (p : Document -> bool) docs doc :
  find p docs = None -> p doc = true ->
  find p (docs ++ [doc]) = Some doc /\
  forall f, update_first p f (docs ++ [doc]) = docs ++ [f doc].
Proof.
  intros Hnone Hdoc. induction docs as [|d rest IH];
    cbn [find update_first app] in *.
  - rewrite Hdoc. split; reflexivity.
  - destruct (p d); [discriminate|].
    destruct (IH Hnone) as [Hfind Hupd]. split; [exact Hfind|].
    intros f. rewrite Hupd. reflexivity.
Qed.

Lemma hrun_create_alert {B} (a : AlertCreate.t) (k : Alert.t -> Handler B)
    env st :
  no_faults env ->
  let alert :=
    Alert.mk (uuids env (uuid_draws (core st)))
      (AlertCreate.brand_id a) (AlertCreate.alert_type a)
      (AlertCreate.severity a) (AlertCreate.title a)
      (AlertCreate.description a)
      (clock env (clock_reads (core st))) false None (AlertCreate.data a) in
  hbind (lift (create_alert a)) k env st
  = k alert env
      (mkStore
         (request_sent (InsertOne ALERTS (Alert.dict alert))
            (append_document ALERTS (Alert.dict (stored_alert alert))
               (db (core st)))
            (clock_read (uuid_drawn (core st))))
         (brands st) (calls st)).
Proof.
  intros Hok alert. unfold hbind, lift.
  rewrite (create_alert_run a _ (core st) (no_faults_later env _ Hok _)).
  reflexivity.
Qed.

(** X10: an alert can be acknowledged by the identifier [create_alert]
    gave it. With the storage serving and an identifier no stored alert
    carries yet, creating an alert and acknowledging it by the identifier
    of the [Alert] returned leaves that one alert at the end of
    [db.alerts], with the fields it was created with, acknowledged; its
    [created_at] is the first reading of the clock and its
    [acknowledged_at] the second, both cut to the millisecond as the
    storage keeps them. *)
Theorem created_alert_is_acknowledged
    (env : Env) (st : Store) (alert_data : AlertCreate.t) :
  no_faults env ->
  find (matches [FieldIs "id" (uuids env (uuid_draws (core st)))])
    (alerts (db (core st))) = None ->
  let out :=
    (alert <~ lift (create_alert alert_data) ;;
     acknowledge_alert (Alert.id alert)) env st in
  fst out = Returned [("message", VStr "Alert acknowledged")] /\
  alerts (db (core (snd out)))
  = alerts (db (core st))
      ++ [Alert.dict
            (Alert.mk (uuids env (uuid_draws (core st)))
               (AlertCreate.brand_id alert_data)
               (AlertCreate.alert_type alert_data)
               (AlertCreate.severity alert_data)
               (AlertCreate.title alert_data)
               (AlertCreate.description alert_data)
               (bson_date (clock env (clock_reads (core st))))
               true
               (Some (bson_date (clock env (S (clock_reads (core st))))))
               (bson (AlertCreate.data alert_data)))].
Proof.
  intros Hok Hfresh out. subst out.
  rewrite (hrun_create_alert alert_data _ env st Hok).
  set (alert := Alert.mk _ _ _ _ _ _ _ false None _).
  set (st1 := mkStore _ _ _).
  change (uuids env (uuid_draws (core st))) with (Alert.id alert) in Hfresh.
  assert (Hmatch : matches [FieldIs "id" (Alert.id alert)]
                     (Alert.dict (stored_alert alert))
                   = true).
  { cbn [matches forallb holds dict_get Alert.dict String.eqb Ascii.eqb
         Bool.eqb value_eq_str stored_alert Alert.id].
    rewrite String.eqb_refl. reflexivity. }
  assert (Halerts : alerts (db (core st1))
                    = alerts (db (core st))
                        ++ [Alert.dict (stored_alert alert)]).
  { unfold st1. cbn [core]. simpl_state. reflexivity. }
  destruct (find_app_last _ _ _ Hfresh Hmatch) as [Hfind Hupd].
  rewrite <- Halerts in Hfind.
  rewrite (acknowledge_alert_run env st1 _ _ Hok Hfind).
  cbn [fst snd called with_documents with_collection core db alerts].
  split; [reflexivity|].
  rewrite Halerts, Hupd. unfold st1. cbn [core]. simpl_state.
  reflexivity.
Qed.

Lemma created_alert_is_acknowledged_witness :
  fst ((alert <~ lift (create_alert sample_alert_data) ;;
        acknowledge_alert (Alert.id alert)) odd_env
         (store_of [] [sample_alert] []))
  = Returned [("message", VStr "Alert acknowledged")].
Proof.
  exact (proj1 (created_alert_is_acknowledged odd_env
                  (store_of [] [sample_alert] []) sample_alert_data
                  (fun k => eq_refl) eq_refl)).
Defined.

(** ** Brands *)

Lemma optional_str_VOptStr o : Brand.optional_str (VOptStr o) = Some o.
Proof. destruct o; reflexivity. Qed.

(** A stored brand reads back as it was written. *)
Lemma brand_of_dict_dict (b : Brand.t) : Brand.of_dict (Brand.dict b) = Some b.
Proof.
  destruct b as [i n f g c a st]. unfold Brand.of_dict.
  cbn [dict_get Brand.dict String.eqb Ascii.eqb Bool.eqb
       Brand.id Brand.name Brand.facebook_page_id
       Brand.instagram_business_id Brand.created_at Brand.is_active
       Brand.settings].
  rewrite !optional_str_VOptStr. reflexivity.
Qed.

Lemma bson_VOptStr o : bson_value (VOptStr o) = VOptStr o.
Proof. destruct o; reflexivity. Qed.

Lemma bson_brand_dict (b : Brand.t) :
  bson (Brand.dict b) = Brand.dict (stored_brand b).
Proof.
  destruct b as [i n [f|] [g|] c a st]; reflexivity.
Qed.

Lemma brand_matches_id (b : Brand.t) :
  matches [FieldIs "id" (Brand.id b)] (Brand.dict b) = true.
Proof.
  cbn [matches forallb holds dict_get Brand.dict String.eqb Ascii.eqb
       Bool.eqb value_eq_str].
  rewrite String.eqb_refl. reflexivity.
Qed.

Lemma find_in_the_middle (p : Document -> bool) before doc after :
  Forall (fun d => p d = false) before -> p doc = true ->
  find p (before ++ doc :: after) = Some doc /\
  forall f,
    update_first p f (before ++ doc :: after) = before ++ f doc :: after.
Proof.
  intros Hb Hd. induction Hb as [|d rest Hd' _ IH];
    cbn [find update_first app].
  - rewrite Hd. split; reflexivity.
  - rewrite Hd'. destruct IH as [Hfind Hupd]. split; [exact Hfind|].
    intros f. rewrite Hupd. reflexivity.
Qed.

Lemma hrun_create_brand {B} (brand_data : BrandCreate.t)
    (k : Brand.t -> Handler B) env st :
  no_faults env ->
  let brand :=
    Brand.mk (uuids env (uuid_draws (core st)))
      (BrandCreate.name brand_data)
      (BrandCreate.value (BrandCreate.facebook_page_id brand_data))
      (BrandCreate.value (BrandCreate.instagram_business_id brand_data))
      (clock env (clock_reads (core st))) true [] in
  hbind (create_brand brand_data) k env st
  = k brand env
      (mkStore (clock_read (uuid_drawn (core st)))
         (brands st ++ [Brand.dict (stored_brand brand)])
         (calls st ++ [InsertBrand (Brand.dict brand)])).
Proof.
  intros Hok brand. unfold create_brand, insert_brand.
  hsteps. cbn [fst snd with_documents called core brands calls].
  rewrite bson_brand_dict. reflexivity.
Qed.

Lemma get_brand_run env st brand_id b :
  no_faults env ->
  find (matches [FieldIs "id" brand_id]) (brands st) = Some (Brand.dict b) ->
  get_brand brand_id env st
  = (Returned b, called (FindOne BRANDS [FieldIs "id" brand_id]) st).
Proof.
  intros Hok Hfind. unfold get_brand, find_one.
  rewrite hrun_driver_call by apply Hok.
  cbn [fst snd documents bson_query map bson_condition]. rewrite Hfind.
  unfold parse_brand. rewrite brand_of_dict_dict. reflexivity.
Qed.

(** X11: a brand reads back as it was created, but for the microseconds
    of its creation time. With the storage serving and an identifier no
    stored brand carries yet, [create_brand] returns the brand with the
    reading of the clock as [created_at], and [get_brand] on its
    identifier returns the same brand (the given name and page
    identifiers, absent ones as [None], active, with empty settings) with
    [created_at] cut to the millisecond, as it is stored: the two are
    equal only when the reading had whole milliseconds. *)
Theorem created_brand_reads_back
    (env : Env) (st : Store) (brand_data : BrandCreate.t) :
  no_faults env ->
  find (matches [FieldIs "id" (uuids env (uuid_draws (core st)))])
    (brands st) = None ->
  let now := clock env (clock_reads (core st)) in
  let brand created_at :=
    Brand.mk (uuids env (uuid_draws (core st)))
      (BrandCreate.name brand_data)
      (BrandCreate.value (BrandCreate.facebook_page_id brand_data))
      (BrandCreate.value (BrandCreate.instagram_business_id brand_data))
      created_at true [] in
  let out :=
    (created <~ create_brand brand_data ;;
     found <~ get_brand (Brand.id created) ;;
     hret (created, found)) env st in
  fst out = Returned (brand now, brand (bson_date now)) /\
  brands (snd out) = brands st ++ [Brand.dict (brand (bson_date now))] /\
  (brand now = brand (bson_date now) <-> now mod 1000 = 0).
Proof.
  intros Hok Hfresh now brand out. subst out.
  rewrite (hrun_create_brand brand_data _ env st Hok). fold now.
  change (Brand.mk (uuids env (uuid_draws (core st)))
            (BrandCreate.name brand_data)
            (BrandCreate.value (BrandCreate.facebook_page_id brand_data))
            (BrandCreate.value (BrandCreate.instagram_business_id brand_data))
            now true [])
    with (brand now).
  change (stored_brand (brand now)) with (brand (bson_date now)).
  change (uuids env (uuid_draws (core st)))
    with (Brand.id (brand (bson_date now))) in Hfresh.
  destruct (find_app_last _ _ _ Hfresh
              (brand_matches_id (brand (bson_date now))))
    as [Hfind _].
  set (st1 := mkStore _ _ _).
  unfold hbind.
  change (Brand.id (brand now)) with (Brand.id (brand (bson_date now))).
  rewrite (get_brand_run env st1 (Brand.id (brand (bson_date now)))
             (brand (bson_date now)) Hok Hfind).
  split; [reflexivity|]. split; [reflexivity|].
  unfold brand, bson_date. pose proof (Z.div_mod now 1000).
  split.
  - intros [= H1]. lia.
  - intros H1. f_equal. lia.
Qed.

(** Created half a millisecond past ten o'clock, stored and read back at
    ten o'clock. *)
Lemma created_brand_reads_back_witness :
  brands (snd ((created <~ create_brand rename_only ;;
                found <~ get_brand (Brand.id created) ;;
                hret (created, found)) odd_env
                 (store_of [] [] [Brand.dict sample_brand])))
  = [Brand.dict sample_brand;
     Brand.dict (Brand.mk "0000" "Acme Ltd" None None (hours 10) true [])].
Proof.
  exact (proj1 (proj2 (created_brand_reads_back odd_env
                         (store_of [] [] [Brand.dict sample_brand])
                         rename_only (fun k => eq_refl) eq_refl))).
Defined.

Lemma delete_brand_run env st brand_id doc :
  no_faults env ->
  find (matches [FieldIs "id" brand_id]) (brands st) = Some doc ->
  delete_brand brand_id env st
  = (Returned [("message", VStr "Brand deleted successfully")],
     mkStore (core st)
       (update_first (matches [FieldIs "id" brand_id])
          (apply_set [("is_active", VBool false)]) (brands st))
       ((calls st ++ [FindOne BRANDS [FieldIs "id" brand_id]])
          ++ [UpdateOne BRANDS [FieldIs "id" brand_id]
                [("is_active", VBool false)]])).
Proof.
  intros Hok Hfind. unfold delete_brand, find_one, update_one.
  rewrite hrun_driver_call by apply Hok.
  cbn [fst snd documents bson_query map bson_condition]. rewrite Hfind.
  rewrite hrun_driver_call by apply Hok.
  reflexivity.
Qed.

(** The same brand, no longer active. *)
Lemma deactivated_dict (b : Brand.t) :
  apply_set [("is_active", VBool false)] (Brand.dict b)
  = Brand.dict
      (Brand.mk (Brand.id b) (Brand.name b) (Brand.facebook_page_id b)
         (Brand.instagram_business_id b) (Brand.created_at b) false
         (Brand.settings b)).
Proof. reflexivity. Qed.

(** X12: [delete_brand] is a soft delete. With the storage serving, on a
    stored brand it only turns [is_active] to false in place: the document
    is no longer one that [get_brands] selects, but [get_brand] still
    returns the brand, inactive, and a second [delete_brand] succeeds again
    instead of answering 404. Comments, mentions, posts and alerts of the
    brand are not touched. *)
Theorem delete_brand_is_soft
    (env : Env) (st : Store) (brand_id : string) (b : Brand.t) :
  no_faults env ->
  find (matches [FieldIs "id" brand_id]) (brands st) = Some (Brand.dict b) ->
  let inactive :=
    Brand.mk (Brand.id b) (Brand.name b) (Brand.facebook_page_id b)
      (Brand.instagram_business_id b) (Brand.created_at b) false
      (Brand.settings b) in
  let out := delete_brand brand_id env st in
  fst out = Returned [("message", VStr "Brand deleted successfully")] /\
  (exists before after,
     brands st = before ++ Brand.dict b :: after /\
     brands (snd out) = before ++ Brand.dict inactive :: after) /\
  is_active_brand (Brand.dict inactive) = false /\
  fst (get_brand brand_id env (snd out)) = Returned inactive /\
  fst (delete_brand brand_id env (snd out))
  = Returned [("message", VStr "Brand deleted successfully")] /\
  db (core (snd out)) = db (core st).
Proof.
  intros Hok Hfind inactive out. subst out.
  rewrite (delete_brand_run env st brand_id _ Hok Hfind).
  cbn [fst snd core brands].
  destruct (find_update_first _ (apply_set [("is_active", VBool false)])
              _ _ Hfind)
    as (before & after & Hdocs & Hbefore & Hmatch & Hupd).
  rewrite deactivated_dict in Hupd. fold inactive in Hupd.
  assert (Hmatch' : matches [FieldIs "id" brand_id] (Brand.dict inactive)
                    = true) by exact Hmatch.
  destruct (find_in_the_middle _ before (Brand.dict inactive) after
              Hbefore Hmatch') as [Hfind' _].
  rewrite <- Hupd in Hfind'.
  set (st' := mkStore _ _ _).
  repeat split.
  - exists before, after. split; [exact Hdocs|exact Hupd].
  - rewrite (get_brand_run env st' brand_id inactive Hok Hfind').
    reflexivity.
  - rewrite (delete_brand_run env st' brand_id _ Hok Hfind').
    reflexivity.
Qed.

Lemma delete_brand_is_soft_witness :
  fst (get_brand "b1" quiet_env
         (snd (delete_brand "b1" quiet_env
                 (store_of [] [] [Brand.dict sample_brand]))))
  = Returned (Brand.mk "b1" "Acme" (Some "acme_fb") None (hours 9) false []).
Proof.
  destruct (delete_brand_is_soft quiet_env
              (store_of [] [] [Brand.dict sample_brand]) "b1" sample_brand
              (fun k => eq_refl) eq_refl)
    as (_ & _ & _ & Hget & _).
  exact Hget.
Defined.

(** ** Updating a brand *)

Lemma setattr_all_exclude_unset (brand_data : BrandCreate.t) (b : Brand.t) :
  setattr_all (BrandCreate.dict_exclude_unset brand_data) b
  = hret
      (Brand.mk (Brand.id b) (BrandCreate.name brand_data)
         (updated_field (BrandCreate.facebook_page_id brand_data)
            (Brand.facebook_page_id b))
         (updated_field (BrandCreate.instagram_business_id brand_data)
            (Brand.instagram_business_id b))
         (Brand.created_at b) (Brand.is_active b) (Brand.settings b)).
Proof.
  destruct brand_data as [n [|[f|]] [|[g|]]], b as [i n' f' g' c a st];
    reflexivity.
Qed.

(** A brand whose document is a BSON document stays one when fields
    without dates are changed. *)
Lemma bson_brand_dict_fixed (b : Brand.t) name facebook instagram :
  bson (Brand.dict b) = Brand.dict b ->
  bson (Brand.dict
          (Brand.mk (Brand.id b) name facebook instagram
             (Brand.created_at b) (Brand.is_active b) (Brand.settings b)))
  = Brand.dict
      (Brand.mk (Brand.id b) name facebook instagram
         (Brand.created_at b) (Brand.is_active b) (Brand.settings b)).
Proof.
  intros Hb. rewrite bson_brand_dict in *.
  pose proof (f_equal (dict_get "created_at") Hb) as Hc.
  pose proof (f_equal (dict_get "settings") Hb) as Hs.
  cbn [dict_get Brand.dict String.eqb Ascii.eqb Bool.eqb stored_brand
       Brand.created_at Brand.settings] in Hc, Hs.
  injection Hc as Hc. injection Hs as Hs.
  unfold stored_brand.
  cbn [Brand.id Brand.name Brand.facebook_page_id
       Brand.instagram_business_id Brand.created_at Brand.is_active
       Brand.settings].
  rewrite Hc, Hs. reflexivity.
Qed.

(** X13: [update_brand] is a partial update. With the storage serving, on
    a stored brand it replaces the name, and each page identifier that the
    request gives (a given null clears it); a page identifier the request
    leaves out keeps its stored value, and the identifier, creation time,
    [is_active] and settings are never changed, so an inactive brand stays
    inactive. The brand returned is the brand stored, in the place of the
    old document: the storage keeps its BSON document, which is the
    document of the brand when the old one was a BSON document, as those
    written by these routes are. *)
Theorem update_brand_is_partial
    (env : Env) (st : Store) (brand_id : string)
    (brand_data : BrandCreate.t) (b : Brand.t) :
  no_faults env ->
  find (matches [FieldIs "id" brand_id]) (brands st) = Some (Brand.dict b) ->
  let updated :=
    Brand.mk (Brand.id b) (BrandCreate.name brand_data)
      (updated_field (BrandCreate.facebook_page_id brand_data)
         (Brand.facebook_page_id b))
      (updated_field (BrandCreate.instagram_business_id brand_data)
         (Brand.instagram_business_id b))
      (Brand.created_at b) (Brand.is_active b) (Brand.settings b) in
  let out := update_brand brand_id brand_data env st in
  fst out = Returned updated /\
  (exists before after,
     brands st = before ++ Brand.dict b :: after /\
     brands (snd out) = before ++ bson (Brand.dict updated) :: after) /\
  (bson (Brand.dict b) = Brand.dict b ->
   bson (Brand.dict updated) = Brand.dict updated) /\
  db (core (snd out)) = db (core st).
Proof.
  intros Hok Hfind updated out. subst out.
  unfold update_brand, find_one, replace_one.
  rewrite hrun_driver_call by apply Hok.
  cbn [fst snd documents bson_query map bson_condition]. rewrite Hfind.
  unfold parse_brand. rewrite brand_of_dict_dict, hrun_ret.
  rewrite setattr_all_exclude_unset, hrun_ret. fold updated.
  rewrite hrun_driver_call by apply Hok.
  cbn [fst snd hret called with_documents documents core brands].
  destruct (find_update_first _ (fun _ => bson (Brand.dict updated))
              _ _ Hfind)
    as (before & after & Hdocs & _ & _ & Hupd).
  split; [reflexivity|]. split; [|split; [|reflexivity]].
  - exists before, after. split; assumption.
  - apply bson_brand_dict_fixed.
Qed.

Lemma update_brand_is_partial_witness :
  fst (update_brand "b1" rename_only quiet_env
         (store_of [] [] [Brand.dict sample_brand]))
  = Returned
      (Brand.mk "b1" "Acme Ltd" (Some "acme_fb") None (hours 9) true []).
Proof.
  exact (proj1 (update_brand_is_partial quiet_env
                  (store_of [] [] [Brand.dict sample_brand]) "b1"
                  rename_only sample_brand (fun k => eq_refl) eq_refl)).
Defined.

(** ** Listing the brands *)

Lemma is_active_brand_dict (b : Brand.t) :
  is_active_brand (Brand.dict b) = Brand.is_active b.
Proof. destruct b as [i n f g c [] st]; reflexivity. Qed.

Lemma filter_active_dicts (bs : list Brand.t) :
  filter is_active_brand (map Brand.dict bs)
  = map Brand.dict (filter Brand.is_active bs).
Proof.
  induction bs as [|b rest IH]; [reflexivity|].
  cbn [map filter]. rewrite is_active_brand_dict, IH.
  destruct (Brand.is_active b); reflexivity.
Qed.

Lemma parse_brands_dicts (bs : list Brand.t) env st :
  parse_brands (map Brand.dict bs) env st = (Returned bs, st).
Proof.
  induction bs as [|b rest IH]; [reflexivity|].
  cbn [map parse_brands]. unfold parse_brand at 1.
  rewrite brand_of_dict_dict, hrun_ret.
  unfold hbind. rewrite IH. reflexivity.
Qed.

(** X14: [get_brands] lists the active brands only, a thousand at most.
    When the storage serves and [db.brands] holds the documents of the
    brands [bs], it returns the first 1000 of those of [bs] that are
    active, in storage order, and writes nothing. *)
Theorem get_brands_lists_active
    (env : Env) (st : Store) (bs : list Brand.t) :
  storage_fault env (total_sent st) = false ->
  brands st = map Brand.dict bs ->
  get_brands env st
  = (Returned (firstn 1000 (filter Brand.is_active bs)),
     called (FindActiveBrands 1000) st).
Proof.
  intros Hserved Hbrands. unfold get_brands, find_active_brands.
  rewrite hrun_driver_call by exact Hserved.
  cbn [fst snd]. rewrite Hbrands, filter_active_dicts, firstn_map.
  apply parse_brands_dicts.
Qed.

Lemma get_brands_lists_active_witness :
  get_brands quiet_env
    (store_of [] []
       [Brand.dict sample_brand;
        Brand.dict (Brand.mk "b2" "Gone" None None (hours 9) false [])])
  = (Returned [sample_brand],
     called (FindActiveBrands 1000)
       (store_of [] []
          [Brand.dict sample_brand;
           Brand.dict (Brand.mk "b2" "Gone" None None (hours 9) false [])])).
Proof.
  exact (get_brands_lists_active quiet_env
           (store_of [] []
              [Brand.dict sample_brand;
               Brand.dict (Brand.mk "b2" "Gone" None None (hours 9) false [])])
           [sample_brand; Brand.mk "b2" "Gone" None None (hours 9) false []]
           eq_refl eq_refl).
Defined.

(** ** Responding does not disturb the detectors *)

Lemma same_but_response_refl doc : same_but_response doc doc.
Proof. intros key _ _. reflexivity. Qed.

Lemma same_but_response_set doc n :
  same_but_response doc
    (apply_set [("has_response", VBool true); ("response_time", VInt n)] doc).
Proof.
  intros key H1 H2. rewrite apply_set_two.
  rewrite !dict_get_set_other by assumption. reflexivity.
Qed.

Lemma Forall2_update_first (R : Document -> Document -> Prop) p f docs :
  (forall d, R d d) -> (forall d, R d (f d)) ->
  Forall2 R docs (update_first p f docs).
Proof.
  intros Hrefl Hf. induction docs as [|d rest IH]; cbn [update_first].
  - constructor.
  - destruct (p d).
    + constructor; [apply Hf|]. clear IH.
      induction rest; constructor; [apply Hrefl|assumption].
    + constructor; [apply Hrefl|exact IH].
Qed.

Lemma Forall2_refl_list (R : Document -> Document -> Prop) docs :
  (forall d, R d d) -> Forall2 R docs docs.
Proof. intros Hrefl. induction docs; constructor; auto. Qed.

Lemma Forall2_filter (R : Document -> Document -> Prop) (p : Document -> bool)
    l l' :
  (forall d d', R d d' -> p d' = p d) ->
  Forall2 R l l' -> Forall2 R (filter p l) (filter p l').
Proof.
  intros Hp HR. induction HR as [|d d' l l' Hd _ IH]; cbn [filter].
  - constructor.
  - rewrite (Hp d d' Hd). destruct (p d); [constructor; assumption|exact IH].
Qed.

Lemma Forall2_firstn (R : Document -> Document -> Prop) n : forall l l',
  Forall2 R l l' -> Forall2 R (firstn n l) (firstn n l').
Proof.
  induction n as [|n IH]; intros l l' HR; [constructor|].
  destruct HR; cbn [firstn]; constructor; auto.
Qed.

Lemma Forall2_len (R : Document -> Document -> Prop) l l' :
  Forall2 R l l' -> len l' = len l.
Proof.
  intros HR. unfold len. induction HR; cbn [List.length]; lia.
Qed.

Lemma same_but_response_matches q doc doc' :
  Forall (fun c =>
            match c with
            | FieldIs key _ | FieldGte key _ | FieldGteLt key _ _ =>
                key <> "has_response" /\ key <> "response_time"
            end) q ->
  same_but_response doc doc' -> matches q doc' = matches q doc.
Proof.
  intros Hq Hsame. unfold matches.
  induction Hq as [|c q Hc _ IH]; [reflexivity|].
  cbn [forallb]. rewrite IH. f_equal.
  destruct c as [key s|key t|key lo hi]; destruct Hc as [H1 H2];
    cbn [holds]; rewrite (Hsame key H1 H2); reflexivity.
Qed.

Lemma same_but_response_negative doc doc' :
  same_but_response doc doc' -> is_negative doc' = is_negative doc.
Proof.
  intros Hsame. unfold is_negative.
  rewrite (Hsame "sentiment_type"); [reflexivity|discriminate|discriminate].
Qed.

(** Whatever happens, [mark_comment_responded] leaves the comments as they
    were, up to the two fields it sets. *)
Lemma mark_comment_responded_comments env st comment_id :
  Forall2 same_but_response (comments (db (core st)))
    (comments (db (core (snd (mark_comment_responded comment_id env st))))).
Proof.
  pose proof (Forall2_refl_list same_but_response
                (comments (db (core st))) same_but_response_refl) as Hsame.
  unfold mark_comment_responded, find_one, update_one.
  destruct (storage_fault env (total_sent st)) eqn:Hfind.
  { rewrite hrun_driver_fault by exact Hfind. exact Hsame. }
  rewrite hrun_driver_call by exact Hfind. cbn [fst snd].
  destruct (find _ _) as [doc|]; [|exact Hsame].
  rewrite hrun_utcnow. unfold getitem.
  destruct (dict_get "created_at" doc) as [v|]; [|exact Hsame].
  rewrite hrun_ret. unfold datetime_sub.
  destruct v; try exact Hsame.
  rewrite hrun_ret. unfold int_of_float.
  destruct (truncate _) as [n|e]; [|exact Hsame].
  rewrite hrun_ret.
  match goal with
  | |- context [hbind (driver_call ?c ?serve) ?k ?e ?s] =>
      destruct (storage_fault e (total_sent s)) eqn:Hupd;
      [ rewrite (hrun_driver_fault c serve k e s Hupd)
      | rewrite (hrun_driver_call c serve k e s Hupd) ]
  end; [exact Hsame|].
  cbn [fst snd hret called with_documents with_collection documents
       collection core db comments clock_read called].
  apply Forall2_update_first;
    [apply same_but_response_refl|intros d; apply same_but_response_set].
Qed.

(** X15: responding to a comment never changes what the detectors
    measure. Whatever [mark_comment_responded] does, for every brand and
    every time the scanned window of the sentiment detector keeps its size
    and its number of negative comments, and the two counts of the volume
    detector are unchanged. *)
Theorem responding_keeps_detector_inputs
    (env : Env) (st : Store) (comment_id : string)
    (brand_id : string) (now one_hour_ago two_hours_ago : Z) :
  let d := db (core st) in
  let d' := db (core (snd (mark_comment_responded comment_id env st))) in
  len (scanned_window brand_id now d') = len (scanned_window brand_id now d) /\
  len (filter is_negative (scanned_window brand_id now d'))
  = len (filter is_negative (scanned_window brand_id now d)) /\
  current_hour_count brand_id one_hour_ago d'
  = current_hour_count brand_id one_hour_ago d /\
  previous_hour_count brand_id two_hours_ago one_hour_ago d'
  = previous_hour_count brand_id two_hours_ago one_hour_ago d.
Proof.
  cbv zeta.
  pose proof (mark_comment_responded_comments env st comment_id) as Hsame.
  assert (Hwin : forall q,
    Forall (fun c =>
              match c with
              | FieldIs key _ | FieldGte key _ | FieldGteLt key _ _ =>
                  key <> "has_response" /\ key <> "response_time"
              end) q ->
    Forall2 same_but_response
      (filter (matches q) (comments (db (core st))))
      (filter (matches q)
         (comments
            (db (core (snd (mark_comment_responded comment_id env st))))))).
  { intros q Hq. apply Forall2_filter; [|exact Hsame].
    intros d d'. apply same_but_response_matches. exact Hq. }
  repeat split.
  - unfold scanned_window. apply (Forall2_len same_but_response).
    apply Forall2_firstn, Hwin.
    repeat (constructor; [split; discriminate|]). constructor.
  - unfold scanned_window. apply (Forall2_len same_but_response).
    apply Forall2_filter;
      [intros d d'; apply same_but_response_negative|].
    apply Forall2_firstn, Hwin.
    repeat (constructor; [split; discriminate|]). constructor.
  - unfold current_hour_count. apply (Forall2_len same_but_response).
    apply Hwin.
    repeat (constructor; [split; discriminate|]). constructor.
  - unfold previous_hour_count. apply (Forall2_len same_but_response).
    apply Hwin.
    repeat (constructor; [split; discriminate|]). constructor.
Qed.

(** ** The shape of the stored documents *)

Lemma well_formed_split st :
  well_formed st <->
  shaped_database (db (core st)) /\ Forall (shaped BRANDS) (brands st).
Proof.
  split.
  - intros Hwf. split; [intros c; exact (Hwf (IN c))|exact (Hwf BRANDS)].
  - intros [Hdb Hb] [c|]; [exact (Hdb c)|exact Hb].
Qed.

Lemma well_formed_same st st' :
  same_documents st st' -> well_formed st -> well_formed st'.
Proof.
  intros [Hdb Hb] Hwf. apply well_formed_split.
  apply well_formed_split in Hwf. rewrite Hdb, Hb. exact Hwf.
Qed.

Lemma keeps_well_formed_read_only {A} (m : Handler A) :
  read_only m -> keeps_well_formed m.
Proof. intros Hm env st. apply well_formed_same, Hm. Qed.

Lemma keeps_well_formed_hbind {A B} (m : Handler A) (k : A -> Handler B) :
  keeps_well_formed m -> (forall a, keeps_well_formed (k a)) ->
  keeps_well_formed (hbind m k).
Proof.
  intros Hm Hk env st Hwf. unfold hbind. specialize (Hm env st Hwf).
  destruct (m env st) as [[a|f] st1]; cbn [snd] in *; [|exact Hm].
  exact (Hk a env st1 Hm).
Qed.

Lemma well_formed_called call st :
  well_formed st -> well_formed (called call st).
Proof. intros Hwf t. destruct t; exact (Hwf _). Qed.

Lemma shaped_database_with_collection c docs d :
  shaped_database d -> Forall (shaped (IN c)) docs ->
  shaped_database (with_collection c docs d).
Proof.
  intros Hd Hdocs c'. destruct c, c'; cbn [with_collection collection
    comments mentions posts alerts];
    first [exact Hdocs|exact (Hd COMMENTS)|exact (Hd MENTIONS)
          |exact (Hd POSTS)|exact (Hd ALERTS)].
Qed.

Lemma well_formed_with_documents t docs st :
  well_formed st -> Forall (shaped t) docs ->
  well_formed (with_documents t docs st).
Proof.
  intros Hwf Hdocs. apply well_formed_split in Hwf. destruct Hwf as [Hdb Hb].
  apply well_formed_split. destruct t as [c|];
    cbn [with_documents core db brands]; split; try assumption.
  apply shaped_database_with_collection; assumption.
Qed.

Lemma keeps_well_formed_write call t (change : list Document -> list Document) :
  (forall docs, Forall (shaped t) docs -> Forall (shaped t) (change docs)) ->
  keeps_well_formed
    (driver_call call
       (fun st => (tt, with_documents t (change (documents t st)) st))).
Proof.
  intros Hchange env st Hwf. unfold driver_call.
  destruct (storage_fault env (total_sent st)); cbn [fst snd];
    apply well_formed_called; [exact Hwf|].
  apply well_formed_with_documents; [exact Hwf|].
  apply Hchange. exact (Hwf t).
Qed.

Lemma Forall_update_first (P : Document -> Prop) p f docs :
  (forall d, P d -> P (f d)) ->
  Forall P docs -> Forall P (update_first p f docs).
Proof.
  intros Hf Hdocs. induction Hdocs as [|d rest Hd Hrest IH];
    cbn [update_first].
  - constructor.
  - destruct (p d); constructor; auto.
Qed.

Lemma shaped_responded n doc :
  shaped (IN COMMENTS) doc ->
  shaped (IN COMMENTS)
    (apply_set [("has_response", VBool true); ("response_time", VInt n)] doc).
Proof.
  intros [c ->].
  exists (Comment.mk (Comment.id c) (Comment.brand_id c) (Comment.platform c)
            (Comment.platform_id c) (Comment.content c)
            (Comment.author_name c) (Comment.author_id c) (Comment.post_id c)
            (Comment.created_at c) (Comment.sentiment_score c)
            (Comment.sentiment_type c) (Comment.needs_response c)
            true (Some n) (Comment.priority c)).
  reflexivity.
Qed.

Lemma shaped_acknowledged now doc :
  shaped (IN ALERTS) doc ->
  shaped (IN ALERTS)
    (apply_set [("is_acknowledged", VBool true);
                ("acknowledged_at", VDate now)] doc).
Proof.
  intros [a ->].
  exists (Alert.mk (Alert.id a) (Alert.brand_id a) (Alert.alert_type a)
            (Alert.severity a) (Alert.title a) (Alert.description a)
            (Alert.created_at a) true (Some now) (Alert.data a)).
  reflexivity.
Qed.

Lemma shaped_deactivated doc :
  shaped BRANDS doc ->
  shaped BRANDS (apply_set [("is_active", VBool false)] doc).
Proof. intros [b ->]. rewrite deactivated_dict. eexists. reflexivity. Qed.

Ltac keeps_well_formed_steps :=
  repeat first
    [ apply keeps_well_formed_hbind; [|intros ?]
    | apply keeps_well_formed_read_only; read_steps
    | match goal with
      | |- keeps_well_formed (match ?x with _ => _ end) => destruct x
      end ].

Lemma keeps_well_formed_create_brand brand_data :
  keeps_well_formed (create_brand brand_data).
Proof.
  unfold create_brand, insert_brand. keeps_well_formed_steps.
  apply (keeps_well_formed_write _ BRANDS (fun docs => docs ++ [_])).
  intros docs Hdocs. apply Forall_app. split; [exact Hdocs|].
  constructor; [|constructor].
  rewrite bson_brand_dict. eexists. reflexivity.
Qed.

Lemma keeps_well_formed_update_brand brand_id brand_data :
  keeps_well_formed (update_brand brand_id brand_data).
Proof.
  unfold update_brand, find_one, replace_one. keeps_well_formed_steps.
  apply (keeps_well_formed_write _ BRANDS (update_first _ (fun _ => _))).
  intros docs. apply Forall_update_first. intros _ _.
  rewrite bson_brand_dict. eexists. reflexivity.
Qed.

Lemma keeps_well_formed_delete_brand brand_id :
  keeps_well_formed (delete_brand brand_id).
Proof.
  unfold delete_brand, find_one, update_one. keeps_well_formed_steps.
  apply (keeps_well_formed_write _ BRANDS (update_first _ _)).
  intros docs. apply Forall_update_first. apply shaped_deactivated.
Qed.

Lemma keeps_well_formed_mark_comment_responded comment_id :
  keeps_well_formed (mark_comment_responded comment_id).
Proof.
  unfold mark_comment_responded, find_one, update_one.
  keeps_well_formed_steps.
  apply (keeps_well_formed_write _ (IN COMMENTS) (update_first _ _)).
  intros docs. apply Forall_update_first. apply shaped_responded.
Qed.

Lemma keeps_well_formed_acknowledge_alert alert_id :
  keeps_well_formed (acknowledge_alert alert_id).
Proof.
  unfold acknowledge_alert, find_one, update_one. keeps_well_formed_steps.
  apply (keeps_well_formed_write _ (IN ALERTS) (update_first _ _)).
  intros docs. apply Forall_update_first. apply shaped_acknowledged.
Qed.

Lemma well_formed_sample_store :
  well_formed (store_of [] [sample_alert] [Brand.dict sample_brand]).
Proof.
  intros [[]|]; cbn [documents collection store_of core db brands
                     comments mentions posts alerts];
    repeat constructor.
  - eexists. reflexivity.
  - exists sample_brand. reflexivity.
Qed.

Lemma keeps_shaped_ret {A} (a : A) : keeps_shaped_database (ret a).
Proof. intros env s Hd. exact Hd. Qed.

Lemma keeps_shaped_bind {A B} (m : M A) (k : A -> M B) :
  keeps_shaped_database m -> (forall a, keeps_shaped_database (k a)) ->
  keeps_shaped_database (bind m k).
Proof.
  intros Hm Hk env s Hd. unfold bind. specialize (Hm env s Hd).
  destruct (m env s) as [[a|e] s1]; cbn [snd] in *; [|exact Hm].
  exact (Hk a env s1 Hm).
Qed.

Lemma keeps_shaped_utcnow : keeps_shaped_database utcnow.
Proof. intros env s Hd. exact Hd. Qed.

Lemma keeps_shaped_uuid4 : keeps_shaped_database uuid4.
Proof. intros env s Hd. exact Hd. Qed.

Lemma keeps_shaped_query {A} rq (serve : Database -> A * Database) :
  (forall d, snd (serve d) = d) ->
  keeps_shaped_database (storage_call rq serve).
Proof.
  intros Hro env s Hd. unfold storage_call.
  destruct (storage_fault env (sent s)); cbn [snd];
    rewrite db_request_sent, ?Hro; exact Hd.
Qed.

Lemma keeps_shaped_insert_one c doc :
  shaped (IN c) (bson doc) -> keeps_shaped_database (insert_one c doc).
Proof.
  intros Hdoc env s Hd. unfold insert_one, storage_call.
  destruct (storage_fault env (sent s)); cbn [snd fst];
    rewrite db_request_sent; [exact Hd|].
  intros c'. pose proof (Hd c') as Hc'.
  destruct c, c'; cbn [append_document collection comments mentions posts
                       alerts] in *;
    try exact Hc';
    (apply Forall_app; split;
       [exact Hc'|constructor; [exact Hdoc|constructor]]).
Qed.

Ltac keeps_shaped_steps :=
  repeat first
    [ apply keeps_shaped_bind; [|intros ?]
    | apply keeps_shaped_ret | apply keeps_shaped_utcnow
    | apply keeps_shaped_uuid4
    | apply keeps_shaped_query; reflexivity
    | apply keeps_shaped_insert_one;
      rewrite ?bson_comment_dict, ?bson_mention_dict, ?bson_post_dict,
        ?bson_alert_dict;
      eexists; reflexivity
    | match goal with
      | |- keeps_shaped_database (match ?x with _ => _ end) => destruct x
      end ].

Lemma keeps_shaped_create_alert a : keeps_shaped_database (create_alert a).
Proof. unfold create_alert. keeps_shaped_steps. Qed.

Lemma keeps_shaped_create_comment pc fp comment_data :
  keeps_shaped_database (create_comment pc fp comment_data).
Proof.
  unfold create_comment, analyze_sentiment, check_sentiment_alerts,
    check_volume_alerts, find_to_list, count_documents.
  keeps_shaped_steps; apply keeps_shaped_create_alert.
Qed.

Lemma keeps_shaped_create_mention pc mention_data :
  keeps_shaped_database (create_mention pc mention_data).
Proof. unfold create_mention, analyze_sentiment. keeps_shaped_steps. Qed.

Lemma keeps_shaped_create_post pc post_data :
  keeps_shaped_database (create_post pc post_data).
Proof. unfold create_post, analyze_sentiment. keeps_shaped_steps. Qed.

Lemma keeps_well_formed_lift {A} (m : M A) :
  keeps_shaped_database m -> keeps_well_formed (lift m).
Proof.
  intros Hm env st Hwf. apply well_formed_split in Hwf.
  destruct Hwf as [Hdb Hb]. apply well_formed_split.
  unfold lift. cbn [snd core brands]. split; [|exact Hb].
  apply Hm. exact Hdb.
Qed.

(** X16: the routes keep the stored documents in the shape of their
    models. Whatever the storage does, if every stored comment, mention,
    post, alert and brand is the document of a [Comment], [Mention],
    [Post], [Alert] or [Brand], it is still so after any of the routes:
    the three ingestions, the brand routes, [mark_comment_responded] and
    [acknowledge_alert]. *)
Theorem routes_keep_documents_shaped
    (polarity_compound : string -> float) (format_percent : float -> string)
    (comment_data : CommentCreate.t) (mention_data : MentionCreate.t)
    (post_data : PostCreate.t) (brand_data : BrandCreate.t) (id : string) :
  keeps_well_formed
    (lift (create_comment polarity_compound format_percent comment_data)) /\
  keeps_well_formed (lift (create_mention polarity_compound mention_data)) /\
  keeps_well_formed (lift (create_post polarity_compound post_data)) /\
  keeps_well_formed (create_brand brand_data) /\
  keeps_well_formed get_brands /\
  keeps_well_formed (get_brand id) /\
  keeps_well_formed (update_brand id brand_data) /\
  keeps_well_formed (delete_brand id) /\
  keeps_well_formed (mark_comment_responded id) /\
  keeps_well_formed (acknowledge_alert id).
Proof.
  repeat split.
  - apply keeps_well_formed_lift, keeps_shaped_create_comment.
  - apply keeps_well_formed_lift, keeps_shaped_create_mention.
  - apply keeps_well_formed_lift, keeps_shaped_create_post.
  - apply keeps_well_formed_create_brand.
  - unfold get_brands, find_active_brands. keeps_well_formed_steps.
  - unfold get_brand, find_one. keeps_well_formed_steps.
  - apply keeps_well_formed_update_brand.
  - apply keeps_well_formed_delete_brand.
  - apply keeps_well_formed_mark_comment_responded.
  - apply keeps_well_formed_acknowledge_alert.
Qed.

Lemma routes_keep_documents_shaped_witness :
  well_formed
    (snd (delete_brand "b1" quiet_env
            (store_of [] [sample_alert] [Brand.dict sample_brand]))).
Proof.
  destruct (routes_keep_documents_shaped polarity_stub percent_stub
              awful_comment awful_mention awful_post rename_only "b1")
    as (_ & _ & _ & _ & _ & _ & _ & Hdelete & _).
  exact (Hdelete quiet_env _ well_formed_sample_store).
Defined.

(** ** No internal failure on a shaped store *)

Lemma shaped_brands_are_dicts docs :
  Forall (shaped BRANDS) docs -> exists bs, docs = map Brand.dict bs.
Proof.
  intros Hdocs. induction Hdocs as [|doc rest [b ->] _ [bs ->]].
  - exists []. reflexivity.
  - exists (b :: bs). reflexivity.
Qed.

Lemma Forall_filter_keeps (P : Document -> Prop) (p : Document -> bool) docs :
  Forall P docs -> Forall P (filter p docs).
Proof.
  intros Hdocs. induction Hdocs as [|d rest Hd _ IH]; cbn [filter];
    [constructor|].
  destruct (p d); [constructor; assumption|exact IH].
Qed.

Lemma Forall_firstn_keeps (P : Document -> Prop) n : forall docs,
  Forall P docs -> Forall P (firstn n docs).
Proof.
  induction n as [|n IH]; intros docs Hdocs; [constructor|].
  destruct Hdocs; cbn [firstn]; constructor; auto.
Qed.

Lemma found_is_shaped t q st doc :
  well_formed st -> find (matches q) (documents t st) = Some doc ->
  shaped t doc.
Proof.
  intros Hwf Hfind. apply find_some in Hfind. destruct Hfind as [Hin _].
  exact (proj1 (Forall_forall _ _) (Hwf t) doc Hin).
Qed.

Lemma expected_404 detail : expected_failure (HTTPException 404 detail).
Proof. left. exists detail. reflexivity. Qed.

Lemma expected_unavailable : expected_failure (Unhandled StorageUnavailable).
Proof. right. reflexivity. Qed.

Ltac driver_cases H :=
  match goal with
  | |- context [hbind (driver_call ?c ?serve) ?k ?e ?s] =>
      destruct (storage_fault e (total_sent s)) eqn:H;
      [ rewrite (hrun_driver_fault c serve k e s H)
      | rewrite (hrun_driver_call c serve k e s H) ]
  end.


(** X17: on a store whose documents have the shape of their models, the
    routes that read stored documents fail only for a reason of the
    request or of the storage: a 404 for an unknown identifier, or a
    storage failure. No stored brand fails to build a [Brand], and
    [mark_comment_responded] never misses [created_at], never finds it of
    another type, and never fails in [int]: the quotient is always a
    number. *)
Theorem shaped_store_fails_as_expected
    (env : Env) (st : Store) (id : string) (brand_data : BrandCreate.t) :
  well_formed st ->
  (forall f, fst (get_brands env st) = Failed f -> expected_failure f) /\
  (forall f, fst (get_brand id env st) = Failed f -> expected_failure f) /\
  (forall f, fst (update_brand id brand_data env st) = Failed f ->
             expected_failure f) /\
  (forall f, fst (delete_brand id env st) = Failed f ->
             expected_failure f) /\
  (forall f, fst (acknowledge_alert id env st) = Failed f ->
             expected_failure f) /\
  (forall f, fst (mark_comment_responded id env st) = Failed f ->
             expected_failure f).
Proof.
  intros Hwf. repeat split; intros f.
  - unfold get_brands, find_active_brands. driver_cases Hfault.
    { intros [= <-]. apply expected_unavailable. }
    cbn [fst snd].
    destruct (shaped_brands_are_dicts
                (firstn 1000 (filter is_active_brand (brands st))))
      as [bs ->].
    { apply Forall_firstn_keeps, Forall_filter_keeps. exact (Hwf BRANDS). }
    rewrite parse_brands_dicts. discriminate.
  - unfold get_brand, find_one. driver_cases Hfault.
    { intros [= <-]. apply expected_unavailable. }
    cbn [fst snd].
    destruct (find _ _) as [doc|] eqn:Hfind.
    + destruct (found_is_shaped BRANDS _ st doc Hwf Hfind) as [b ->].
      unfold parse_brand. rewrite brand_of_dict_dict. discriminate.
    + cbn [fst raise]. intros [= <-]. apply expected_404.
  - unfold update_brand, find_one, replace_one. driver_cases Hfault.
    { intros [= <-]. apply expected_unavailable. }
    cbn [fst snd].
    destruct (find _ _) as [doc|] eqn:Hfind.
    + destruct (found_is_shaped BRANDS _ st doc Hwf Hfind) as [b ->].
      unfold parse_brand. rewrite brand_of_dict_dict, hrun_ret.
      rewrite setattr_all_exclude_unset, hrun_ret.
      driver_cases Hwrite; cbn [fst hret];
        [intros [= <-]; apply expected_unavailable|discriminate].
    + cbn [fst raise]. intros [= <-]. apply expected_404.
  - unfold delete_brand, find_one, update_one. driver_cases Hfault.
    { intros [= <-]. apply expected_unavailable. }
    cbn [fst snd].
    destruct (find _ _) as [doc|] eqn:Hfind.
    + driver_cases Hwrite; cbn [fst hret];
        [intros [= <-]; apply expected_unavailable|discriminate].
    + cbn [fst raise]. intros [= <-]. apply expected_404.
  - unfold acknowledge_alert, find_one, update_one. driver_cases Hfault.
    { intros [= <-]. apply expected_unavailable. }
    cbn [fst snd].
    destruct (find _ _) as [doc|] eqn:Hfind.
    + rewrite hrun_utcnow.
      driver_cases Hwrite; cbn [fst hret];
        [intros [= <-]; apply expected_unavailable|discriminate].
    + cbn [fst raise]. intros [= <-]. apply expected_404.
  - unfold mark_comment_responded, find_one, update_one.
    driver_cases Hfault.
    { intros [= <-]. apply expected_unavailable. }
    cbn [fst snd].
    destruct (find _ _) as [doc|] eqn:Hfind.
    + destruct (found_is_shaped (IN COMMENTS) _ st doc Hwf Hfind) as [c ->].
      rewrite hrun_utcnow. unfold getitem.
      cbn [dict_get Comment.dict String.eqb Ascii.eqb Bool.eqb].
      rewrite hrun_ret. cbn [datetime_sub]. rewrite hrun_ret.
      unfold int_of_float.
      match goal with
      | |- context [truncate (total_seconds ?td / 60)%float] =>
          destruct (int_of_minutes td) as [n ->]
      end.
      rewrite hrun_ret.
      driver_cases Hwrite; cbn [fst hret];
        [intros [= <-]; apply expected_unavailable|discriminate].
    + cbn [fst raise]. intros [= <-]. apply expected_404.
Qed.

Lemma shaped_store_fails_as_expected_witness :
  expected_failure (HTTPException 404 "Brand not found").
Proof.
  exact (proj1 (proj2 (shaped_store_fails_as_expected quiet_env
                         (store_of [] [sample_alert]
                            [Brand.dict sample_brand])
                         "nope" rename_only well_formed_sample_store))
           (HTTPException 404 "Brand not found") eq_refl).
Defined.

(** * Sample data *)

(** With the storage serving, [create_comment] returns the comment it
    stored. *)
Lemma create_comment_served pc fp cd env s :
  no_faults env ->
  exists c s',
    create_comment pc fp cd env s = (Ok c, s') /\
    Comment.brand_id c = CommentCreate.brand_id cd /\
    Comment.content c = CommentCreate.content cd /\
    Comment.has_response c = false /\
    comments (db s')
    = comments (db s) ++ [Comment.dict (stored_comment c)] /\
    mentions (db s') = mentions (db s) /\
    posts (db s') = posts (db s).
Proof.
  intros Hok.
  assert (Hrun : exists c,
    Comment.brand_id c = CommentCreate.brand_id cd /\
    Comment.content c = CommentCreate.content cd /\
    Comment.has_response c = false /\
    create_comment pc fp cd env s
    = (check_sentiment_alerts fp (CommentCreate.brand_id cd) ;;;
       check_volume_alerts fp (CommentCreate.brand_id cd) ;;;
       ret c) env
        (request_sent (InsertOne COMMENTS (Comment.dict c))
           (append_document COMMENTS (Comment.dict (stored_comment c))
              (db s))
           (clock_read (uuid_drawn s)))).
  { unfold create_comment, analyze_sentiment, insert_one.
    eexists. repeat split.
    4: { local_steps. rewrite run_storage_call by apply Hok.
         rewrite bson_comment_dict. reflexivity. }
    all: reflexivity. }
  destruct Hrun as (c & Hb & Hcont & Hresp & Hrun).
  exists c. rewrite Hrun. clear Hrun.
  set (b := CommentCreate.brand_id cd).
  set (s1 := request_sent _ _ _).
  set (rest := check_sentiment_alerts fp b ;;;
               check_volume_alerts fp b ;;; ret c).
  exists (snd (rest env s1)).
  assert (Hdisc : disciplined rest).
  { unfold rest. apply disciplined_bind;
      [apply disciplined_check_sentiment_alerts|intros _].
    apply disciplined_bind;
      [apply disciplined_check_volume_alerts|intros _].
    apply disciplined_ret. }
  destruct (Hdisc env s1) as [_ Hout].
  assert (Hval : forall c', fst (rest env s1) = Ok c' -> c' = c).
  { intros c' Hc'. unfold rest in Hc'.
    rewrite <- run_bind in Hc'. exact (then_ret_value _ _ _ _ _ Hc'). }
  destruct (alert_path_detectors fp b c env s1) as (Hc & Hm & Hp & _ & _).
  fold rest in Hc, Hm, Hp.
  split.
  { inversion Hout as [a Hff Ha|Hlt Hff Hf Hr].
    - rewrite (surjective_pairing (rest env s1)). rewrite <- Ha.
      rewrite (Hval a) by (symmetry; exact Ha). reflexivity.
    - rewrite Hok in Hf. discriminate. }
  rewrite Hc, Hm, Hp. unfold s1. simpl_state.
  repeat split; assumption || reflexivity.
Qed.

Lemma lift_create_comment_served pc fp cd env st :
  no_faults env ->
  exists c st',
    lift (create_comment pc fp cd) env st = (Returned c, st') /\
    Comment.brand_id c = CommentCreate.brand_id cd /\
    Comment.content c = CommentCreate.content cd /\
    Comment.has_response c = false /\
    comments (db (core st'))
    = comments (db (core st)) ++ [Comment.dict (stored_comment c)] /\
    mentions (db (core st')) = mentions (db (core st)) /\
    posts (db (core st')) = posts (db (core st)) /\
    brands st' = brands st.
Proof.
  intros Hok.
  destruct (create_comment_served pc fp cd
              (later_env env (List.length (calls st))) (core st)
              (no_faults_later env _ Hok))
    as (c & s' & Hrun & Hb & Hcont & Hresp & Hc & Hm & Hp).
  exists c, (mkStore s' (brands st) (calls st)).
  unfold lift. rewrite Hrun. cbn [fst snd core brands].
  repeat split; assumption.
Qed.

Lemma choice_in {A} rb k (seq : list A) d :
  draws_in_range rb -> seq <> [] -> In (choice rb k seq d) seq.
Proof.
  intros Hrb Hne. unfold choice. apply nth_In. apply Hrb.
  destruct seq; [congruence|cbn; lia].
Qed.

(** The inner loop: one comment of the brand per index. *)
Lemma generate_comments_served pc fp rb brand env :
  no_faults env -> draws_in_range rb ->
  forall indices draws st,
  exists chunk draws' st',
    for_each indices (generate_comment pc fp rb brand) draws env st
    = (Returned draws', st') /\
    comments (db (core st')) = comments (db (core st)) ++ chunk /\
    List.length chunk = List.length indices /\
    Forall (sample_comment_of brand) chunk /\
    mentions (db (core st')) = mentions (db (core st)) /\
    posts (db (core st')) = posts (db (core st)) /\
    brands st' = brands st.
Proof.
  intros Hok Hrb indices.
  induction indices as [|i rest IH]; intros draws st.
  - exists [], draws, st. cbn [for_each hret]. rewrite app_nil_r.
    repeat split. constructor.
  - cbn [for_each]. unfold generate_comment at 1.
    set (cd := CommentCreate.mk _ _ _ _ _ _ _).
    destruct (lift_create_comment_served pc fp cd env st Hok)
      as (c & st1 & Hrun & Hb & Hcont & Hresp & Hc & Hm & Hp & Hbr).
    rewrite hrun_bind. unfold hbind at 1. rewrite Hrun.
    rewrite hrun_ret.
    destruct (IH (S (S draws)) st1)
      as (chunk & draws' & st' & Hloop & Hc' & Hlen & Hall & Hm' & Hp'
          & Hbr').
    exists (Comment.dict (stored_comment c) :: chunk), draws', st'.
    rewrite Hloop, Hc', Hc, Hm', Hm, Hp', Hp, Hbr', Hbr, <- app_assoc.
    repeat split.
    + cbn [List.length]. rewrite Hlen. reflexivity.
    + constructor; [|exact Hall].
      exists (stored_comment c).
      cbn [stored_comment Comment.brand_id Comment.content
           Comment.has_response].
      repeat split; try assumption.
      rewrite Hcont. apply choice_in; [exact Hrb|discriminate].
Qed.

(** The outer loop: twenty comments per brand, brand after brand. *)
Lemma generate_all_comments_served pc fp rb env :
  no_faults env -> draws_in_range rb ->
  forall created_brands draws st,
  exists chunks draws' st',
    for_each created_brands
      (fun brand draws =>
         for_each (seq 0 20) (generate_comment pc fp rb brand) draws)
      draws env st
    = (Returned draws', st') /\
    comments (db (core st')) = comments (db (core st)) ++ List.concat chunks /\
    Forall2
      (fun brand chunk =>
         List.length chunk = 20%nat /\
         Forall (sample_comment_of brand) chunk)
      created_brands chunks /\
    mentions (db (core st')) = mentions (db (core st)) /\
    posts (db (core st')) = posts (db (core st)) /\
    brands st' = brands st.
Proof.
  intros Hok Hrb created_brands.
  induction created_brands as [|brand rest IH]; intros draws st.
  - exists [], draws, st. cbn [for_each hret List.concat]. rewrite app_nil_r.
    repeat split. constructor.
  - cbn [for_each].
    destruct (generate_comments_served pc fp rb brand env Hok Hrb
                (seq 0 20) draws st)
      as (chunk & draws1 & st1 & Hrun & Hc & Hlen & Hall & Hm & Hp & Hbr).
    unfold hbind at 1. rewrite Hrun.
    destruct (IH draws1 st1)
      as (chunks & draws' & st' & Hloop & Hc' & Hall' & Hm' & Hp' & Hbr').
    exists (chunk :: chunks), draws', st'.
    rewrite Hloop, Hc', Hc, Hm', Hm, Hp', Hp, Hbr', Hbr.
    cbn [List.concat]. rewrite <- app_assoc.
    repeat split.
    constructor; [|exact Hall'].
    split; [rewrite Hlen; reflexivity|exact Hall].
Qed.

(** The first loop, one round: the brand is stored and remembered. *)
Lemma hrun_generate_brand {B} (brand_data : BrandCreate.t)
    (created_brands : list Brand.t) (k : list Brand.t -> Handler B) env st :
  no_faults env ->
  let brand :=
    Brand.mk (uuids env (uuid_draws (core st)))
      (BrandCreate.name brand_data)
      (BrandCreate.value (BrandCreate.facebook_page_id brand_data))
      (BrandCreate.value (BrandCreate.instagram_business_id brand_data))
      (clock env (clock_reads (core st))) true [] in
  hbind (generate_brand brand_data created_brands) k env st
  = k (created_brands ++ [brand]) env
      (mkStore (clock_read (uuid_drawn (core st)))
         (brands st ++ [Brand.dict (stored_brand brand)])
         (calls st ++ [InsertBrand (Brand.dict brand)])).
Proof.
  intros Hok brand. unfold generate_brand, insert_brand.
  hsteps. cbn [fst snd with_documents called core brands calls].
  rewrite bson_brand_dict. reflexivity.
Qed.

(** X18: with the storage serving, [generate_sample_data] answers that
    three brands were created; it has appended to [db.brands] three active
    brands named TechCorp, FoodiePlace and FashionBrand, in that order, and
    to [db.comments] twenty comments for each of them, brand after brand,
    each with a text of the sample list and not yet responded to. The
    brands and comments stored before are kept, so a second call adds three
    more brands of the same names; mentions and posts are left alone. The
    random generator draws its indices below the length of the sequence. *)
Theorem generate_sample_data_served
    (polarity_compound : string -> float) (format_percent : float -> string)
    (randbelow : nat -> nat -> nat) (env : Env) (st : Store) :
  no_faults env -> draws_in_range randbelow ->
  let out :=
    generate_sample_data polarity_compound format_percent randbelow env st
  in
  fst out
  = Returned [("message", VStr "Sample data generated successfully");
              ("brands_created", VInt 3)] /\
  exists created_brands chunks,
    brands (snd out) = brands st ++ map Brand.dict created_brands /\
    map Brand.name created_brands
    = ["TechCorp"; "FoodiePlace"; "FashionBrand"] /\
    Forall (fun brand => Brand.is_active brand = true) created_brands /\
    comments (db (core (snd out)))
    = comments (db (core st)) ++ List.concat chunks /\
    Forall2
      (fun brand chunk =>
         List.length chunk = 20%nat /\
         Forall (sample_comment_of brand) chunk)
      created_brands chunks /\
    mentions (db (core (snd out))) = mentions (db (core st)) /\
    posts (db (core (snd out))) = posts (db (core st)).
Proof.
  intros Hok Hrb out.
  set (b1 :=
    Brand.mk (uuids env (uuid_draws (core st))) "TechCorp"
      (Some "tech_corp_fb") (Some "tech_corp_ig")
      (clock env (clock_reads (core st))) true []).
  set (b2 :=
    Brand.mk (uuids env (S (uuid_draws (core st)))) "FoodiePlace"
      (Some "foodie_place_fb") (Some "foodie_place_ig")
      (clock env (S (clock_reads (core st)))) true []).
  set (b3 :=
    Brand.mk (uuids env (S (S (uuid_draws (core st))))) "FashionBrand"
      (Some "fashion_brand_fb") (Some "fashion_brand_ig")
      (clock env (S (S (clock_reads (core st))))) true []).
  assert (Hrun : exists chunks st',
    out = (Returned [("message", VStr "Sample data generated successfully");
                     ("brands_created", VInt 3)], st') /\
    brands st'
    = brands st ++ map Brand.dict (map stored_brand [b1; b2; b3]) /\
    comments (db (core st'))
    = comments (db (core st)) ++ List.concat chunks /\
    Forall2
      (fun brand chunk =>
         List.length chunk = 20%nat /\
         Forall (sample_comment_of brand) chunk)
      [b1; b2; b3] chunks /\
    mentions (db (core st')) = mentions (db (core st)) /\
    posts (db (core st')) = posts (db (core st))).
  { subst out. unfold generate_sample_data, sample_brands. cbn [for_each].
    rewrite hrun_bind, hrun_generate_brand by exact Hok.
    rewrite hrun_bind, hrun_generate_brand by exact Hok.
    rewrite hrun_bind, hrun_generate_brand by exact Hok.
    rewrite hrun_ret.
    cbn [app core brands calls uuid_drawn clock_read uuid_draws clock_reads
         BrandCreate.name BrandCreate.value BrandCreate.facebook_page_id
         BrandCreate.instagram_business_id].
    fold b1 b2 b3.
    set (st1 := mkStore _ _ _).
    destruct (generate_all_comments_served polarity_compound format_percent
                randbelow env Hok Hrb [b1; b2; b3] 0%nat st1)
      as (chunks & draws' & st' & Hloop & Hc & Hall & Hm & Hp & Hbr).
    exists chunks, st'.
    unfold hbind. rewrite Hloop. cbn [hret].
    rewrite Hc, Hm, Hp, Hbr. unfold st1. cbn [brands core map].
    fold b1 b2 b3.
    rewrite <- !app_assoc. cbn [app].
    repeat split; assumption. }
  destruct Hrun as (chunks & st' & -> & Hbr & Hc & Hall & Hm & Hp).
  cbn [fst snd]. split; [reflexivity|].
  exists (map stored_brand [b1; b2; b3]), chunks.
  repeat split; try assumption.
  - repeat constructor.
  - inversion Hall as [|? c1 ? l1 H1 Hall1]; subst.
    inversion Hall1 as [|? c2 ? l2 H2 Hall2]; subst.
    inversion Hall2 as [|? c3 ? l3 H3 Hall3]; subst.
    inversion Hall3; subst.
    repeat constructor; first [apply H1|apply H2|apply H3].
Qed.

Lemma generate_sample_data_served_witness :
  fst (generate_sample_data polarity_stub percent_stub (fun _ _ => 0%nat)
         quiet_env (store_of [] [] []))
  = Returned [("message", VStr "Sample data generated successfully");
              ("brands_created", VInt 3)].
Proof.
  refine (proj1 (generate_sample_data_served polarity_stub percent_stub
                   (fun _ _ => 0%nat) quiet_env (store_of [] [] [])
                   (fun k => eq_refl) _)).
  intros k n Hn. exact Hn.
Defined.

(** ** Whatever the storage does *)

Lemma grown_refl st : grown 0 0 0 0 st st.
Proof.
  repeat split; try lia; exists []; rewrite app_nil_r;
    split; reflexivity || (cbn; lia).
Qed.

Lemma grown_weaken nb nc na nr nb' nc' na' nr' st st' :
  grown nb nc na nr st st' ->
  (nb <= nb')%nat -> (nc <= nc')%nat -> (na <= na')%nat ->
  (nr <= nr')%nat ->
  grown nb' nc' na' nr' st st'.
Proof.
  intros ((b & Hb & Hlb) & (c & Hc & Hlc) & (a & Ha & Hla) & Hm & Hp & Hs)
    Hnb Hnc Hna Hnr.
  repeat split; try assumption; try lia;
    [exists b|exists c|exists a]; split; assumption || lia.
Qed.

Lemma grown_trans nb nc na nr nb' nc' na' nr' st st1 st2 :
  grown nb nc na nr st st1 -> grown nb' nc' na' nr' st1 st2 ->
  grown (nb + nb') (nc + nc') (na + na') (nr + nr') st st2.
Proof.
  intros ((b & Hb & Hlb) & (c & Hc & Hlc) & (a & Ha & Hla) & Hm & Hp & Hs)
    ((b' & Hb' & Hlb') & (c' & Hc' & Hlc') & (a' & Ha' & Hla') & Hm' & Hp'
     & Hs').
  repeat split; try congruence; try lia.
  - exists (b ++ b'). rewrite Hb', Hb, app_assoc, length_app.
    split; [reflexivity|lia].
  - exists (c ++ c'). rewrite Hc', Hc, app_assoc, length_app.
    split; [reflexivity|lia].
  - exists (a ++ a'). rewrite Ha', Ha, app_assoc, length_app.
    split; [reflexivity|lia].
Qed.

Lemma only_appends_weaken nb nc na nr nb' nc' na' nr' {A}
    (Q Q' : A -> Prop) (m : Handler A) :
  only_appends nb nc na nr Q m ->
  (nb <= nb')%nat -> (nc <= nc')%nat -> (na <= na')%nat ->
  (nr <= nr')%nat -> (forall a, Q a -> Q' a) ->
  only_appends nb' nc' na' nr' Q' m.
Proof.
  intros Hm Hnb Hnc Hna Hnr HQ env st. destruct (Hm env st) as [Hg Hr].
  split; [exact (grown_weaken _ _ _ _ _ _ _ _ _ _ Hg Hnb Hnc Hna Hnr)|].
  destruct (fst (m env st)); auto.
Qed.

Lemma only_appends_hret {A} (Q : A -> Prop) (a : A) :
  Q a -> only_appends 0 0 0 0 Q (hret a).
Proof. intros Ha env st. split; [apply grown_refl|exact Ha]. Qed.

Lemma only_appends_hbind nb nc na nr nb' nc' na' nr' {A B}
    (Q : A -> Prop) (Q' : B -> Prop) (m : Handler A) (k : A -> Handler B) :
  only_appends nb nc na nr Q m ->
  (forall a, Q a -> only_appends nb' nc' na' nr' Q' (k a)) ->
  only_appends (nb + nb') (nc + nc') (na + na') (nr + nr') Q' (hbind m k).
Proof.
  intros Hm Hk env st. unfold hbind.
  destruct (Hm env st) as [Hg Hr].
  destruct (m env st) as [[a|f] st1]; cbn [fst snd] in *.
  - destruct (Hk a Hr env st1) as [Hg' Hr'].
    split; [exact (grown_trans _ _ _ _ _ _ _ _ _ _ _ Hg Hg')|exact Hr'].
  - split; [|exact Hr].
    apply (grown_weaken _ _ _ _ _ _ _ _ _ _ Hg); lia.
Qed.

Lemma grown_same nr st st' :
  brands st' = brands st -> db (core st') = db (core st) ->
  (total_sent st <= total_sent st' <= total_sent st + nr)%nat ->
  grown 0 0 0 nr st st'.
Proof.
  intros Hb Hd Hs. unfold grown. rewrite Hb, Hd.
  repeat split; try lia;
    exists []; rewrite app_nil_r; split; reflexivity || (cbn; lia).
Qed.

Lemma only_appends_utcnow :
  only_appends 0 0 0 0 (fun _ => True) (lift utcnow).
Proof.
  intros env st. split; [|exact I].
  apply grown_same; try reflexivity.
  unfold total_sent, lift, utcnow. cbn [fst snd core calls].
  rewrite sent_clock_read. lia.
Qed.

Lemma only_appends_uuid4 :
  only_appends 0 0 0 0 (fun _ => True) (lift uuid4).
Proof.
  intros env st. split; [|exact I].
  apply grown_same; try reflexivity.
  unfold total_sent, lift, uuid4. cbn [fst snd core calls].
  rewrite sent_uuid_drawn. lia.
Qed.

Lemma only_appends_insert_brand doc :
  only_appends 1 0 0 1 (fun _ => True) (insert_brand doc).
Proof.
  intros env st. unfold insert_brand, driver_call.
  destruct (storage_fault env (total_sent st)); cbn [fst snd];
    (split; [|reflexivity || exact I]).
  - apply (grown_weaken 0 0 0 1); try lia.
    apply grown_same; try reflexivity.
    unfold total_sent. cbn [called core calls]. rewrite length_app.
    cbn. lia.
  - unfold grown, total_sent.
    cbn [called core brands calls with_documents]. rewrite length_app.
    cbn [List.length].
    repeat split; try lia.
    + exists [bson doc]. split; reflexivity || (cbn; lia).
    + exists []. rewrite app_nil_r. split; reflexivity || (cbn; lia).
    + exists []. rewrite app_nil_r. split; reflexivity || (cbn; lia).
Qed.

Lemma only_appends_create_comment pc fp cd :
  only_appends 0 1 2 6 (fun _ => True) (lift (create_comment pc fp cd)).
Proof.
  intros env st. unfold lift.
  destruct (create_comment_appends pc fp
              (later_env env (List.length (calls st))) (core st) cd)
    as ((c & Hc & Hlc) & (a & Ha & Hla & _) & Hm & Hp & Hs).
  cbn [fst snd]. split.
  - repeat split; cbn [core brands calls]; try assumption;
      try (unfold total_sent; cbn [core calls]; lia).
    + exists []. rewrite app_nil_r. split; reflexivity || (cbn; lia).
    + exists c. split; assumption.
    + exists a. split; assumption.
  - destruct (fst _) as [c'|[]]; [exact I|reflexivity].
Qed.

(** A loop: the bounds of one round, times the number of rounds. [Inv i]
    holds of the local variables after [i] rounds. *)
Lemma only_appends_for_each nb nc na nr {A S} (Inv : nat -> S -> Prop)
    (body : A -> S -> Handler S) :
  (forall x i acc, Inv i acc ->
     only_appends nb nc na nr (Inv (Datatypes.S i)) (body x acc)) ->
  forall items i acc, Inv i acc ->
    only_appends (List.length items * nb) (List.length items * nc)
      (List.length items * na) (List.length items * nr)
      (Inv (i + List.length items)%nat) (for_each items body acc).
Proof.
  intros Hbody items.
  induction items as [|x rest IH]; intros i acc Hacc; cbn [for_each].
  - cbn [List.length]. rewrite Nat.add_0_r.
    apply only_appends_hret. exact Hacc.
  - cbn [List.length Nat.mul].
    apply (only_appends_hbind _ _ _ _ _ _ _ _ (Inv (Datatypes.S i)));
      [apply Hbody; exact Hacc|].
    intros acc' Hacc'.
    replace (i + Datatypes.S (List.length rest))%nat
      with (Datatypes.S i + List.length rest)%nat by lia.
    apply IH. exact Hacc'.
Qed.

Lemma only_appends_generate_brand brand_data created_brands :
  only_appends 1 0 0 1
    (fun created =>
       List.length created = Datatypes.S (List.length created_brands))
    (generate_brand brand_data created_brands).
Proof.
  unfold generate_brand.
  apply (only_appends_hbind 0 0 0 0 1 0 0 1 (fun _ => True));
    [apply only_appends_uuid4|intros id _].
  apply (only_appends_hbind 0 0 0 0 1 0 0 1 (fun _ => True));
    [apply only_appends_utcnow|intros created_at _].
  apply (only_appends_hbind 1 0 0 1 0 0 0 0 (fun _ => True));
    [apply only_appends_insert_brand|intros _ _].
  apply only_appends_hret. rewrite length_app. cbn. lia.
Qed.

Lemma only_appends_generate_comment pc fp rb brand i draws :
  only_appends 0 1 2 6 (fun _ => True)
    (generate_comment pc fp rb brand i draws).
Proof.
  unfold generate_comment.
  apply (only_appends_hbind 0 1 2 6 0 0 0 0 (fun _ => True));
    [apply only_appends_create_comment|intros _ _].
  apply only_appends_hret. exact I.
Qed.


(** X19: whatever the storage does, [generate_sample_data] only appends:
    at most 3 brands, 60 comments and 120 alerts are added at the end of
    their collections, no document stored before is changed or removed,
    mentions and posts are left alone, and at most 363 requests are sent.
    It fails only when a request to the storage does, and when it returns
    it reports three brands. *)
Theorem generate_sample_data_only_appends
    (polarity_compound : string -> float) (format_percent : float -> string)
    (randbelow : nat -> nat -> nat) (env : Env) (st : Store) :
  let out :=
    generate_sample_data polarity_compound format_percent randbelow env st
  in
  grown 3 60 120 363 st (snd out) /\
  match fst out with
  | Returned r =>
      r = [("message", VStr "Sample data generated successfully");
           ("brands_created", VInt 3)]
  | Failed f => f = Unhandled StorageUnavailable
  end.
Proof.
  revert env st.
  change (only_appends 3 60 120 363
            (fun r =>
               r = [("message", VStr "Sample data generated successfully");
                    ("brands_created", VInt 3)])
            (generate_sample_data polarity_compound format_percent
               randbelow)).
  unfold generate_sample_data.
  apply (only_appends_hbind 3 0 0 3 0 60 120 360
           (fun created => List.length created = 3%nat)).
  { apply (only_appends_for_each 1 0 0 1
             (fun i created => List.length created = i)
             generate_brand
             (fun x i acc Hacc =>
                only_appends_weaken _ _ _ _ _ _ _ _ _ _ _
                  (only_appends_generate_brand x acc)
                  (le_n _) (le_n _) (le_n _) (le_n _)
                  (fun a Ha => eq_trans Ha (f_equal Datatypes.S Hacc)))
             sample_brands 0%nat []).
    reflexivity. }
  intros created_brands Hlen.
  apply (only_appends_hbind 0 60 120 360 0 0 0 0 (fun _ => True)).
  - apply (only_appends_weaken
             (List.length created_brands * 0)
             (List.length created_brands * 20)
             (List.length created_brands * 40)
             (List.length created_brands * 120) 0 60 120 360
             (fun _ => True) (fun _ => True));
      try (rewrite Hlen; cbn; lia); [|intros _ _; exact I].
    apply (only_appends_for_each 0 20 40 120 (fun _ _ => True)
             (fun brand draws =>
                for_each (seq 0 20)
                  (generate_comment polarity_compound format_percent
                     randbelow brand) draws))
      with (i := 0%nat); try exact I.
    intros brand i draws _.
    apply (only_appends_weaken (20 * 0) (20 * 1) (20 * 2) (20 * 6)
             0 20 40 120 (fun _ => True) (fun _ => True));
      try (cbn; lia).
    apply (only_appends_for_each 0 1 2 6 (fun _ _ => True)
             (generate_comment polarity_compound format_percent
                     randbelow brand))
      with (items := seq 0 20) (i := 0%nat); try exact I.
    intros x j acc _. apply only_appends_generate_comment.
  - intros _ _. apply only_appends_hret.
    unfold len. rewrite Hlen. reflexivity.
Qed.

(** X20: [generate_sample_data] is not all or nothing: when the storage
    serves the first insert and fails the second, the call fails and the
    first brand stays stored. *)
Theorem generate_sample_data_not_atomic
    (polarity_compound : string -> float) (format_percent : float -> string)
    (randbelow : nat -> nat -> nat) :
  ~ all_or_nothing
      (generate_sample_data polarity_compound format_percent randbelow).
Proof.
  intros Hatomic.
  specialize (Hatomic (failing_at 1) (store_of [] [] [])).
  unfold generate_sample_data, sample_brands in Hatomic.
  cbn [for_each] in Hatomic.
  rewrite hrun_bind in Hatomic.
  unfold generate_brand at 1, insert_brand in Hatomic.
  rewrite hrun_bind, hrun_uuid4, hrun_bind, hrun_utcnow, hrun_bind
    in Hatomic.
  rewrite hrun_driver_call in Hatomic by reflexivity.
  rewrite hrun_ret, hrun_bind in Hatomic.
  unfold generate_brand at 1, insert_brand in Hatomic.
  rewrite hrun_bind, hrun_uuid4, hrun_bind, hrun_utcnow, hrun_bind
    in Hatomic.
  rewrite hrun_driver_fault in Hatomic by reflexivity.
  cbn [fst snd] in Hatomic. destruct Hatomic as [_ Hbrands].
  discriminate Hbrands.
Qed.
